(** * Meraki Secure Connect client: retrying executor, site operations, pagination

    A shallow embedding of [client.go]: the client record, the retrying
    request executor [doRequestWithRetry], the create and delete operations
    and the paginated list operation [GetSecureConnectSites], followed by the
    properties proved about them. The Terraform functions that call the
    client (the data source read, the resource's create and delete, the
    provider's configuration) are embedded after the client.

    Conventions of the embedding.
    - Go's [int] is a [Z] in the 64-bit signed range; the only arithmetic the
      client does on it, [attempt++], is written with its wrap-around.
    - Go strings are byte strings: [string] with one [ascii] per byte.
    - An [error] is represented by its message.
    - The network, the clock and the caller's cancellation signal are inputs:
      the transport answers the k-th call made through it, and the context
      says whether its [Done] channel wins the wait that follows a call.
    - Effects are explicit: a [World] records the requests handed to the
      transport, the response bodies closed so far and the back-off waits.
    - Packages the client imports ([encoding/json], URL parsing in
      [net/http]) are parameters of the development. For the two decoding
      attempts of the list operation there is, besides, a model of the
      decoder of [encoding/json] on the two types it is called with. *)

From Stdlib Require Import ZArith String Ascii Lia.
From stdpp Require Import base option list strings gmap pretty sorting.

#[local] Set Warnings "-register-all".
#[local] Open Scope Z_scope.

(** ** Machine integers *)

Definition max_int : Z := 9223372036854775807.

(** [x + 1] on a 64-bit signed [int]. *)
Definition int_succ (x : Z) : Z :=
  if x + 1 >? max_int then x + 1 - 18446744073709551616 else x + 1.

(** ** The [strings] package, as far as the client uses it *)

Module strings.

#[local] Close Scope Z_scope.

Definition dquote : string := String (ascii_of_nat 34) EmptyString.

(** [strings.HasPrefix]. *)
Fixpoint HasPrefix (s prefix : string) {struct prefix} : bool :=
  match prefix, s with
  | EmptyString, _ => true
  | String _ _, EmptyString => false
  | String p prefix', String c s' => Ascii.eqb c p && HasPrefix s' prefix'
  end.

(** [strings.Index]: byte offset of the first occurrence, or -1. *)
Fixpoint Index (s substr : string) : Z :=
  if HasPrefix s substr then 0%Z
  else match s with
       | EmptyString => (-1)%Z
       | String _ s' =>
           let i := Index s' substr in
           if (i =? -1)%Z then (-1)%Z else (i + 1)%Z
       end.

(** [strings.Contains]. *)
Definition Contains (s substr : string) : bool := (Index s substr >=? 0)%Z.

(** [strings.Split] for a one-byte separator (the client splits on ","). *)
Fixpoint Split (s : string) (sep : ascii) : list string :=
  match s with
  | EmptyString => [EmptyString]
  | String c s' =>
      if Ascii.eqb c sep then EmptyString :: Split s' sep
      else match Split s' sep with
           | [] => [String c EmptyString]
           | p :: ps => String c p :: ps
           end
  end.

Definition bytes (l : list nat) : string :=
  fold_right (fun n s => String (ascii_of_nat n) s) EmptyString l.

(** The UTF-8 encodings of the runes for which [unicode.IsSpace] holds:
    tab, LF, VT, FF, CR, space, U+0085, U+00A0, U+1680, U+2000..U+200A,
    U+2028, U+2029, U+202F, U+205F, U+3000. *)
Definition space_runes : list string :=
  map bytes
    ([ [9]; [10]; [11]; [12]; [13]; [32]; [194; 133]; [194; 160];
       [225; 154; 128] ]
     ++ map (fun k => [226; 128; k]) (seq 128 11)
     ++ [ [226; 128; 168]; [226; 128; 169]; [226; 128; 175];
          [226; 129; 159]; [227; 128; 128] ])%list.

Fixpoint drop_bytes (n : nat) (s : string) : string :=
  match n, s with
  | O, _ => s
  | S _, EmptyString => EmptyString
  | S n', String _ s' => drop_bytes n' s'
  end.

(** Length of the space rune that [s] starts with, if any. *)
Definition leading_space (runes : list string) (s : string) : option nat :=
  String.length <$> List.find (fun r => HasPrefix s r) runes.

Fixpoint trim_left (fuel : nat) (runes : list string) (s : string) : string :=
  match fuel with
  | O => s
  | S fuel' =>
      match leading_space runes s with
      | Some (S n) => trim_left fuel' runes (drop_bytes (S n) s)
      | _ => s
      end
  end.

Definition TrimLeftSpace (s : string) : string :=
  trim_left (String.length s) space_runes s.

Definition TrimRightSpace (s : string) : string :=
  String.rev
    (trim_left (String.length s) (map String.rev space_runes) (String.rev s)).

(** [strings.TrimSpace]: leading, then trailing white space removed. *)
Definition TrimSpace (s : string) : string :=
  TrimRightSpace (TrimLeftSpace s).

(** The Go slice expression [s[lo:hi]] for [0 <= lo <= hi <= len(s)]. *)
Definition slice (s : string) (lo hi : Z) : string :=
  String.substring (Z.to_nat lo) (Z.to_nat (hi - lo)) s.

End strings.

(** ** Requests, responses and the world *)

Definition error : Type := string.

(** An [*http.Request]. [ReqBody] is what the buffer the request was built
    around holds when it is built. The transport reads that buffer at the
    first attempt; a retry hands the same request over again, buffer
    included, and what is then left in the buffer is not part of the
    record. *)
Record Request := mkRequest {
  Method : string;
  URL : string;
  ReqHeader : gmap string string;
  ReqBody : option string
}.

(** A response body: the connection stream it reads from, what reading it
    to the end yields while it is open, and what reading it yields once it
    has been closed. The last is the transport's business: a body that
    reads from the connection fails with the transport's error for a closed
    body, whereas [http.NoBody], the body of a response without content,
    still reads as empty, its [Close] doing nothing. *)
Record BodyT := mkBody {
  stream : nat;
  payload : error + string;
  closedRead : error + string
}.

Record Response := mkResponse {
  StatusCode : Z;
  Status : string;
  Header : gmap string string;
  Body : BodyT
}.

Record World := mkWorld {
  sent : list Request;      (* requests handed to the transport, oldest first *)
  closed : list nat;        (* streams of the bodies closed so far *)
  waits : list Z            (* attempt indices after which a back-off wait began *)
}.

Definition world0 : World := mkWorld [] [] [].

(** The caller's [context.Context]: whether [Done] fires before the back-off
    timer in the wait that follows the k-th transport call, and [Err()]. *)
Record Context := mkContext {
  Done : nat -> bool;
  Err : error
}.

(** Outcome of running an operation: it returns, it panics on a nil
    dereference, or the step budget of the model ran out. *)
Inductive Res (A : Type) : Type :=
| Ok (a : A) (w : World)
| Panic (w : World)
| OutOfFuel.
Arguments Ok {A} a w.
Arguments Panic {A} w.
Arguments OutOfFuel {A}.

Record MerakiClient := mkClient {
  apiKey : string;
  baseURL : string;
  httpClient : nat -> Request -> error + Response;
  maxRetries : Z
}.

Definition NewClient (transport : nat -> Request -> error + Response)
    (apiKey baseURL : string) : MerakiClient :=
  mkClient apiKey baseURL transport 3.

Definition SetMaxRetries (c : MerakiClient) (n : Z) : MerakiClient :=
  mkClient (apiKey c) (baseURL c) (httpClient c) n.

Definition Header_Set (k v : string) (r : Request) : Request :=
  mkRequest (Method r) (URL r) (<[k := v]> (ReqHeader r)) (ReqBody r).

Definition Header_Get (h : gmap string string) (k : string) : string :=
  default EmptyString (h !! k).

(** [resp.Body.Close()]. *)
Definition Close (r : Response) (w : World) : World :=
  mkWorld (sent w) (closed w ++ [stream (Body r)]) (waits w).

(** The error of the HTTP/1 transport for a read of a closed body. *)
Definition errReadOnClosedBody : error := "http: read on closed response body".

(** A body that reads [data] from an HTTP/1 connection. *)
Definition connBody (data : string) : BodyT :=
  mkBody 0 (inr data) (inl errReadOnClosedBody).

(** [http.NoBody]. *)
Definition NoBody : BodyT := mkBody 0 (inr EmptyString) (inr EmptyString).

(** [io.ReadAll(resp.Body)]. *)
Definition ReadAll (r : Response) (w : World) : error + string :=
  if bool_decide (stream (Body r) ∈ closed w) then closedRead (Body r)
  else payload (Body r).

(** The response the client holds after the [k]-th transport call answered
    [r]: [r], with a body that reads from a stream of its own. *)
Definition received (k : nat) (r : Response) : Response :=
  mkResponse (StatusCode r) (Status r) (Header r)
    (mkBody k (payload (Body r)) (closedRead (Body r))).

(** [c.httpClient.Do(req)]: the request is handed to the transport, which
    answers. The answer may depend on the number of the call as well as on
    the request. *)
Definition Do (c : MerakiClient) (req : Request) (w : World)
    : (error + Response) * World :=
  let k := length (sent w) in
  let w' := mkWorld (sent w ++ [req]) (closed w) (waits w) in
  match httpClient c k req with
  | inl e => (inl e, w')
  | inr r => (inr (received k r), w')
  end.

Definition begin_wait (attempt : Z) (w : World) : World :=
  mkWorld (sent w) (closed w) (waits w ++ [attempt]).

(** ** The retrying executor *)

(** The loop of [doRequestWithRetry]: [attempt] is the loop counter and
    [resp] the variable declared before the loop. *)
Fixpoint retryLoop (fuel : nat) (c : MerakiClient) (ctx : Context)
    (req : Request) (attempt : Z) (resp : option Response) (w : World)
    : Res (option Response * option error) :=
  match fuel with
  | O => OutOfFuel
  | S fuel' =>
      if attempt <=? maxRetries c then
        match Do c req w with
        | (inl err, w1) => Ok (None, Some err) w1
        | (inr r, w1) =>
            if StatusCode r <? 300 then Ok (Some r, None) w1
            else if (StatusCode r >=? 400) && (StatusCode r <? 500)
                    && negb (StatusCode r =? 429)
            then Ok (Some r, None) w1
            else if attempt <? maxRetries c then
              let w2 := begin_wait attempt w1 in
              if Done ctx (length (sent w2)) then
                Ok (None, Some (Err ctx)) (Close r w2)
              else
                retryLoop fuel' c ctx req (int_succ attempt) (Some r)
                  (Close r w2)
            else
              retryLoop fuel' c ctx req (int_succ attempt) (Some r)
                (Close r w1)
        end
      else Ok (resp, None) w
  end.

Definition doRequestWithRetry (fuel : nat) (c : MerakiClient) (ctx : Context)
    (req : Request) (w : World) : Res (option Response * option error) :=
  retryLoop fuel c ctx req 0 None w.

(** ** Values handed to [json.Marshal] *)

Inductive GoValue : Type :=
| VString (s : string)
| VStrings (l : list string)               (* []string *)
| VStringMap (m : gmap string string)      (* map[string]string *)
| VList (l : list GoValue)                 (* []interface{} *)
| VMap (m : gmap string GoValue).          (* map[string]interface{} *)

(** ** Link header parsing *)

Definition rel_next_quoted : string :=
  "rel=" +:+ strings.dquote +:+ "next" +:+ strings.dquote.
Definition rel_next_bare : string := "rel=next".

(** The [for _, link := range links] loop of [GetSecureConnectSites]; the
    result is the value of [nextURL] when the loop is left. *)
Fixpoint scanLinks (links : list string) : string :=
  match links with
  | [] => EmptyString
  | link :: rest =>
      let link := strings.TrimSpace link in
      if strings.Contains link rel_next_quoted
         || strings.Contains link rel_next_bare
      then
        let start := strings.Index link "<" in
        let end_ := strings.Index link ">" in
        if negb (start =? -1) && negb (end_ =? -1) && (end_ >? start)
        then strings.slice link (start + 1) end_
        else scanLinks rest
      else scanLinks rest
  end.

Definition comma : ascii := ascii_of_nat 44.

Definition nextURL_of (linkHeader : string) : string :=
  scanLinks (strings.Split linkHeader comma).

(** ** The operations of the client *)

Section Operations.

(** A decoded site record, [map[string]interface{}]. *)
Context {SiteRecord : Type}.

(** [json.Marshal] on the request bodies the client builds (it cannot fail
    on them; the client drops its error result). *)
Variable json_Marshal : GoValue -> string.

(** [json.Unmarshal(body, &apiResponse)] for
    [struct { Data []map[string]interface{} `json:"data"` }]:
    the [Data] field on success, [None] on error. *)
Variable json_Unmarshal_apiResponse : string -> option (list SiteRecord).

(** [json.Unmarshal(body, &directData)] for [[]map[string]interface{}]. *)
Variable json_Unmarshal_directData : string -> option (list SiteRecord).

(** The error, if any, with which [http.NewRequestWithContext] rejects a
    method and raw URL. *)
Variable newRequestError : string -> string -> option error.

Definition NewRequestWithContext (method url : string) (body : option string)
    : error + Request :=
  match newRequestError method url with
  | Some e => inl e
  | None => inr (mkRequest method url ∅ body)
  end.

Definition set_headers (c : MerakiClient) (req : Request) : Request :=
  Header_Set "X-Cisco-Meraki-API-Key" (apiKey c)
    (Header_Set "Accept" "application/json"
       (Header_Set "Content-Type" "application/json" req)).

Definition sites_url (c : MerakiClient) (orgID : string) : string :=
  baseURL c +:+ "/organizations/" +:+ orgID +:+ "/secureConnect/sites".

(** The [enrollment] map of [CreateSecureConnectSite]. *)
Definition create_enrollment (siteID regionType regionID regionName : string)
    : gmap string string :=
  let enrollment : gmap string string :=
    <["regionType" := regionType]> (<["siteId" := siteID]> ∅) in
  let enrollment :=
    if String.eqb regionID EmptyString then enrollment
    else <["regionId" := regionID]> enrollment in
  if String.eqb regionName EmptyString then enrollment
  else <["regionName" := regionName]> enrollment.

Definition create_body (siteID regionType regionID regionName : string)
    : GoValue :=
  VMap {[ "enrollments" :=
            VList [VStringMap
                     (create_enrollment siteID regionType regionID
                        regionName)] ]}.

Definition delete_body (siteID : string) : GoValue :=
  VMap {[ "sites" := VStrings [siteID] ]}.

(** [CreateSecureConnectSite]. The deferred [resp.Body.Close()] panics when
    [resp] is nil and otherwise runs on return. *)
Definition CreateSecureConnectSite (fuel : nat) (c : MerakiClient)
    (ctx : Context) (orgID siteID regionType regionID regionName : string)
    (w : World) : Res (option error) :=
  let url := sites_url c orgID in
  let bodyBytes :=
    json_Marshal (create_body siteID regionType regionID regionName) in
  match NewRequestWithContext "POST" url (Some bodyBytes) with
  | inl err => Ok (Some err) w
  | inr req =>
      match doRequestWithRetry fuel c ctx (set_headers c req) w with
      | OutOfFuel => OutOfFuel
      | Panic w1 => Panic w1
      | Ok (_, Some err) w1 => Ok (Some err) w1
      | Ok (None, None) w1 => Panic w1
      | Ok (Some resp, None) w1 =>
          if StatusCode resp >=? 300
          then Ok (Some ("create failed: " +:+ Status resp)) (Close resp w1)
          else Ok None (Close resp w1)
      end
  end.

(** [DeleteSecureConnectSites]. *)
Definition DeleteSecureConnectSites (fuel : nat) (c : MerakiClient)
    (ctx : Context) (orgID siteID : string) (w : World)
    : Res (option error) :=
  let url := sites_url c orgID in
  let bodyBytes := json_Marshal (delete_body siteID) in
  match NewRequestWithContext "DELETE" url (Some bodyBytes) with
  | inl err => Ok (Some err) w
  | inr req =>
      match doRequestWithRetry fuel c ctx (set_headers c req) w with
      | OutOfFuel => OutOfFuel
      | Panic w1 => Panic w1
      | Ok (_, Some err) w1 => Ok (Some err) w1
      | Ok (None, None) w1 => Panic w1
      | Ok (Some resp, None) w1 =>
          if StatusCode resp >=? 300
          then Ok (Some ("delete failed: " +:+ Status resp)) (Close resp w1)
          else Ok None (Close resp w1)
      end
  end.

(** The two decoding attempts on a page body. *)
Definition decodePage (body : string) : option (list SiteRecord) :=
  match json_Unmarshal_apiResponse body with
  | Some data => Some data
  | None => json_Unmarshal_directData body
  end.

Definition errFormat : error :=
  "response doesn't match expected formats (wrapped or direct array)".

(** The deferred [resp.Body.Close()] calls run when the function returns,
    last registered first. *)
Definition runDeferred (deferred : list Response) (w : World) : World :=
  fold_left (fun w r => Close r w) deferred w.

Definition leave (deferred : list Response)
    (result : list SiteRecord * option error) (w : World)
    : Res (list SiteRecord * option error) :=
  Ok result (runDeferred deferred w).

(** The [for] loop of [GetSecureConnectSites]. [pages] bounds the number
    of iterations and [fuel] each run of the executor; [deferred] holds
    the responses whose bodies are closed on return, newest first. A nil
    slice is the empty list. *)
Fixpoint listLoop (pages fuel : nat) (c : MerakiClient) (ctx : Context)
    (url : string) (allSites : list SiteRecord) (deferred : list Response)
    (w : World) : Res (list SiteRecord * option error) :=
  match pages with
  | O => OutOfFuel
  | S pages' =>
      match NewRequestWithContext "GET" url None with
      | inl err => leave deferred ([], Some ("creating request: " +:+ err)) w
      | inr req =>
          match doRequestWithRetry fuel c ctx (set_headers c req) w with
          | OutOfFuel => OutOfFuel
          | Panic w1 => Panic (runDeferred deferred w1)
          | Ok (_, Some err) w1 =>
              leave deferred ([], Some ("sending request: " +:+ err)) w1
          | Ok (None, None) w1 => Panic (runDeferred deferred w1)
          | Ok (Some resp, None) w1 =>
              let deferred := resp :: deferred in
              match ReadAll resp w1 with
              | inl err =>
                  leave deferred
                    ([], Some ("reading response: " +:+ err)) w1
              | inr body =>
                  if negb (StatusCode resp =? 200) then
                    leave deferred
                      ([], Some ("bad response (" +:+ pretty (StatusCode resp)
                                 +:+ "): " +:+ body)) w1
                  else
                    match decodePage body with
                    | None => leave deferred ([], Some errFormat) w1
                    | Some currentSites =>
                        let allSites := allSites ++ currentSites in
                        let linkHeader := Header_Get (Header resp) "Link" in
                        if String.eqb linkHeader EmptyString then
                          leave deferred (allSites, None) w1
                        else
                          let nextURL := nextURL_of linkHeader in
                          if String.eqb nextURL EmptyString then
                            leave deferred (allSites, None) w1
                          else if Z.of_nat (length currentSites) <? 1000 then
                            leave deferred (allSites, None) w1
                          else
                            listLoop pages' fuel c ctx nextURL allSites
                              deferred w1
                    end
              end
          end
      end
  end.

Definition GetSecureConnectSites (pages fuel : nat) (c : MerakiClient)
    (ctx : Context) (orgID : string) (w : World)
    : Res (list SiteRecord * option error) :=
  listLoop pages fuel c ctx (sites_url c orgID +:+ "?perPage=1000") []
    [] w.

(** The requests that the two operations build. *)
Definition create_request (c : MerakiClient)
    (orgID siteID regionType regionID regionName : string) : Request :=
  set_headers c
    (mkRequest "POST" (sites_url c orgID) ∅
       (Some (json_Marshal
                (create_body siteID regionType regionID regionName)))).

Definition delete_request (c : MerakiClient) (orgID siteID : string) : Request :=
  set_headers c
    (mkRequest "DELETE" (sites_url c orgID) ∅
       (Some (json_Marshal (delete_body siteID)))).

End Operations.

(** ** [encoding/json], as far as the list operation decodes with it *)

Module json.

(** A JSON text, parsed. Member names and strings are unquoted; a number is
    kept as its literal. *)
Inductive Value : Type :=
| Null
| Bool (b : bool)
| Number (literal : string)
| Str (s : string)
| Array (elements : list Value)
| Object (members : list (string * Value)).

Definition dquote : ascii := ascii_of_nat 34.

Definition code (c : ascii) : Z := Z.of_nat (nat_of_ascii c).

Definition byte (n : Z) : ascii := ascii_of_nat (Z.to_nat n).

Definition isSpace (c : ascii) : bool :=
  (code c =? 32) || (code c =? 9) || (code c =? 13) || (code c =? 10).

Definition isDigit (c : ascii) : bool := (48 <=? code c) && (code c <=? 57).

(** The value of a hexadecimal digit, or -1. *)
Definition hexDigit (c : ascii) : Z :=
  let n := code c in
  if (48 <=? n) && (n <=? 57) then n - 48
  else if (97 <=? n) && (n <=? 102) then n - 87
  else if (65 <=? n) && (n <=? 70) then n - 55
  else -1.

Fixpoint skipSpace (s : string) : string :=
  match s with
  | String c s' => if isSpace c then skipSpace s' else s
  | EmptyString => s
  end.

(** *** Strings *)

(** A string literal after its opening quote: the text up to the closing
    quote, as written, and what follows the closing quote. Control
    characters are refused, and so is a backslash that starts none of the
    escapes of JSON. *)
Fixpoint scanString (s : string) : option (string * string) :=
  match s with
  | EmptyString => None
  | String c s1 =>
      if Ascii.eqb c dquote then Some (EmptyString, s1)
      else if Ascii.eqb c "\" then
        match s1 with
        | String e s2 =>
            if existsb (Ascii.eqb e)
                 [dquote; "\"; "/"; "b"; "f"; "n"; "r"; "t"]%char
            then
              match scanString s2 with
              | Some (raw, rest) => Some (String c (String e raw), rest)
              | None => None
              end
            else if Ascii.eqb e "u" then
              match s2 with
              | String h1 (String h2 (String h3 (String h4 s3))) =>
                  if forallb (λ h, 0 <=? hexDigit h) [h1; h2; h3; h4] then
                    match scanString s3 with
                    | Some (raw, rest) =>
                        Some (String c (String e
                                (String h1 (String h2
                                   (String h3 (String h4 raw))))), rest)
                    | None => None
                    end
                  else None
              | _ => None
              end
            else None
        | EmptyString => None
        end
      else if code c <? 32 then None
      else
        match scanString s1 with
        | Some (raw, rest) => Some (String c raw, rest)
        | None => None
        end
  end.

Definition RuneError : Z := 65533.

(** [utf8.EncodeRune]. *)
Definition EncodeRune (r : Z) : string :=
  let cont (x : Z) := byte (Z.lor 128 (Z.land x 63)) in
  if (0 <=? r) && (r <? 128) then String (byte r) EmptyString
  else if (0 <=? r) && (r <? 2048) then
    String (byte (Z.lor 192 (Z.shiftr r 6))) (String (cont r) EmptyString)
  else if (r <? 0) || (1114111 <? r) || ((55296 <=? r) && (r <=? 57343)) then
    String (byte 239) (String (byte 191) (String (byte 189) EmptyString))
  else if r <? 65536 then
    String (byte (Z.lor 224 (Z.shiftr r 12)))
      (String (cont (Z.shiftr r 6)) (String (cont r) EmptyString))
  else
    String (byte (Z.lor 240 (Z.shiftr r 18)))
      (String (cont (Z.shiftr r 12))
         (String (cont (Z.shiftr r 6)) (String (cont r) EmptyString))).

(** [utf8.DecodeRune] on a string that is not empty: the rune and its
    width; [RuneError] with width 1 for a byte that starts no well-formed
    encoding. *)
Definition DecodeRune (s : string) : Z * nat :=
  let inside (lo hi : Z) (c : ascii) := (lo <=? code c) && (code c <=? hi) in
  let low (c : ascii) := Z.land (code c) 63 in
  match s with
  | EmptyString => (RuneError, 0%nat)
  | String p0 s1 =>
      let x := code p0 in
      if x <? 128 then (x, 1%nat)
      else if (x <? 194) || (244 <? x) then (RuneError, 1%nat)
      else
        let size : nat :=
          if x <? 224 then 2%nat else if x <? 240 then 3%nat else 4%nat in
        let lo := if x =? 224 then 160 else if x =? 240 then 144 else 128 in
        let hi := if x =? 237 then 159 else if x =? 244 then 143 else 191 in
        match s1 with
        | String b1 s2 =>
            if negb (inside lo hi b1) then (RuneError, 1%nat)
            else if (size <=? 2)%nat then
              (Z.lor (Z.shiftl (Z.land x 31) 6) (low b1), 2%nat)
            else
              match s2 with
              | String b2 s3 =>
                  if negb (inside 128 191 b2) then (RuneError, 1%nat)
                  else if (size <=? 3)%nat then
                    (Z.lor (Z.shiftl (Z.land x 15) 12)
                       (Z.lor (Z.shiftl (low b1) 6) (low b2)), 3%nat)
                  else
                    match s3 with
                    | String b3 _ =>
                        if negb (inside 128 191 b3) then (RuneError, 1%nat)
                        else
                          (Z.lor (Z.shiftl (Z.land x 7) 18)
                             (Z.lor (Z.shiftl (low b1) 12)
                                (Z.lor (Z.shiftl (low b2) 6) (low b3))),
                           4%nat)
                    | EmptyString => (RuneError, 1%nat)
                    end
              | EmptyString => (RuneError, 1%nat)
              end
        | EmptyString => (RuneError, 1%nat)
        end
  end.

(** [getu4]: the rune of a [\uXXXX] escape that [s] starts with, or -1. *)
Definition getu4 (s : string) : Z :=
  match s with
  | String "\" (String "u" (String h1 (String h2 (String h3 (String h4 _))))) =>
      if forallb (λ h, 0 <=? hexDigit h) [h1; h2; h3; h4] then
        ((hexDigit h1 * 16 + hexDigit h2) * 16 + hexDigit h3) * 16
        + hexDigit h4
      else -1
  | _ => -1
  end.

(** [utf16.DecodeRune]. *)
Definition utf16_DecodeRune (r1 r2 : Z) : Z :=
  if (55296 <=? r1) && (r1 <? 56320) && (56320 <=? r2) && (r2 <? 57344)
  then Z.lor (Z.shiftl (r1 - 55296) 10) (r2 - 56320) + 65536
  else RuneError.

(** The loop of [unquoteBytes] on the text between the quotes of a literal
    that the scanner has accepted; each turn moves on in [s], so its length
    bounds the turns. *)
Fixpoint unquoteLoop (turns : nat) (s : string) : string :=
  match turns, s with
  | O, _ | _, EmptyString => EmptyString
  | S turns', String c s1 =>
      if Ascii.eqb c "\" then
        match s1 with
        | String e s2 =>
            if Ascii.eqb e "u" then
              let rr := getu4 s in
              let s3 := strings.drop_bytes 6 s in
              if (55296 <=? rr) && (rr <? 57344) then
                let dec := utf16_DecodeRune rr (getu4 s3) in
                if negb (dec =? RuneError)
                then EncodeRune dec +:+ unquoteLoop turns' (strings.drop_bytes 6 s3)
                else EncodeRune RuneError +:+ unquoteLoop turns' s3
              else EncodeRune rr +:+ unquoteLoop turns' s3
            else
              let b :=
                if Ascii.eqb e "b" then byte 8
                else if Ascii.eqb e "f" then byte 12
                else if Ascii.eqb e "n" then byte 10
                else if Ascii.eqb e "r" then byte 13
                else if Ascii.eqb e "t" then byte 9
                else e in
              String b (unquoteLoop turns' s2)
        | EmptyString => EmptyString
        end
      else if code c <? 128 then String c (unquoteLoop turns' s1)
      else
        let (rr, size) := DecodeRune s in
        EncodeRune rr +:+ unquoteLoop turns' (strings.drop_bytes size s)
  end.

(** [unquoteBytes], without the quotes. *)
Definition unquote (raw : string) : string :=
  unquoteLoop (String.length raw) raw.

(** *** Numbers *)

(** The digits that [s] starts with, and the rest. *)
Fixpoint scanDigits (s : string) : string * string :=
  match s with
  | String c s' =>
      if isDigit c then let (ds, rest) := scanDigits s' in (String c ds, rest)
      else (EmptyString, s)
  | EmptyString => (EmptyString, s)
  end.

(** The first byte of [s] when it is one of [cs], and the rest. *)
Definition scanOneOf (cs : list ascii) (s : string) : string * string :=
  match s with
  | String c s' =>
      if existsb (Ascii.eqb c) cs then (String c EmptyString, s')
      else (EmptyString, s)
  | EmptyString => (EmptyString, s)
  end.

(** A number literal at the start of [s], and the rest: an optional minus
    sign, an integer part without a superfluous leading zero, an optional
    fraction and an optional exponent. *)
Definition scanNumber (s : string) : option (string * string) :=
  let (sign, s1) := scanOneOf ["-"%char] s in
  let (zero, s2) := scanOneOf ["0"%char] s1 in
  let (int, s3) :=
    if String.eqb zero EmptyString then scanDigits s2 else (zero, s2) in
  if String.eqb int EmptyString then None
  else
    let (point, s4) := scanOneOf ["."%char] s3 in
    let (frac, s5) :=
      if String.eqb point EmptyString then (EmptyString, s4)
      else scanDigits s4 in
    if negb (String.eqb point EmptyString) && String.eqb frac EmptyString
    then None
    else
      let (e, s6) := scanOneOf ["e"; "E"]%char s5 in
      if String.eqb e EmptyString
      then Some (sign +:+ int +:+ point +:+ frac, s5)
      else
        let (esign, s7) := scanOneOf ["+"; "-"]%char s6 in
        let (exp, s8) := scanDigits s7 in
        if String.eqb exp EmptyString then None
        else Some (sign +:+ int +:+ point +:+ frac +:+ e +:+ esign +:+ exp,
                   s8).

(** The number that a string of digits writes. *)
Definition digitsValue (ds : string) : Z :=
  fold_left (λ n c, n * 10 + (code c - 48)) (list_ascii_of_string ds) 0.

(** The exponent as [strconv] reads it: digits are taken in while the value
    is below 10000. *)
Definition exponentValue (ds : string) : Z :=
  fold_left (λ e c, if e <? 10000 then e * 10 + (code c - 48) else e)
    (list_ascii_of_string ds) 0.

(** Whether [strconv.ParseFloat(literal, 64)] succeeds on a number literal
    of JSON: it fails when the value rounds to an infinity, that is, from
    [2^1024 - 2^970] on. *)
Definition fitsFloat64 (literal : string) : bool :=
  let (sign, s1) := scanOneOf ["-"%char] literal in
  let (int, s2) := scanDigits s1 in
  let (point, s3) := scanOneOf ["."%char] s2 in
  let (frac, s4) :=
    if String.eqb point EmptyString then (EmptyString, s3)
    else scanDigits s3 in
  let (e, s5) := scanOneOf ["e"; "E"]%char s4 in
  let (esign, s6) := scanOneOf ["+"; "-"]%char s5 in
  let exp := exponentValue s6 in
  let exp10 :=
    (if String.eqb esign "-" then - exp else exp)
    - Z.of_nat (String.length frac) in
  let mantissa := digitsValue (int +:+ frac) in
  let limit := 2 ^ 1024 - 2 ^ 970 in
  if 0 <=? exp10 then mantissa * 10 ^ exp10 <? limit
  else mantissa <? limit * 10 ^ (- exp10).

(** *** Values *)

Definition maxNestingDepth : Z := 10000.

(** A value at the start of [s], after white space, and the rest. [depth]
    counts the arrays and objects that are open. [elements] reads the
    elements of an array from the first one on, up to the closing bracket,
    and [members] the members of an object likewise. [fuel] bounds the
    calls. *)
Fixpoint value (fuel : nat) (depth : Z) (s : string) {struct fuel}
    : option (Value * string) :=
  match fuel with
  | O => None
  | S fuel' =>
      match skipSpace s with
      | EmptyString => None
      | String c s1 =>
          if Ascii.eqb c "{" then
            if depth <? maxNestingDepth then
              if strings.HasPrefix (skipSpace s1) "}"
              then Some (Object [], strings.drop_bytes 1 (skipSpace s1))
              else
                match members fuel' (depth + 1) s1 with
                | Some (ms, rest) => Some (Object ms, rest)
                | None => None
                end
            else None
          else if Ascii.eqb c "[" then
            if depth <? maxNestingDepth then
              if strings.HasPrefix (skipSpace s1) "]"
              then Some (Array [], strings.drop_bytes 1 (skipSpace s1))
              else
                match elements fuel' (depth + 1) s1 with
                | Some (vs, rest) => Some (Array vs, rest)
                | None => None
                end
            else None
          else if Ascii.eqb c dquote then
            match scanString s1 with
            | Some (raw, rest) => Some (Str (unquote raw), rest)
            | None => None
            end
          else if Ascii.eqb c "t" then
            if strings.HasPrefix s1 "rue"
            then Some (Bool true, strings.drop_bytes 3 s1)
            else None
          else if Ascii.eqb c "f" then
            if strings.HasPrefix s1 "alse"
            then Some (Bool false, strings.drop_bytes 4 s1)
            else None
          else if Ascii.eqb c "n" then
            if strings.HasPrefix s1 "ull"
            then Some (Null, strings.drop_bytes 3 s1)
            else None
          else
            match scanNumber (String c s1) with
            | Some (literal, rest) => Some (Number literal, rest)
            | None => None
            end
      end
  end
with elements (fuel : nat) (depth : Z) (s : string) {struct fuel}
    : option (list Value * string) :=
  match fuel with
  | O => None
  | S fuel' =>
      match value fuel' depth s with
      | None => None
      | Some (v, s1) =>
          match skipSpace s1 with
          | EmptyString => None
          | String c s2 =>
              if Ascii.eqb c "," then
                match elements fuel' depth s2 with
                | Some (vs, rest) => Some (v :: vs, rest)
                | None => None
                end
              else if Ascii.eqb c "]" then Some ([v], s2)
              else None
          end
      end
  end
with members (fuel : nat) (depth : Z) (s : string) {struct fuel}
    : option (list (string * Value) * string) :=
  match fuel with
  | O => None
  | S fuel' =>
      match skipSpace s with
      | EmptyString => None
      | String c s1 =>
          if Ascii.eqb c dquote then
            match scanString s1 with
            | None => None
            | Some (raw, s2) =>
                match skipSpace s2 with
                | EmptyString => None
                | String c3 s3 =>
                    if Ascii.eqb c3 ":" then
                      match value fuel' depth s3 with
                      | None => None
                      | Some (v, s4) =>
                          match skipSpace s4 with
                          | EmptyString => None
                          | String c5 s5 =>
                              if Ascii.eqb c5 "," then
                                match members fuel' depth s5 with
                                | Some (ms, rest) =>
                                    Some ((unquote raw, v) :: ms, rest)
                                | None => None
                                end
                              else if Ascii.eqb c5 "}"
                              then Some ([(unquote raw, v)], s5)
                              else None
                          end
                      end
                    else None
                end
            end
          else None
      end
  end.

(** The whole of [data] as one JSON value, white space around it allowed:
    what [checkValid] accepts. Every call of the three functions above
    comes after a byte was read or after one other call, so that twice the
    length of the text bounds them: a larger budget gives the same result
    (lemma [parse_budget]). *)
Definition parse (data : string) : option Value :=
  match value (2 * String.length data + 2) 0 data with
  | Some (v, rest) =>
      if String.eqb (skipSpace rest) EmptyString then Some v else None
  | None => None
  end.

(** *** Decoding the pages of the list operation *)

(** Whether the decoder stores a value in an [interface{}] without an
    error: every number in it has to fit a [float64]. *)
Fixpoint storable (v : Value) : bool :=
  match v with
  | Number literal => fitsFloat64 literal
  | Array vs => forallb storable vs
  | Object ms => forallb (λ m, storable (snd m)) ms
  | _ => true
  end.

(** Whether the decoder stores a value in a [map[string]interface{}]: null
    gives the nil map and an object the map of its members; anything else
    is an error. *)
Definition isRecord (v : Value) : bool :=
  match v with
  | Null => true
  | Object _ => storable v
  | _ => false
  end.

(** A value decoded into a [[]map[string]interface{}]: null gives the nil
    slice, an array the slice of its elements, provided each is a record;
    anything else is an error. A record is given as the element it is
    decoded from. *)
Definition toRecords (v : Value) : option (list Value) :=
  match v with
  | Null => Some []
  | Array vs => if forallb isRecord vs then Some vs else None
  | _ => None
  end.

Definition toUpper (c : ascii) : ascii :=
  if (97 <=? code c) && (code c <=? 122) then byte (code c - 32) else c.

Fixpoint foldASCII (s : string) : string :=
  match s with
  | EmptyString => EmptyString
  | String c s' => String (toUpper c) (foldASCII s')
  end.

(** Whether a member name is one for the field tagged [json:"data"]: the
    decoder takes the exact name and, failing that, any name equal to it
    under Unicode simple case folding. No letter outside ASCII folds to d,
    a or t, so these are the sixteen spellings of data in upper and lower
    case. *)
Definition namesData (name : string) : bool :=
  String.eqb (foldASCII name) "DATA".

(** The members of an object decoded into the struct, one after the other:
    [data] is the field so far. A member that does not name the field is
    skipped, whatever its value. (When several members name the field the
    decoder stores each over the one before without clearing the maps the
    slice holds; the model takes the later list as it is.) *)
Fixpoint storeMembers (ms : list (string * Value)) (data : list Value)
    : option (list Value) :=
  match ms with
  | [] => Some data
  | (name, v) :: ms' =>
      if namesData name then
        match toRecords v with
        | Some records => storeMembers ms' records
        | None => None
        end
      else storeMembers ms' data
  end.

(** [json.Unmarshal(body, &apiResponse)] for
    [struct { Data []map[string]interface{} `json:"data"` }]: the [Data]
    field when the error is nil. Null leaves the struct as it is. *)
Definition Unmarshal_apiResponse (body : string) : option (list Value) :=
  match parse body with
  | Some Null => Some []
  | Some (Object ms) => storeMembers ms []
  | _ => None
  end.

(** [json.Unmarshal(body, &directData)] for [[]map[string]interface{}]. *)
Definition Unmarshal_directData (body : string) : option (list Value) :=
  match parse body with
  | Some v => toRecords v
  | None => None
  end.

End json.

(** ** The Terraform side: data source, resource, provider *)

(** A decoded JSON value, as [json.Unmarshal] stores it in an
    [interface{}]; a [float64] is kept as its bits. *)
Inductive Any : Type :=
| AnyNil
| AnyBool (b : bool)
| AnyFloat64 (bits : Z)
| AnyString (s : string)
| AnySlice (l : list Any)
| AnyMap (m : gmap string Any).

(** [site[key]] on a [map[string]interface{}]: nil when the key is missing
    (a nil map reads like an empty one). *)
Definition index (site : gmap string Any) (key : string) : Any :=
  default AnyNil (site !! key).

(** The part of [schema.ResourceData] the functions touch: the string
    attributes as the SDK resolved them, the attributes written with [Set],
    and the resource ID. *)
Record ResourceData := mkData {
  attributes : gmap string string;
  written : gmap string string;
  dataId : string
}.

(** [d.Get(key).(string)] on a string attribute: empty when it is unset. *)
Definition Get (d : ResourceData) (key : string) : string :=
  default EmptyString (attributes d !! key).

(** [d.SetId(id)]. *)
Definition SetId (d : ResourceData) (id : string) : ResourceData :=
  mkData (attributes d) (written d) id.

(** [diag.Diagnostics], all of severity error here: their summaries. *)
Definition Diagnostics : Type := list string.

Section Terraform.

Variable json_Marshal : GoValue -> string.
Variable json_Unmarshal_apiResponse : string -> option (list (gmap string Any)).
Variable json_Unmarshal_directData : string -> option (list (gmap string Any)).
Variable newRequestError : string -> string -> option error.

(** [strconv.Quote], the [%q] verb. *)
Variable strconv_Quote : string -> string.

(** The SDK's conversion of a Go value written to a string attribute: the
    error of [d.Set(key, value)], or the string it stores. *)
Variable schema_convert : string -> Any -> error + string.

(** [d.Set(key, value)]. *)
Definition Set_ (d : ResourceData) (key : string) (value : Any)
    : error + ResourceData :=
  match schema_convert key value with
  | inl e => inl e
  | inr s => inr (mkData (attributes d) (<[key := s]> (written d)) (dataId d))
  end.

Definition errMultiple (siteName : string) : string :=
  "multiple sites found with name " +:+ strconv_Quote siteName.

Definition errNotFound (siteName orgID : string) : string :=
  "no site found with name " +:+ strconv_Quote siteName
  +:+ " in organization " +:+ strconv_Quote orgID.

(** The search loop of [dataSourceSecureConnectSiteRead]: [foundSite] is
    the variable of that name, [None] for nil; [inl] is the early return. *)
Fixpoint findSite (siteName : string) (sites : list (gmap string Any))
    (foundSite : option (gmap string Any)) : string + option (gmap string Any) :=
  match sites with
  | [] => inr foundSite
  | site :: rest =>
      match index site "name" with
      | AnyString name =>
          if String.eqb name siteName then
            match foundSite with
            | Some _ => inl (errMultiple siteName)
            | None => findSite siteName rest (Some site)
            end
          else findSite siteName rest foundSite
      | _ => findSite siteName rest foundSite   (* logged, skipped *)
      end
  end.

(** [dataSourceSecureConnectSiteRead]; the log calls are left out. *)
Definition dataSourceSecureConnectSiteRead (pages fuel : nat)
    (client : MerakiClient) (ctx : Context) (d : ResourceData) (w : World)
    : Res (Diagnostics * ResourceData) :=
  let orgID := Get d "organization_id" in
  let siteName := Get d "site_name" in
  match GetSecureConnectSites json_Unmarshal_apiResponse
          json_Unmarshal_directData newRequestError pages fuel client ctx
          orgID w with
  | OutOfFuel => OutOfFuel
  | Panic w1 => Panic w1
  | Ok (_, Some err) w1 => Ok (["error fetching sites: " +:+ err], d) w1
  | Ok (sites, None) w1 =>
      match findSite siteName sites None with
      | inl msg => Ok ([msg], d) w1
      | inr None => Ok ([errNotFound siteName orgID], d) w1
      | inr (Some foundSite) =>
          match Set_ d "id" (index foundSite "id") with
          | inl err => Ok ([err], d) w1
          | inr d1 =>
              match Set_ d1 "region" (index foundSite "region") with
              | inl err => Ok ([err], d1) w1
              | inr d2 =>
                  match index foundSite "id" with
                  | AnyString id => Ok ([], SetId d2 id) w1
                  | _ => Panic w1          (* foundSite["id"].(string) *)
                  end
              end
          end
      end
  end.

Definition resourceSecureConnectSiteRead (d : ResourceData)
    : Diagnostics * ResourceData :=
  ([], d).

Definition resourceSecureConnectSiteUpdate (d : ResourceData)
    : Diagnostics * ResourceData :=
  ([], d).

Definition resourceSecureConnectSiteCreate (fuel : nat) (client : MerakiClient)
    (ctx : Context) (d : ResourceData) (w : World)
    : Res (Diagnostics * ResourceData) :=
  let orgID := Get d "organization_id" in
  let siteID := Get d "site_id" in
  let regionType := Get d "region_type" in
  let regionID := Get d "region_id" in
  let regionName := Get d "region_name" in
  match CreateSecureConnectSite json_Marshal newRequestError fuel client ctx
          orgID siteID regionType regionID regionName w with
  | OutOfFuel => OutOfFuel
  | Panic w1 => Panic w1
  | Ok (Some err) w1 => Ok ([err], d) w1
  | Ok None w1 =>
      Ok (resourceSecureConnectSiteRead (SetId d (orgID +:+ ":" +:+ siteID)))
         w1
  end.

Definition resourceSecureConnectSiteDelete (fuel : nat) (client : MerakiClient)
    (ctx : Context) (d : ResourceData) (w : World)
    : Res (Diagnostics * ResourceData) :=
  let orgID := Get d "organization_id" in
  let siteID := Get d "site_id" in
  match DeleteSecureConnectSites json_Marshal newRequestError fuel client ctx
          orgID siteID w with
  | OutOfFuel => OutOfFuel
  | Panic w1 => Panic w1
  | Ok (Some err) w1 => Ok ([err], d) w1
  | Ok None w1 => Ok ([], SetId d EmptyString) w1
  end.

(** [providerConfigure]; the transport is the [http.Client] that
    [NewClient] builds. *)
Definition providerConfigure (transport : nat -> Request -> error + Response)
    (d : ResourceData) : MerakiClient * Diagnostics :=
  let apiKey := Get d "api_key" in
  let baseURL := Get d "base_url" in
  (NewClient transport apiKey baseURL, []).

End Terraform.

(** ** Vocabulary of the statements *)

(** The statuses on which the executor goes round again: neither below 300
    nor a client error other than 429. *)
Definition retriable (s : Z) : bool :=
  negb (s <? 300) && negb ((s >=? 400) && (s <? 500) && negb (s =? 429)).

(** A context whose cancellation signal never fires. *)
Definition never_cancelled (ctx : Context) : Prop := ∀ k, Done ctx k = false.

(** The world after [m] consecutive retried attempts that started at attempt
    index [a], each followed by a back-off wait. *)
Definition after_retries (req : Request) (a : Z) (m : nat) (w : World) : World :=
  mkWorld (sent w ++ replicate m req)
          (closed w ++ seq (length (sent w)) m)
          (waits w ++ map (fun i => a + Z.of_nat i) (seq 0 m)).

(** The world after one more request went out. *)
Definition after_call (req : Request) (w : World) : World :=
  mkWorld (sent w ++ [req]) (closed w) (waits w).

(** A run that ends extends the log of sent requests by copies of [req]. *)
Definition sends_only {A : Type} (req : Request) (w : World) (res : Res A) : Prop :=
  match res with
  | Ok _ w' | Panic w' => ∃ n, sent w' = sent w ++ replicate n req
  | OutOfFuel => True
  end.

(** *** Byte strings *)

(** [p] occurs in [s]. *)
Definition occurs (p s : string) : Prop := ∃ a b, s = a +:+ p +:+ b.

(** [c] is one of the bytes of [s]. *)
Fixpoint has_byte (c : ascii) (s : string) : bool :=
  match s with
  | EmptyString => false
  | String d s' => Ascii.eqb d c || has_byte c s'
  end.

(** *** Link headers *)

(** [n] space characters. *)
Fixpoint spaces (n : nat) : string :=
  match n with
  | O => EmptyString
  | S n' => String (ascii_of_nat 32) (spaces n')
  end.

(** [<u>; rel], after [n] spaces. *)
Definition directive (n : nat) (u rel : string) : string :=
  spaces n +:+ "<" +:+ u +:+ ">; " +:+ rel.

Definition is_rel_next (rel : string) : Prop :=
  rel = rel_next_quoted ∨ rel = rel_next_bare.

(** The header has no [rel="next"] and no [rel=next] in it. *)
Definition no_next_directive (h : string) : Prop :=
  strings.Contains h rel_next_quoted = false
  ∧ strings.Contains h rel_next_bare = false.

(** The header has a well-formed directive with relation "next" and target
    [u]: it starts the header or follows a comma, nothing before it mentions
    the relation, it ends the header or is followed by a comma, and [u] has
    no comma and no closing angle bracket in it. *)
Definition carries_next (h u : string) : Prop :=
  ∃ pre n rel post,
    h = pre +:+ directive n u rel +:+ post
    ∧ is_rel_next rel
    ∧ (pre = EmptyString ∨ ∃ pre', pre = pre' +:+ ",")
    ∧ no_next_directive pre
    ∧ (post = EmptyString ∨ ∃ post', post = "," +:+ post')
    ∧ has_byte comma u = false
    ∧ has_byte ">" u = false.

(** *** Pages *)

(** The GET request that [GetSecureConnectSites] builds for a page URL. *)
Definition get_request (c : MerakiClient) (url : string) : Request :=
  set_headers c (mkRequest "GET" url ∅ None).

(** No body of a response still to come is marked closed. *)
Definition streams_fresh (w : World) : Prop :=
  ∀ k, k ∈ closed w → (k < length (sent w))%nat.

(** The transport answers call [k], a GET for [url], with status 200, a
    readable body and the given Link header. *)
Definition serves (c : MerakiClient) (k : nat) (url body link : string) : Prop :=
  ∃ r, httpClient c k (get_request c url) = inr r
       ∧ StatusCode r = 200
       ∧ payload (Body r) = inr body
       ∧ Header_Get (Header r) "Link" = link.

(** *** Page bodies *)







(** ** Further vocabulary *)

(** A site whose [name] is the string [siteName]. *)
Definition named (siteName : string) (site : gmap string Any) : bool :=
  match index site "name" with
  | AnyString name => String.eqb name siteName
  | _ => false
  end.

(** The context does not fire in the waits that follow the calls numbered
    [k0 + 1] to [k0 + m]. *)
Definition quiet_until (ctx : Context) (k0 m : nat) : Prop :=
  ∀ j, (k0 < j <= k0 + m)%nat → Done ctx j = false.

(** The first [m] calls from call [k0] on are answered with retriable
    statuses. *)
Definition retried_answers (c : MerakiClient) (req : Request) (k0 m : nat) : Prop :=
  ∀ k, (k < m)%nat →
       ∃ r, httpClient c (k0 + k) req = inr r ∧ retriable (StatusCode r) = true.

(** What an operation that sends [rq] can report, for a run from [w] to
    [w']: success only after an answer below 300; otherwise the context's
    error, a transport error, or [what] followed by the status text of an
    answer at 300 or above. *)
Definition request_outcome (c : MerakiClient) (ctx : Context) (rq : Request)
    (what : string) (w w' : World) (res : option error) : Prop :=
  match res with
  | None =>
      ∃ j r, (length (sent w) <= j < length (sent w'))%nat
             ∧ httpClient c j rq = inr r ∧ StatusCode r < 300
  | Some err =>
      err = Err ctx
      ∨ (∃ j, (length (sent w) <= j < length (sent w'))%nat
              ∧ httpClient c j rq = inl err)
      ∨ (∃ j r, (length (sent w) <= j < length (sent w'))%nat
                ∧ httpClient c j rq = inr r
                ∧ 300 <= StatusCode r
                ∧ err = what +:+ Status r)
  end.

(** Every call of the run from [w] to [w'] that was answered with a
    response has had the body of that response closed. *)
Definition answered_closed (c : MerakiClient) (w w' : World) : Prop :=
  ∀ j rq r, (length (sent w) <= j)%nat →
            sent w' !! j = Some rq →
            httpClient c j rq = inr r →
            j ∈ closed w'.

(** [answered_closed] for the world an operation ends in. *)
Definition ends_released {A : Type} (c : MerakiClient) (w : World)
    (res : Res A) : Prop :=
  match res with
  | Ok _ w' | Panic w' => answered_closed c w w'
  | OutOfFuel => True
  end.

(** The answer of the transport to call [j] of the log when it is a
    response with status 200, as a list of one or no element. *)
Definition page_answer (c : MerakiClient) (log : list Request) (j : nat)
    : list Response :=
  match log !! j with
  | Some rq =>
      match httpClient c j rq with
      | inr r => if StatusCode r =? 200 then [r] else []
      | inl _ => []
      end
  | None => []
  end.

(** The answers with status 200 that the transport gave to the [n] calls
    numbered from [k0] on, in the order of the calls; [log] holds the
    requests of the calls. *)
Fixpoint pages_answered (c : MerakiClient) (log : list Request)
    (k0 n : nat) : list Response :=
  match n with
  | O => []
  | S n' => page_answer c log k0 ++ pages_answered c log (S k0) n'
  end.

(** The pages of the run that led from [w] to [w']. *)
Definition pages_between (c : MerakiClient) (w w' : World) : list Response :=
  pages_answered c (sent w') (length (sent w))
    (length (sent w') - length (sent w)).

(** The requests a run that started in [w] handed to the transport. *)
Definition sent_during {A : Type} (w : World) (res : Res A) : list Request :=
  match res with
  | Ok _ w' | Panic w' => drop (length (sent w)) (sent w')
  | OutOfFuel => []
  end.

(** The headers every request of the client carries. *)
Definition api_headers (c : MerakiClient) (rq : Request) : Prop :=
  ReqHeader rq !! "Content-Type" = Some "application/json"
  ∧ ReqHeader rq !! "Accept" = Some "application/json"
  ∧ ReqHeader rq !! "X-Cisco-Meraki-API-Key" = Some (apiKey c).

(** One directive of a Link header, [<target>; rel=rel]. *)
Definition link_value (e : string * string) : string :=
  "<" +:+ e.1 +:+ ">; rel=" +:+ e.2.

(** A Link header: the directives, separated by a comma and a space. *)
Definition format_links (links : list (string * string)) : string :=
  String.concat ", " (map link_value links).

(** The relation "next", bare or quoted. *)
Definition next_rel (quoted : bool) : string :=
  if quoted then strings.dquote +:+ "next" +:+ strings.dquote else "next".

(** ** Transports and contexts used as concrete instances *)

Module Scenario.

Definition response (code : Z) (status body : string) : Response :=
  mkResponse code status ∅ (connBody body).

Definition unavailable : Response := response 503 "503 Service Unavailable" "busy".
Definition throttledResponse : Response := response 429 "429 Too Many Requests" "slow down".
Definition fine : Response := response 200 "200 OK" "done".

(** Status 503 on the first [n] calls, 200 afterwards. *)
Definition flaky (n : nat) : nat -> Request -> error + Response :=
  fun k _ => if (k <? n)%nat then inr unavailable else inr fine.

(** Status 429 on every call. *)
Definition throttled : nat -> Request -> error + Response :=
  fun _ _ => inr throttledResponse.

(** [context.Background()]: never cancelled. *)
Definition background : Context := mkContext (fun _ => false) "context canceled".

Definition probe : Request :=
  mkRequest "GET" "https://api.example.test/api/v1/ping" ∅ None.

Definition client (transport : nat -> Request -> error + Response)
    (retries : Z) : MerakiClient :=
  SetMaxRetries (NewClient transport "key" "https://api.example.test/api/v1")
    retries.

Definition notFound : Response := response 404 "404 Not Found" "no such organization".

(** A 503 answer without content: its body is [http.NoBody]. *)
Definition emptyUnavailable : Response :=
  mkResponse 503 "503 Service Unavailable" ∅ NoBody.
Definition noContent : Response := response 204 "204 No Content" EmptyString.

(** The same answer to every call. *)
Definition always (r : Response) : nat -> Request -> error + Response :=
  fun _ _ => inr r.

(** Every URL is accepted by the request constructor. *)
Definition anyURL : string -> string -> option error := fun _ _ => None.

(** The text with every apostrophe turned into a double quote. *)
Fixpoint text (s : string) : string :=
  match s with
  | EmptyString => EmptyString
  | String c s' =>
      String (if Ascii.eqb c (ascii_of_nat 39) then ascii_of_nat 34 else c)
        (text s')
  end.

(** A plain encoder standing in for [json.Marshal] on the request bodies:
    keys in sorted order, strings quoted without escaping. *)
Definition quote (s : string) : string :=
  strings.dquote +:+ s +:+ strings.dquote.

Definition object (l : list (string * string)) : string :=
  "{" +:+ String.concat ","
            (map (fun kv => quote kv.1 +:+ ":" +:+ kv.2)
               (merge_sort (fun x y => String.leb x.1 y.1) l))
      +:+ "}".

Fixpoint encode (v : GoValue) : string :=
  match v with
  | VString s => quote s
  | VStrings l => "[" +:+ String.concat "," (map quote l) +:+ "]"
  | VStringMap m => object (map_to_list (quote <$> m))
  | VList l => "[" +:+ String.concat "," (map encode l) +:+ "]"
  | VMap m => object (map_to_list (encode <$> m))
  end.

(** Site records stand for themselves as numbers, and the decoders are given
    by their results on the bodies at hand. *)
Definition decode_table (table : list (string * list nat)) (body : string)
    : option (list nat) :=
  snd <$> List.find (fun entry => String.eqb entry.1 body) table.

Definition page1 : list nat := seq 0 1000.
Definition page2 : list nat := seq 1000 1000.
Definition page3 : list nat := seq 2000 400.

Definition wrapped : string -> option (list nat) :=
  decode_table [("{data: sites 0..999}", page1);
                ("{data: sites 1000..1999}", page2);
                ("{data: sites 2000..2399}", page3)].

Definition direct : string -> option (list nat) :=
  decode_table [("[sites 0..999]", page1)].

Definition base : string := "https://api.example.test/api/v1".
Definition firstURL : string :=
  base +:+ "/organizations/org1/secureConnect/sites?perPage=1000".
Definition secondURL : string := firstURL +:+ "&startingAfter=999".
Definition thirdURL : string := firstURL +:+ "&startingAfter=1999".

Definition next_link (u : string) : string :=
  "<" +:+ u +:+ ">; " +:+ rel_next_quoted.

Definition page (link body : string) : Response :=
  mkResponse 200 "200 OK"
    (if String.eqb link EmptyString then ∅ else {[ "Link" := link ]})
    (connBody body).

(** A server with three pages of 1000, 1000 and 400 sites. *)
Definition pager : nat -> Request -> error + Response :=
  fun _ req =>
    if String.eqb (URL req) firstURL
    then inr (page (next_link secondURL) "{data: sites 0..999}")
    else if String.eqb (URL req) secondURL
    then inr (page (next_link thirdURL) "{data: sites 1000..1999}")
    else if String.eqb (URL req) thirdURL
    then inr (page EmptyString "{data: sites 2000..2399}")
    else inr notFound.

(** A server whose second page is gone. *)
Definition brokenPager : nat -> Request -> error + Response :=
  fun _ req =>
    if String.eqb (URL req) firstURL
    then inr (page (next_link secondURL) "{data: sites 0..999}")
    else inr notFound.

(** A server with one full page and no Link header. *)
Definition singlePage : nat -> Request -> error + Response :=
  fun _ _ => inr (page EmptyString "{data: sites 0..999}").



(** Status 503 on the first [n] calls, then the connection fails. *)
Definition failing (n : nat) : nat -> Request -> error + Response :=
  fun k _ =>
    if (k <? n)%nat then inr unavailable
    else inl "dial tcp: connection refused".

(** A context that is cancelled from the wait after call [j] on. *)
Definition cancelledFrom (j : nat) : Context :=
  mkContext (fun k => (j <=? k)%nat) "context canceled".

(** A server whose only page has 400 sites and still names a next page. *)
Definition shortPage : nat -> Request -> error + Response :=
  always (page (next_link secondURL) "{data: sites 2000..2399}").

(** The three-page server, out of service at the second call. *)
Definition flakyPager : nat -> Request -> error + Response :=
  fun k req => if (k =? 1)%nat then inr unavailable else pager k req.

(** A server with two full pages, each of which names the other as next. *)
Definition pingPong : nat -> Request -> error + Response :=
  fun _ req =>
    if String.eqb (URL req) firstURL
    then inr (page (next_link secondURL) "{data: sites 0..999}")
    else inr (page (next_link firstURL) "{data: sites 1000..1999}").

(** Sites as the data source sees them. *)
Definition site (id name region : string) : gmap string Any :=
  {[ "id" := AnyString id; "name" := AnyString name;
     "region" := AnyString region ]}.

Definition inventory : list (gmap string Any) :=
  [ site "N_1" "paris" "eu-west";
    {[ "id" := AnyString "N_9"; "name" := AnyFloat64 0 ]};
    site "N_2" "lyon" "eu-west";
    site "N_3" "paris" "us-east" ].

Definition sitesWrapped : string -> option (list (gmap string Any)) :=
  fun body => if String.eqb body "{data: inventory}" then Some inventory
              else None.

Definition sitesDirect : string -> option (list (gmap string Any)) :=
  fun _ => None.

Definition inventoryServer : nat -> Request -> error + Response :=
  always (page EmptyString "{data: inventory}").

(** A conversion standing in for the SDK's: strings are stored, nil is
    stored as the empty string, anything else is refused. *)
Definition convert (key : string) (v : Any) : error + string :=
  match v with
  | AnyString s => inr s
  | AnyNil => inr EmptyString
  | _ => inl (key +:+ ": expected type 'string'")
  end.

Definition config (attrs : list (string * string)) : ResourceData :=
  mkData (list_to_map attrs) ∅ EmptyString.

End Scenario.

(** ** The string functions on concrete inputs *)

Example Split_commas :
  strings.Split "a,b,,c" comma = ["a"; "b"; EmptyString; "c"]
  ∧ strings.Split EmptyString comma = [EmptyString].
Proof. split; reflexivity. Qed.

Example TrimSpace_both_ends :
  strings.TrimSpace "  <a>; rel=next  " = "<a>; rel=next"
  ∧ strings.TrimSpace (strings.bytes [194; 160; 32; 65; 32; 226; 128; 131; 10]%nat)
    = "A".
Proof. split; reflexivity. Qed.

Example nextURL_of_three_directives :
  nextURL_of "<https://h/s?p=1>; rel=first, <https://h/s?p=3>; rel=next, <https://h/s?p=9>; rel=last"
  = "https://h/s?p=3".
Proof. reflexivity. Qed.

(** A comma inside the target cuts the directive in two, and a directive
    with an empty target ends the scan: both give no next URL. *)
Example nextURL_of_lost :
  nextURL_of "<https://h/s?ids=1,2>; rel=next" = EmptyString
  ∧ nextURL_of "<>; rel=next, <https://h/s?p=3>; rel=next" = EmptyString.
Proof. split; reflexivity. Qed.

(** ** The decoder on concrete bodies *)

Example parse_values :
  json.parse " [1, -2.5e3, true, null] "
  = Some (json.Array [json.Number "1"; json.Number "-2.5e3"; json.Bool true;
                      json.Null])
  ∧ json.parse "[1,]" = None
  ∧ json.parse "01" = None
  ∧ json.parse (Scenario.text "{'a':1,}") = None
  ∧ json.parse "{} x" = None
  ∧ json.parse EmptyString = None.
Proof. repeat split; vm_compute; reflexivity. Qed.

(** The wrapped form, also under another spelling of the name, and the bare
    list; null among the records is a nil map. *)
Example decodePage_records :
  decodePage json.Unmarshal_apiResponse json.Unmarshal_directData
    (Scenario.text "{'data':[{'id':'N_1'},null],'meta':7}")
  = Some [json.Object [("id", json.Str "N_1")]; json.Null]
  ∧ decodePage json.Unmarshal_apiResponse json.Unmarshal_directData
      (Scenario.text "{'Data':[{'id':'N_1'}]}")
    = Some [json.Object [("id", json.Str "N_1")]]
  ∧ decodePage json.Unmarshal_apiResponse json.Unmarshal_directData
      (Scenario.text "[{'id':'N_1'},{'id':'N_2'}]")
    = Some [json.Object [("id", json.Str "N_1")];
            json.Object [("id", json.Str "N_2")]].
Proof. repeat split; vm_compute; reflexivity. Qed.

(** Bodies without a list that are pages all the same, and bodies that are
    not: a list of numbers, a record with a number no float64 can hold. *)
Example decodePage_other_shapes :
  decodePage json.Unmarshal_apiResponse json.Unmarshal_directData "null"
  = Some []
  ∧ decodePage json.Unmarshal_apiResponse json.Unmarshal_directData
      (Scenario.text "{'errors':['not found']}")
    = Some []
  ∧ decodePage json.Unmarshal_apiResponse json.Unmarshal_directData
      (Scenario.text "{'data':null}")
    = Some []
  ∧ decodePage json.Unmarshal_apiResponse json.Unmarshal_directData "[1,2]"
    = None
  ∧ decodePage json.Unmarshal_apiResponse json.Unmarshal_directData
      (Scenario.text "{'data':[{'load':1e999}]}")
    = None
  ∧ decodePage json.Unmarshal_apiResponse json.Unmarshal_directData
      (Scenario.text "'N_1'")
    = None.
Proof. repeat split; vm_compute; reflexivity. Qed.

(** ** Byte strings *)

Section StringFacts.

#[local] Arguments String.append : simpl nomatch.

Lemma append_nil_r (s : string) : s +:+ EmptyString = s.
Proof. induction s as [|c s IH]; cbn; [ reflexivity | now rewrite IH ]. Qed.

Lemma append_assoc (a b c : string) : (a +:+ b) +:+ c = a +:+ (b +:+ c).
Proof. induction a as [|x a IH]; cbn; [ reflexivity | now rewrite IH ]. Qed.

Lemma length_append (a b : string) :
  String.length (a +:+ b) = (String.length a + String.length b)%nat.
Proof. induction a as [|x a IH]; cbn; [ reflexivity | now rewrite IH ]. Qed.

Lemma rev_app_append (s acc : string) :
  String.rev_app s acc = String.rev s +:+ acc.
Proof.
  unfold String.rev. revert acc.
  induction s as [|c s IH]; intros acc; cbn; [ reflexivity | ].
  rewrite (IH (String c EmptyString)), IH, append_assoc. reflexivity.
Qed.

Lemma rev_cons (c : ascii) (s : string) :
  String.rev (String c s) = String.rev s +:+ String c EmptyString.
Proof. unfold String.rev at 1. cbn. apply rev_app_append. Qed.

Lemma rev_append (a b : string) :
  String.rev (a +:+ b) = String.rev b +:+ String.rev a.
Proof.
  induction a as [|c a IH].
  - cbn [append]. now rewrite append_nil_r.
  - cbn [append]. now rewrite !rev_cons, IH, append_assoc.
Qed.

Lemma rev_involutive (s : string) : String.rev (String.rev s) = s.
Proof.
  induction s as [|c s IH]; [ reflexivity | ].
  rewrite rev_cons, rev_append, IH. reflexivity.
Qed.

Lemma HasPrefix_append (p b : string) : strings.HasPrefix (p +:+ b) p = true.
Proof.
  induction p as [|c p IH]; cbn [append strings.HasPrefix]; [ reflexivity | ].
  now rewrite Ascii.eqb_refl, IH.
Qed.

Lemma HasPrefix_inv (p s : string) :
  strings.HasPrefix s p = true → ∃ b, s = p +:+ b.
Proof.
  revert s. induction p as [|c p IH]; intros s H.
  - exists s. reflexivity.
  - destruct s as [|d s]; cbn [strings.HasPrefix] in H; [ discriminate | ].
    apply andb_prop in H as [Hc Hp]. apply Ascii.eqb_eq in Hc as ->.
    destruct (IH s Hp) as [b ->]. exists b. reflexivity.
Qed.

Lemma occurs_trans (p q s : string) : occurs p q → occurs q s → occurs p s.
Proof.
  intros (a & b & ->) (a' & b' & ->).
  exists (a' +:+ a), (b +:+ b'). now rewrite !append_assoc.
Qed.

Lemma Index_range (s p : string) : strings.Index s p = -1 ∨ 0 <= strings.Index s p.
Proof.
  induction s as [|c s IH]; cbn [strings.Index].
  - destruct (strings.HasPrefix EmptyString p); lia.
  - destruct (strings.HasPrefix (String c s) p); [ lia | ].
    destruct (Z.eqb_spec (strings.Index s p) (-1)); lia.
Qed.

Lemma Index_prefix (s p : string) :
  strings.HasPrefix s p = true → strings.Index s p = 0.
Proof. intros H. destruct s; cbn [strings.Index]; now rewrite H. Qed.

Lemma Contains_occurs (s p : string) :
  strings.Contains s p = true ↔ occurs p s.
Proof.
  unfold strings.Contains. rewrite Z.geb_le. split.
  - induction s as [|c s IH]; cbn [strings.Index].
    + destruct (strings.HasPrefix EmptyString p) eqn:E; [ | lia ].
      intros _. destruct (HasPrefix_inv _ _ E) as [b Hb].
      exists EmptyString, b. exact Hb.
    + destruct (strings.HasPrefix (String c s) p) eqn:E.
      * intros _. destruct (HasPrefix_inv _ _ E) as [b Hb].
        exists EmptyString, b. exact Hb.
      * destruct (Z.eqb_spec (strings.Index s p) (-1)); [ lia | ].
        intros _. destruct (Index_range s p) as [|Hge]; [ lia | ].
        destruct (IH Hge) as (a & b & ->).
        exists (String c a), b. reflexivity.
  - intros (a & b & ->). induction a as [|c a IH].
    + cbn [append]. rewrite Index_prefix; [ lia | apply HasPrefix_append ].
    + cbn [append strings.Index].
      destruct (strings.HasPrefix _ p); [ lia | ].
      destruct (Z.eqb_spec (strings.Index (a +:+ p +:+ b) p) (-1)); lia.
Qed.

(** *** Split *)

Lemma has_byte_append (c : ascii) (a b : string) :
  has_byte c (a +:+ b) = has_byte c a || has_byte c b.
Proof.
  induction a as [|d a IH]; cbn [append has_byte]; [ reflexivity | ].
  now rewrite IH, orb_assoc.
Qed.

Lemma Split_head_prefix (s : string) (sep : ascii) :
  ∃ p ps b, strings.Split s sep = p :: ps ∧ s = p +:+ b.
Proof.
  induction s as [|c s (p & ps & b & E & Hs)]; cbn [strings.Split].
  - exists EmptyString, [], EmptyString. split; reflexivity.
  - destruct (Ascii.eqb c sep).
    + exists EmptyString, (strings.Split s sep), (String c s). split; reflexivity.
    + rewrite E. exists (String c p), ps, b. split; [ reflexivity | ].
      cbn [append]. now rewrite <- Hs.
Qed.

Lemma Split_occurs (s : string) (sep : ascii) (l : string) :
  l ∈ strings.Split s sep → occurs l s.
Proof.
  revert l. induction s as [|c s IH]; intros l; cbn [strings.Split].
  - intros ->%list_elem_of_singleton. exists EmptyString, EmptyString. reflexivity.
  - destruct (Ascii.eqb c sep).
    + intros [->|Hl]%elem_of_cons.
      * exists EmptyString, (String c s). reflexivity.
      * destruct (IH l Hl) as (a & b & ->). exists (String c a), b. reflexivity.
    + destruct (Split_head_prefix s sep) as (p & ps & b & E & Hs).
      rewrite E. intros [->|Hl]%elem_of_cons.
      * exists EmptyString, b. cbn [append]. now rewrite <- Hs.
      * destruct (IH l) as (a & b' & ->); [ rewrite E; now right | ].
        exists (String c a), b'. reflexivity.
Qed.

Lemma Split_no_sep (s : string) (sep : ascii) :
  has_byte sep s = false → strings.Split s sep = [s].
Proof.
  induction s as [|c s IH]; cbn [has_byte strings.Split]; [ reflexivity | ].
  intros [Hc Hs]%orb_false_elim. rewrite Hc, (IH Hs). reflexivity.
Qed.

Lemma Split_append_sep (a b : string) (sep : ascii) :
  strings.Split (a +:+ String sep b) sep
  = strings.Split a sep ++ strings.Split b sep.
Proof.
  induction a as [|c a IH]; cbn [append strings.Split].
  - now rewrite Ascii.eqb_refl.
  - destruct (Ascii.eqb c sep); [ now rewrite IH | ].
    rewrite IH.
    destruct (Split_head_prefix a sep) as (p & ps & _ & E & _).
    rewrite E. reflexivity.
Qed.

(** *** TrimSpace *)

Lemma drop_bytes_suffix (n : nat) (s : string) :
  ∃ a, s = a +:+ strings.drop_bytes n s.
Proof.
  revert s. induction n as [|n IH]; intros s.
  - exists EmptyString. reflexivity.
  - destruct s as [|c s]; cbn [strings.drop_bytes].
    + exists EmptyString. reflexivity.
    + destruct (IH s) as [a Ha]. exists (String c a).
      cbn [append]. now rewrite <- Ha.
Qed.

Lemma trim_left_suffix (fuel : nat) (runes : list string) (s : string) :
  ∃ a, s = a +:+ strings.trim_left fuel runes s.
Proof.
  revert s. induction fuel as [|fuel IH]; intros s; cbn [strings.trim_left].
  - exists EmptyString. reflexivity.
  - destruct (strings.leading_space runes s) as [[|n]|];
      try (exists EmptyString; reflexivity).
    destruct (drop_bytes_suffix (S n) s) as [a Ha].
    destruct (IH (strings.drop_bytes (S n) s)) as [a' Ha'].
    exists (a +:+ a'). now rewrite append_assoc, <- Ha', <- Ha.
Qed.

Lemma trim_left_fixed (fuel : nat) (runes : list string) (s : string) :
  strings.leading_space runes s = None → strings.trim_left fuel runes s = s.
Proof. intros H. destruct fuel; cbn [strings.trim_left]; now rewrite ?H. Qed.

Lemma TrimSpace_occurs (s : string) : occurs (strings.TrimSpace s) s.
Proof.
  unfold strings.TrimSpace, strings.TrimLeftSpace.
  destruct (trim_left_suffix (String.length s) strings.space_runes s)
    as [a Ha].
  set (t := strings.trim_left _ _ s) in *.
  unfold strings.TrimRightSpace.
  destruct (trim_left_suffix (String.length t)
              (map String.rev strings.space_runes) (String.rev t))
    as [a' Ha'].
  set (x := strings.trim_left _ _ (String.rev t)) in *.
  exists a, (String.rev a').
  rewrite <- rev_append, <- Ha', rev_involutive. exact Ha.
Qed.

(** *** A well-formed directive *)

Lemma trim_left_spaces (n fuel : nat) (s : string) :
  strings.trim_left (n + fuel) strings.space_runes (spaces n +:+ s)
  = strings.trim_left fuel strings.space_runes s.
Proof.
  induction n as [|n IH]; [ reflexivity | ].
  cbn [Nat.add spaces append strings.trim_left].
  change (strings.leading_space strings.space_runes
            (String (ascii_of_nat 32) (spaces n +:+ s)))
    with (Some 1%nat).
  exact IH.
Qed.

Lemma TrimSpace_directive (n : nat) (u rel : string) :
  is_rel_next rel →
  strings.TrimSpace (directive n u rel) = "<" +:+ u +:+ ">; " +:+ rel.
Proof.
  intros Hrel. unfold strings.TrimSpace.
  assert (Hl : strings.TrimLeftSpace (directive n u rel)
               = "<" +:+ u +:+ ">; " +:+ rel).
  { unfold strings.TrimLeftSpace, directive.
    rewrite length_append.
    set (k := String.length (_ +:+ _)).
    replace (String.length (spaces n)) with n
      by (induction n; cbn; congruence).
    rewrite trim_left_spaces. apply trim_left_fixed. reflexivity. }
  rewrite Hl. unfold strings.TrimRightSpace.
  rewrite trim_left_fixed; [ apply rev_involutive | ].
  change ("<" +:+ u +:+ ">; " +:+ rel) with (String "<" (u +:+ ">; " +:+ rel)).
  rewrite rev_cons, !rev_append.
  destruct Hrel as [-> | ->]; reflexivity.
Qed.

(** *** The scan of the Link header *)

Lemma Contains_false_occurs (s t p : string) :
  occurs s t → strings.Contains t p = false → strings.Contains s p = false.
Proof.
  intros Hst Ht. destruct (strings.Contains s p) eqn:E; [ | reflexivity ].
  apply Contains_occurs in E.
  assert (strings.Contains t p = true) as H
    by (apply Contains_occurs; eapply occurs_trans; eassumption).
  congruence.
Qed.

Lemma no_next_directive_occurs (s t : string) :
  occurs s t → no_next_directive t → no_next_directive s.
Proof.
  intros Hst [H1 H2]. split; eapply Contains_false_occurs; eassumption.
Qed.

Lemma scanLinks_skip (l1 l2 : list string) :
  (∀ l, l ∈ l1 → no_next_directive l) →
  scanLinks (l1 ++ l2) = scanLinks l2.
Proof.
  induction l1 as [|l l1 IH]; intros H; [ reflexivity | ].
  cbn [app scanLinks].
  destruct (no_next_directive_occurs (strings.TrimSpace l) l
              (TrimSpace_occurs l) (H l ltac:(left))) as [-> ->].
  cbn [orb]. apply IH. intros l' Hl'. apply H. now right.
Qed.

Lemma Index_byte (c : ascii) (u r : string) :
  has_byte c u = false →
  strings.Index (u +:+ String c r) (String c EmptyString)
  = Z.of_nat (String.length u).
Proof.
  induction u as [|d u IH]; cbn [has_byte append].
  - intros _. cbn [strings.Index strings.HasPrefix].
    now rewrite Ascii.eqb_refl.
  - intros [Hd Hu]%orb_false_elim.
    cbn [strings.Index strings.HasPrefix]. rewrite Hd, (IH Hu). cbn [andb].
    destruct (Z.eqb_spec (Z.of_nat (String.length u)) (-1)); [ lia | ].
    cbn [String.length]. lia.
Qed.

Lemma substring_append (u r : string) :
  substring 0 (String.length u) (u +:+ r) = u.
Proof.
  induction u as [|c u IH]; cbn [String.length append substring].
  - now destruct r.
  - now rewrite IH.
Qed.

Lemma scanLinks_hit (n : nat) (u rel : string) (rest : list string) :
  is_rel_next rel → has_byte ">" u = false →
  scanLinks (directive n u rel :: rest) = u.
Proof.
  intros Hrel Hu. cbn [scanLinks].
  rewrite (TrimSpace_directive n u rel Hrel).
  assert (Hc : strings.Contains ("<" +:+ u +:+ ">; " +:+ rel) rel = true).
  { apply Contains_occurs. exists ("<" +:+ u +:+ ">; "), EmptyString.
    now rewrite append_nil_r, !append_assoc. }
  replace (strings.Contains ("<" +:+ u +:+ ">; " +:+ rel) rel_next_quoted
           || strings.Contains ("<" +:+ u +:+ ">; " +:+ rel) rel_next_bare)
    with true
    by (destruct Hrel as [-> | ->]; rewrite Hc; now rewrite ?orb_true_r).
  change ("<" +:+ u +:+ ">; " +:+ rel)
    with (String "<" (u +:+ String ">" ("; " +:+ rel))).
  cbn [strings.Index strings.HasPrefix Ascii.eqb Bool.eqb andb].
  rewrite (Index_byte ">" u _ Hu).
  destruct (Z.eqb_spec (Z.of_nat (String.length u)) (-1)); [ lia | ].
  replace (negb (0 =? -1)
           && negb (Z.of_nat (String.length u) + 1 =? -1)
           && (Z.of_nat (String.length u) + 1 >? 0)) with true.
  - unfold strings.slice.
    replace (Z.to_nat (0 + 1)) with 1%nat by lia.
    replace (Z.to_nat (Z.of_nat (String.length u) + 1 - (0 + 1)))
      with (String.length u) by lia.
    cbn [substring]. apply substring_append.
  - destruct (Z.eqb_spec (Z.of_nat (String.length u) + 1) (-1)); [ lia | ].
    destruct (Z.gtb_spec (Z.of_nat (String.length u) + 1) 0); [ | lia ].
    reflexivity.
Qed.

Lemma has_byte_spaces (n : nat) : has_byte comma (spaces n) = false.
Proof.
  induction n as [|n IH]; [ reflexivity | ].
  cbn [spaces has_byte]. rewrite IH. reflexivity.
Qed.

Lemma has_byte_directive (n : nat) (u rel : string) :
  is_rel_next rel → has_byte comma u = false →
  has_byte comma (directive n u rel) = false.
Proof.
  intros Hrel Hu. unfold directive.
  rewrite !has_byte_append, Hu.
  rewrite has_byte_spaces.
  destruct Hrel as [-> | ->]; reflexivity.
Qed.

Lemma Split_directive (n : nat) (u rel post : string) :
  is_rel_next rel → has_byte comma u = false →
  (post = EmptyString ∨ ∃ post', post = "," +:+ post') →
  ∃ rest, strings.Split (directive n u rel +:+ post) comma
          = directive n u rel :: rest.
Proof.
  intros Hrel Hu [-> | [post' ->]].
  - exists []. rewrite append_nil_r.
    apply Split_no_sep, has_byte_directive; assumption.
  - exists (strings.Split post' comma).
    change ("," +:+ post') with (String comma post').
    rewrite Split_append_sep, Split_no_sep
      by (apply has_byte_directive; assumption).
    reflexivity.
Qed.

(** A header without the relation yields no next URL. *)
Lemma nextURL_of_no_directive (h : string) :
  no_next_directive h → nextURL_of h = EmptyString.
Proof.
  intros H. unfold nextURL_of.
  rewrite <- (app_nil_r (strings.Split h comma)), scanLinks_skip;
    [ reflexivity | ].
  intros l Hl. eapply no_next_directive_occurs; [ | exact H ].
  eapply Split_occurs. exact Hl.
Qed.

(** A header with a well-formed "next" directive yields its target. *)
Lemma nextURL_of_directive (h u : string) :
  carries_next h u → nextURL_of h = u.
Proof.
  intros (pre & n & rel & post & -> & Hrel & Hpre & Hno & Hpost & Hc & Hgt).
  unfold nextURL_of.
  destruct (Split_directive n u rel post Hrel Hc Hpost) as [rest Hsplit].
  destruct Hpre as [-> | [pre' ->]].
  - cbn [append]. rewrite Hsplit. now apply scanLinks_hit.
  - rewrite append_assoc.
    change ("," +:+ directive n u rel +:+ post)
      with (String comma (directive n u rel +:+ post)).
    rewrite Split_append_sep, scanLinks_skip, Hsplit.
    + now apply scanLinks_hit.
    + intros l Hl. eapply no_next_directive_occurs; [ | exact Hno ].
      eapply occurs_trans; [ eapply Split_occurs; exact Hl | ].
      exists EmptyString, ",". reflexivity.
Qed.

End StringFacts.

(** ** Facts about the executor *)

Section ExecutorFacts.

Variables (c : MerakiClient) (ctx : Context) (req : Request).

Lemma Do_answer (w : World) (r : Response) :
  httpClient c (length (sent w)) req = inr r →
  Do c req w
  = (inr (received (length (sent w)) r),
     mkWorld (sent w ++ [req]) (closed w) (waits w)).
Proof. intros H. unfold Do. rewrite H. reflexivity. Qed.

Lemma retriable_branches (s : Z) :
  retriable s = true →
  (s <? 300) = false
  ∧ ((s >=? 400) && (s <? 500) && negb (s =? 429)) = false.
Proof.
  unfold retriable. intros H.
  apply andb_prop in H as [H1 H2].
  split; [ now apply negb_true_iff in H1 | now apply negb_true_iff in H2 ].
Qed.

Lemma int_succ_small (a : Z) : a < max_int → int_succ a = a + 1.
Proof.
  intros H. unfold int_succ.
  destruct (a + 1 >? max_int) eqn:E; [ | reflexivity ].
  apply Z.gtb_lt in E. lia.
Qed.

(** One retried attempt that is followed by a back-off wait. *)
Lemma retryLoop_retry_step (fuel : nat) (a : Z) (resp : option Response)
    (w : World) (r : Response) :
  a < maxRetries c → maxRetries c <= max_int →
  never_cancelled ctx →
  httpClient c (length (sent w)) req = inr r →
  retriable (StatusCode r) = true →
  retryLoop (S fuel) c ctx req a resp w
  = retryLoop fuel c ctx req (a + 1)
      (Some (received (length (sent w)) r)) (after_retries req a 1 w).
Proof.
  intros Ha Hmax Hctx Hr Hs.
  destruct (retriable_branches _ Hs) as [H1 H2].
  cbn [retryLoop].
  replace (a <=? maxRetries c) with true by (symmetry; apply Z.leb_le; lia).
  rewrite (Do_answer _ _ Hr).
  cbn [StatusCode received]. rewrite H1, H2.
  replace (a <? maxRetries c) with true by (symmetry; apply Z.ltb_lt; lia).
  rewrite Hctx, int_succ_small by lia.
  unfold after_retries, Close, begin_wait. cbn.
  rewrite Z.add_0_r. reflexivity.
Qed.

Lemma after_retries_S (a : Z) (m : nat) (w : World) :
  after_retries req (a + 1) m (after_retries req a 1 w)
  = after_retries req a (S m) w.
Proof.
  unfold after_retries. cbn [sent closed waits].
  rewrite length_app. cbn [length replicate seq map].
  rewrite <- !app_assoc. cbn [app].
  f_equal.
  - f_equal. f_equal. f_equal. lia.
  - f_equal. rewrite Z.add_0_r. f_equal.
    rewrite <- seq_shift, map_map.
    apply map_ext. intros i. lia.
Qed.

(** [m] retried attempts in a row, all within the budget. *)
Lemma retryLoop_retries (m : nat) :
  ∀ (fuel : nat) (a : Z) (resp : option Response) (w : World),
    0 <= a → a + Z.of_nat m <= maxRetries c → maxRetries c <= max_int →
    never_cancelled ctx →
    (∀ k, (k < m)%nat →
          ∃ r, httpClient c (length (sent w) + k) req = inr r
               ∧ retriable (StatusCode r) = true) →
    ∃ resp',
      retryLoop (m + fuel) c ctx req a resp w
      = retryLoop fuel c ctx req (a + Z.of_nat m) resp'
          (after_retries req a m w).
Proof.
  induction m as [|m IH]; intros fuel a resp w Ha Hm Hmax Hctx Hans.
  - exists resp. rewrite Z.add_0_r. unfold after_retries.
    cbn. rewrite !app_nil_r. now destruct w.
  - destruct (Hans 0%nat ltac:(lia)) as (r & Hr & Hs).
    rewrite Nat.add_0_r in Hr.
    change (S m + fuel)%nat with (S (m + fuel)).
    rewrite (retryLoop_retry_step (m + fuel) a resp w r) by (done || lia).
    destruct (IH fuel (a + 1) (Some (received (length (sent w)) r))
                (after_retries req a 1 w)) as [resp' E]; try lia; try done.
    + intros k Hk. destruct (Hans (S k) ltac:(lia)) as (r' & Hr' & Hs').
      exists r'. split; [ | done ].
      unfold after_retries. cbn [sent]. rewrite length_app. cbn.
      rewrite <- Hr'. f_equal. lia.
    + exists resp'. rewrite E, after_retries_S. f_equal. lia.
Qed.

(** An attempt answered with a status below 300 ends the loop. *)
Lemma retryLoop_success (fuel : nat) (a : Z) (resp : option Response)
    (w : World) (r : Response) :
  a <= maxRetries c →
  httpClient c (length (sent w)) req = inr r →
  StatusCode r < 300 →
  retryLoop (S fuel) c ctx req a resp w
  = Ok (Some (received (length (sent w)) r), None)
       (mkWorld (sent w ++ [req]) (closed w) (waits w)).
Proof.
  intros Ha Hr Hs. cbn [retryLoop].
  replace (a <=? maxRetries c) with true by (symmetry; apply Z.leb_le; lia).
  rewrite (Do_answer _ _ Hr). cbn [StatusCode received].
  replace (StatusCode r <? 300) with true by (symmetry; apply Z.ltb_lt; lia).
  reflexivity.
Qed.

(** The last attempt of the budget, answered with a retriable status: the
    body is closed, the counter passes the maximum and the loop ends. *)
Lemma retryLoop_last (fuel : nat) (resp : option Response) (w : World)
    (r : Response) :
  maxRetries c < max_int →
  httpClient c (length (sent w)) req = inr r →
  retriable (StatusCode r) = true →
  retryLoop (S (S fuel)) c ctx req (maxRetries c) resp w
  = Ok (Some (received (length (sent w)) r), None)
       (mkWorld (sent w ++ [req]) (closed w ++ [length (sent w)]) (waits w)).
Proof.
  intros Hmax Hr Hs.
  destruct (retriable_branches _ Hs) as [H1 H2].
  cbn [retryLoop].
  rewrite Z.leb_refl, (Do_answer _ _ Hr).
  cbn [StatusCode received]. rewrite H1, H2, Z.ltb_irrefl.
  rewrite int_succ_small by lia.
  replace (maxRetries c + 1 <=? maxRetries c) with false
    by (symmetry; apply Z.leb_gt; lia).
  reflexivity.
Qed.

End ExecutorFacts.

(** ** The executor on a transport that keeps answering retriable statuses *)

Section RetryBudget.

Variables (c : MerakiClient) (ctx : Context) (req : Request).

(** The configured retry count, as a number of retries. *)
Let N : nat := Z.to_nat (maxRetries c).

(** When every attempt of the budget is answered with a retriable status,
    the executor makes [N + 1] attempts, closes every body it received and
    returns the last response without an error. *)
Lemma retry_exhausted (fuel : nat) (w : World) :
  0 <= maxRetries c < max_int →
  never_cancelled ctx →
  (∀ k, (k <= N)%nat →
        ∃ r, httpClient c (length (sent w) + k) req = inr r
             ∧ retriable (StatusCode r) = true) →
  (N + 1 < fuel)%nat →
  ∃ r, httpClient c (length (sent w) + N) req = inr r
       ∧ retriable (StatusCode r) = true
       ∧ doRequestWithRetry fuel c ctx req w
         = Ok (Some (received (length (sent w) + N) r), None)
              (mkWorld (sent w ++ replicate (S N) req)
                 (closed w ++ seq (length (sent w)) (S N))
                 (waits w ++ map Z.of_nat (seq 0 N))).
Proof.
  intros HN Hctx Hans Hfuel.
  destruct (Hans N (Nat.le_refl _)) as (r & Hr & Hs).
  exists r. split; [ done | split; [ done | ] ].
  unfold doRequestWithRetry.
  replace fuel with (N + S (S (fuel - N - 2)))%nat by lia.
  destruct (retryLoop_retries c ctx req N (S (S (fuel - N - 2))) 0 None w)
    as [resp' E]; try (subst N; lia); try done.
  { intros k Hk. apply Hans. lia. }
  rewrite E.
  replace (0 + Z.of_nat N) with (maxRetries c) by (subst N; lia).
  assert (Hlen : length (sent (after_retries req 0 N w))
                 = (length (sent w) + N)%nat).
  { unfold after_retries. cbn [sent].
    now rewrite length_app, length_replicate. }
  rewrite (retryLoop_last c ctx req _ resp' _ r); try lia.
  - rewrite Hlen. unfold after_retries. cbn [sent closed waits].
    f_equal. f_equal.
    + rewrite <- app_assoc. f_equal.
      change [req] with (replicate 1 req).
      rewrite <- replicate_add. f_equal. lia.
    + rewrite <- app_assoc. f_equal.
      rewrite seq_S. reflexivity.
  - now rewrite Hlen.
  - done.
Qed.

(** C2. For every retry count [N >= 0], on a transport that answers 503 to
    the first [N] attempts and 200 to the next one, and with a caller that
    does not cancel, [doRequestWithRetry] returns that 200 response with a
    nil error after exactly [N + 1] transport calls: [N] retries, each
    preceded by a back-off wait and by the release of the discarded body,
    and no call after the 200. *)
Theorem retry_503_then_200 (fuel : nat) (w : World) (ok : Response) :
  0 <= maxRetries c <= max_int →
  never_cancelled ctx →
  (∀ k, (k < N)%nat →
        ∃ r, httpClient c (length (sent w) + k) req = inr r
             ∧ StatusCode r = 503) →
  httpClient c (length (sent w) + N) req = inr ok →
  StatusCode ok = 200 →
  (N < fuel)%nat →
  doRequestWithRetry fuel c ctx req w
  = Ok (Some (received (length (sent w) + N) ok), None)
       (mkWorld (sent w ++ replicate (S N) req)
          (closed w ++ seq (length (sent w)) N)
          (waits w ++ map Z.of_nat (seq 0 N))).
Proof.
  intros HN Hctx H503 Hok H200 Hfuel.
  unfold doRequestWithRetry.
  replace fuel with (N + S (fuel - N - 1))%nat by lia.
  destruct (retryLoop_retries c ctx req N (S (fuel - N - 1)) 0 None w)
    as [resp' E]; try (subst N; lia); try done.
  { intros k Hk. destruct (H503 k Hk) as (r & Hr & Hs).
    exists r. split; [ done | ]. now rewrite Hs. }
  rewrite E.
  assert (Hlen : length (sent (after_retries req 0 N w))
                 = (length (sent w) + N)%nat).
  { unfold after_retries. cbn [sent].
    now rewrite length_app, length_replicate. }
  rewrite (retryLoop_success c ctx req _ _ resp' _ ok).
  - rewrite Hlen. unfold after_retries. cbn [sent closed waits].
    f_equal. f_equal.
    rewrite <- app_assoc. f_equal.
    change [req] with (replicate 1 req).
    rewrite <- replicate_add. f_equal. lia.
  - subst N. lia.
  - now rewrite Hlen.
  - lia.
Qed.

(** C4. On a transport that answers 429 to every attempt, with a
    non-negative retry count and a caller that does not cancel,
    [doRequestWithRetry] makes all [N + 1] attempts of its budget and then
    returns the response received last, a 429, together with a nil error. *)
Theorem retry_429_exhausted (fuel : nat) (w : World) :
  0 <= maxRetries c < max_int →
  never_cancelled ctx →
  (∀ k, ∃ r, httpClient c k req = inr r ∧ StatusCode r = 429) →
  (N + 1 < fuel)%nat →
  ∃ (last : Response) (w' : World),
    httpClient c (length (sent w) + N) req = inr last
    ∧ StatusCode last = 429
    ∧ doRequestWithRetry fuel c ctx req w
      = Ok (Some (received (length (sent w) + N) last), None) w'
    ∧ sent w' = sent w ++ replicate (S N) req.
Proof.
  intros HN Hctx H429 Hfuel.
  destruct (retry_exhausted fuel w HN Hctx) as (r & Hr & _ & E); [ | done | ].
  { intros k _. destruct (H429 (length (sent w) + k)%nat) as (r & Hr & Hs).
    exists r. split; [ done | ]. now rewrite Hs. }
  destruct (H429 (length (sent w) + N)%nat) as (r' & Hr' & Hs').
  assert (r' = r) as -> by congruence.
  eexists r, _. repeat split; [ done | done | exact E | reflexivity ].
Qed.

(** A response that leaves the loop with a retriable status has had its
    body closed, provided this holds of the response the loop started
    with. *)
Lemma retryLoop_retriable_closed (fuel : nat) :
  ∀ (a : Z) (resp0 : option Response) (w w' : World) (resp : Response),
    (∀ r0, resp0 = Some r0 → stream (Body r0) ∈ closed w) →
    retryLoop fuel c ctx req a resp0 w = Ok (Some resp, None) w' →
    retriable (StatusCode resp) = true →
    stream (Body resp) ∈ closed w'.
Proof.
  induction fuel as [|fuel IH]; intros a resp0 w w' resp H0 Hrun Hs;
    [ discriminate | ].
  cbn [retryLoop] in Hrun.
  destruct (a <=? maxRetries c).
  - destruct (Do c req w) as [[e|r] w1]; [ discriminate | ].
    destruct (StatusCode r <? 300) eqn:E1.
    { injection Hrun as -> ->.
      apply retriable_branches in Hs as [Hs _]. congruence. }
    destruct ((StatusCode r >=? 400) && (StatusCode r <? 500)
              && negb (StatusCode r =? 429)) eqn:E2.
    { injection Hrun as -> ->.
      apply retriable_branches in Hs as [_ Hs]. congruence. }
    destruct (a <? maxRetries c).
    + destruct (Done ctx _); [ discriminate | ].
      eapply IH; [ | exact Hrun | exact Hs ].
      intros r0 [= <-]. cbn. apply elem_of_app. right. now left.
    + eapply IH; [ | exact Hrun | exact Hs ].
      intros r0 [= <-]. cbn. apply elem_of_app. right. now left.
  - injection Hrun as -> ->. now apply H0.
Qed.

(** A response that leaves the loop is the one the loop started with or
    the transport's answer to one of the calls. *)
Lemma retryLoop_received (fuel : nat) :
  ∀ (a : Z) (resp0 : option Response) (w w' : World) (resp : Response),
    retryLoop fuel c ctx req a resp0 w = Ok (Some resp, None) w' →
    resp0 = Some resp
    ∨ ∃ j r, httpClient c j req = inr r ∧ resp = received j r.
Proof.
  induction fuel as [|fuel IH]; intros a resp0 w w' resp Hrun;
    [ discriminate | ].
  cbn [retryLoop] in Hrun.
  destruct (a <=? maxRetries c); [ | injection Hrun as -> _; now left ].
  unfold Do in Hrun.
  destruct (httpClient c (length (sent w)) req) as [e|r] eqn:Hr;
    [ discriminate | ].
  assert (Hhere : ∃ j r0, httpClient c j req = inr r0
                          ∧ received (length (sent w)) r = received j r0)
    by now exists (length (sent w)), r.
  assert (Hrec : ∀ w1, retryLoop fuel c ctx req (int_succ a)
                         (Some (received (length (sent w)) r)) w1
                       = Ok (Some resp, None) w' →
                 resp0 = Some resp
                 ∨ ∃ j r0, httpClient c j req = inr r0 ∧ resp = received j r0).
  { intros w1 Hrun1. right.
    destruct (IH _ _ _ _ _ Hrun1) as [[= <-] | H]; [ exact Hhere | exact H ]. }
  destruct (StatusCode (received (length (sent w)) r) <? 300);
    [ injection Hrun as <- _; now right | ].
  destruct (_ && _); [ injection Hrun as <- _; now right | ].
  destruct (a <? maxRetries c);
    [ destruct (Done ctx _); [ discriminate | ] | ];
    eapply Hrec; exact Hrun.
Qed.

(** C10 (amended). Whenever [doRequestWithRetry] hands back a response
    with a retriable status, which it does only after the budget is
    exhausted, the body of that response has been closed already: the
    release at the end of the loop body runs on the last attempt too. The
    caller therefore reads a closed body, and gets what the body of the
    transport's answer yields once closed: an error for a body that reads
    from the connection, the empty string for [http.NoBody]. And the
    executor does hand back such a response when every attempt of the
    budget is answered with a retriable status and the caller does not
    cancel. *)
Theorem exhausted_response_is_closed (fuel : nat) (w : World) :
  (∀ (resp : Response) (w' : World),
      doRequestWithRetry fuel c ctx req w = Ok (Some resp, None) w' →
      retriable (StatusCode resp) = true →
      stream (Body resp) ∈ closed w'
      ∧ ∃ j r, httpClient c j req = inr r
               ∧ resp = received j r
               ∧ ReadAll resp w' = closedRead (Body r)
               ∧ (∀ data, Body r = connBody data →
                          ReadAll resp w' = inl errReadOnClosedBody)
               ∧ (Body r = NoBody → ReadAll resp w' = inr EmptyString))
  ∧ (0 <= maxRetries c < max_int →
     never_cancelled ctx →
     (∀ k, (k <= N)%nat →
           ∃ r, httpClient c (length (sent w) + k) req = inr r
                ∧ retriable (StatusCode r) = true) →
     (N + 1 < fuel)%nat →
     ∃ (resp : Response) (w' : World),
       doRequestWithRetry fuel c ctx req w = Ok (Some resp, None) w'
       ∧ retriable (StatusCode resp) = true).
Proof.
  split.
  - intros resp w' Hrun Hs.
    assert (Hin : stream (Body resp) ∈ closed w').
    { eapply retryLoop_retriable_closed; [ | exact Hrun | exact Hs ].
      intros r0 [=]. }
    split; [ exact Hin | ].
    destruct (retryLoop_received _ _ _ _ _ _ Hrun) as [[=] | (j & r & Hr & ->)].
    assert (Hread : ReadAll (received j r) w' = closedRead (Body r))
      by (unfold ReadAll; now rewrite bool_decide_eq_true_2).
    exists j, r. rewrite Hread.
    repeat split; [ exact Hr | now intros data -> | now intros -> ].
  - intros HN Hctx Hans Hfuel.
    destruct (retry_exhausted fuel w HN Hctx Hans Hfuel) as (r & Hr & Hs & E).
    eexists _, _. split; [ exact E | exact Hs ].
Qed.

End RetryBudget.

(** Three retries configured, 503 three times, then 200: four calls. *)
Lemma retry_503_then_200_witness :
  doRequestWithRetry 4 (Scenario.client (Scenario.flaky 3) 3)
    Scenario.background Scenario.probe world0
  = Ok (Some (received 3 Scenario.fine), None)
       (mkWorld (replicate 4 Scenario.probe) [0; 1; 2]%nat [0; 1; 2]).
Proof.
  refine (retry_503_then_200 (Scenario.client (Scenario.flaky 3) 3)
            Scenario.background Scenario.probe 4 world0 Scenario.fine
            _ _ _ _ _ _).
  - cbn. unfold max_int. lia.
  - intros k. reflexivity.
  - intros k Hk. exists Scenario.unavailable. split; [ | reflexivity ].
    cbn in Hk. cbn. unfold Scenario.flaky.
    destruct (Nat.ltb_spec k 3); [ reflexivity | lia ].
  - reflexivity.
  - reflexivity.
  - cbn. lia.
Defined.

(** Two retries configured, 429 throughout: three calls, the third 429 is
    returned. *)
Lemma retry_429_exhausted_witness :
  ∃ (last : Response) (w' : World),
    httpClient (Scenario.client Scenario.throttled 2) 2 Scenario.probe
    = inr last
    ∧ StatusCode last = 429
    ∧ doRequestWithRetry 4 (Scenario.client Scenario.throttled 2)
        Scenario.background Scenario.probe world0
      = Ok (Some (received 2 last), None) w'
    ∧ sent w' = replicate 3 Scenario.probe.
Proof.
  refine (retry_429_exhausted (Scenario.client Scenario.throttled 2)
            Scenario.background Scenario.probe 4 world0 _ _ _ _).
  - cbn. unfold max_int. lia.
  - intros k. reflexivity.
  - intros k. exists Scenario.throttledResponse. split; reflexivity.
  - cbn. lia.
Defined.

(** Two retries configured, 429 throughout, each answer with a body that
    reads from the connection: the 429 handed back is closed and the read
    of it fails. *)
Lemma exhausted_response_is_closed_witness :
  ∃ (resp : Response) (w' : World),
    doRequestWithRetry 4 (Scenario.client Scenario.throttled 2)
      Scenario.background Scenario.probe world0
    = Ok (Some resp, None) w'
    ∧ retriable (StatusCode resp) = true
    ∧ stream (Body resp) ∈ closed w'
    ∧ ReadAll resp w' = inl errReadOnClosedBody.
Proof.
  destruct (exhausted_response_is_closed
              (Scenario.client Scenario.throttled 2)
              Scenario.background Scenario.probe 4 world0)
    as [Hclosed Hruns].
  destruct Hruns as (resp & w' & Hrun & Hs).
  - cbn. unfold max_int. lia.
  - intros k. reflexivity.
  - intros k _. exists Scenario.throttledResponse. split; reflexivity.
  - cbn. lia.
  - exists resp, w'.
    destruct (Hclosed resp w' Hrun Hs)
      as (Hin & j & r & Hr & -> & Hread & _).
    repeat split; try assumption.
    rewrite Hread. injection Hr as <-. reflexivity.
Defined.

(** C10 does not hold of every response. Two retries configured, 503
    throughout, each answer without content: the 503 handed back has been
    closed, and reading it still succeeds, with the empty string. *)
Lemma exhausted_bodiless_response_still_reads :
  ∃ (resp : Response) (w' : World),
    doRequestWithRetry 4
      (Scenario.client (Scenario.always Scenario.emptyUnavailable) 2)
      Scenario.background Scenario.probe world0
    = Ok (Some resp, None) w'
    ∧ retriable (StatusCode resp) = true
    ∧ stream (Body resp) ∈ closed w'
    ∧ ReadAll resp w' = inr EmptyString.
Proof.
  exists (received 2 Scenario.emptyUnavailable),
         (mkWorld (replicate 3 Scenario.probe) [0; 1; 2]%nat [0; 1]).
  split; [ vm_compute; reflexivity | ].
  split; [ reflexivity | ].
  split; [ cbn; set_solver | ].
  vm_compute. reflexivity.
Defined.

(** ** The executor only ever sends the request it was given *)

Lemma retryLoop_sends_only (c : MerakiClient) (ctx : Context) (req : Request)
    (fuel : nat) :
  ∀ (a : Z) (resp : option Response) (w : World),
    sends_only req w (retryLoop fuel c ctx req a resp w).
Proof.
  assert (Hstep : ∀ (w w1 : World) (res : Res (option Response * option error)),
             sent w1 = sent w ++ [req] →
             sends_only req w1 res → sends_only req w res).
  { intros w w1 [x w'|w'|] Hw1; cbn; [ | | done ].
    all: intros [n Hn]; exists (S n); rewrite Hn, Hw1, <- app_assoc;
      reflexivity. }
  induction fuel as [|fuel IH]; intros a resp w; [ exact I | ].
  cbn [retryLoop].
  destruct (a <=? maxRetries c); [ | exists 0%nat; cbn; now rewrite app_nil_r ].
  unfold Do. destruct (httpClient c (length (sent w)) req) as [e|r].
  { exists 1%nat. reflexivity. }
  cbn [StatusCode received].
  destruct (StatusCode r <? 300); [ exists 1%nat; reflexivity | ].
  destruct ((StatusCode r >=? 400) && (StatusCode r <? 500)
            && negb (StatusCode r =? 429)); [ exists 1%nat; reflexivity | ].
  destruct (a <? maxRetries c).
  - destruct (Done ctx _); [ exists 1%nat; reflexivity | ].
    eapply Hstep; [ | apply IH ]. reflexivity.
  - eapply Hstep; [ | apply IH ]. reflexivity.
Qed.

(** ** Create and delete *)

Section CreateDeleteFacts.

Context {SiteRecord : Type}.
Variable json_Marshal : GoValue -> string.
Variable newRequestError : string -> string -> option error.

#[local] Abbreviation Create := (CreateSecureConnectSite json_Marshal newRequestError).
#[local] Abbreviation Delete := (DeleteSecureConnectSites json_Marshal newRequestError).
#[local] Abbreviation NewRequest := (NewRequestWithContext newRequestError).

(** C6. Once the executor has handed back a final response, the create and
    the delete operation look at its status code only: at 300 or above they
    return an error made of a fixed prefix and the HTTP status text, below
    300 they return nil. Either way the body is released on return. *)
Theorem create_delete_status_error (fuel : nat) (c : MerakiClient)
    (ctx : Context) (orgID siteID : string) (w w1 : World) (resp : Response) :
  (∀ regionType regionID regionName,
      newRequestError "POST" (sites_url c orgID) = None →
      doRequestWithRetry fuel c ctx
        (create_request json_Marshal c orgID siteID regionType regionID regionName) w
      = Ok (Some resp, None) w1 →
      (300 <= StatusCode resp →
       Create fuel c ctx orgID siteID regionType regionID regionName w
       = Ok (Some ("create failed: " +:+ Status resp)) (Close resp w1))
      ∧ (StatusCode resp < 300 →
         Create fuel c ctx orgID siteID regionType regionID regionName w
         = Ok None (Close resp w1)))
  ∧ (newRequestError "DELETE" (sites_url c orgID) = None →
     doRequestWithRetry fuel c ctx (delete_request json_Marshal c orgID siteID) w
     = Ok (Some resp, None) w1 →
     (300 <= StatusCode resp →
      Delete fuel c ctx orgID siteID w
      = Ok (Some ("delete failed: " +:+ Status resp)) (Close resp w1))
     ∧ (StatusCode resp < 300 →
        Delete fuel c ctx orgID siteID w = Ok None (Close resp w1))).
Proof.
  split.
  - intros regionType regionID regionName Hreq Hrun.
    unfold CreateSecureConnectSite, NewRequestWithContext. rewrite Hreq.
    fold (create_request json_Marshal c orgID siteID regionType regionID
            regionName).
    rewrite Hrun.
    split; intros Hs.
    + replace (StatusCode resp >=? 300) with true
        by (symmetry; apply Z.geb_le; lia).
      reflexivity.
    + replace (StatusCode resp >=? 300) with false; [ reflexivity | ].
      symmetry. rewrite Z.geb_leb. apply Z.leb_gt. lia.
  - intros Hreq Hrun.
    unfold DeleteSecureConnectSites, NewRequestWithContext. rewrite Hreq.
    fold (delete_request json_Marshal c orgID siteID).
    rewrite Hrun.
    split; intros Hs.
    + replace (StatusCode resp >=? 300) with true
        by (symmetry; apply Z.geb_le; lia).
      reflexivity.
    + replace (StatusCode resp >=? 300) with false; [ reflexivity | ].
      symmetry. rewrite Z.geb_leb. apply Z.leb_gt. lia.
Qed.

#[local] Ltac map_lookup :=
  repeat (rewrite lookup_insert_ne by done);
  rewrite ?lookup_insert_eq, ?lookup_empty; reflexivity.

Lemma create_enrollment_lookup (siteID regionType regionID regionName k : string) :
  create_enrollment siteID regionType regionID regionName !! k
  = if String.eqb k "siteId" then Some siteID
    else if String.eqb k "regionType" then Some regionType
    else if String.eqb k "regionId"
         then (if String.eqb regionID EmptyString then None else Some regionID)
    else if String.eqb k "regionName"
         then (if String.eqb regionName EmptyString then None
               else Some regionName)
    else None.
Proof.
  unfold create_enrollment.
  destruct (String.eqb regionID EmptyString),
           (String.eqb regionName EmptyString);
    (destruct (String.eqb_spec k "siteId") as [->|]; [ map_lookup | ]);
    (destruct (String.eqb_spec k "regionType") as [->|]; [ map_lookup | ]);
    (destruct (String.eqb_spec k "regionId") as [->|]; [ map_lookup | ]);
    (destruct (String.eqb_spec k "regionName") as [->|]; [ map_lookup | ]);
    map_lookup.
Qed.

End CreateDeleteFacts.

(** A create answered 404 fails with the status text; a delete answered 204
    succeeds. *)
Lemma create_delete_status_error_witness :
  CreateSecureConnectSite Scenario.encode Scenario.anyURL 1
    (Scenario.client (Scenario.always Scenario.notFound) 3)
    Scenario.background "org1" "N_1" "CNHE" EmptyString EmptyString world0
  = Ok (Some "create failed: 404 Not Found")
       (mkWorld
          [create_request Scenario.encode
             (Scenario.client (Scenario.always Scenario.notFound) 3)
             "org1" "N_1" "CNHE" EmptyString EmptyString]
          [0%nat] [])
  ∧ DeleteSecureConnectSites Scenario.encode Scenario.anyURL 1
      (Scenario.client (Scenario.always Scenario.noContent) 3)
      Scenario.background "org1" "N_1" world0
    = Ok None
         (mkWorld
            [delete_request Scenario.encode
               (Scenario.client (Scenario.always Scenario.noContent) 3)
               "org1" "N_1"]
            [0%nat] []).
Proof.
  split.
  - refine (proj1
              (proj1
                 (create_delete_status_error Scenario.encode Scenario.anyURL 1
                    (Scenario.client (Scenario.always Scenario.notFound) 3)
                    Scenario.background "org1" "N_1" world0
                    (mkWorld
                       [create_request Scenario.encode
                          (Scenario.client
                             (Scenario.always Scenario.notFound) 3)
                          "org1" "N_1" "CNHE" EmptyString EmptyString]
                       [] [])
                    (received 0 Scenario.notFound))
                 "CNHE" EmptyString EmptyString _ _) _).
    + reflexivity.
    + reflexivity.
    + cbn. lia.
  - refine (proj2
              (proj2
                 (create_delete_status_error Scenario.encode Scenario.anyURL 1
                    (Scenario.client (Scenario.always Scenario.noContent) 3)
                    Scenario.background "org1" "N_1" world0
                    (mkWorld
                       [delete_request Scenario.encode
                          (Scenario.client
                             (Scenario.always Scenario.noContent) 3)
                          "org1" "N_1"]
                       [] [])
                    (received 0 Scenario.noContent))
                 _ _) _).
    + reflexivity.
    + reflexivity.
    + cbn. lia.
Defined.

(** ** The list operation *)

Section ListFacts.

Context {SiteRecord : Type}.
Variable json_Unmarshal_apiResponse : string -> option (list SiteRecord).
Variable json_Unmarshal_directData : string -> option (list SiteRecord).
Variable newRequestError : string -> string -> option error.

#[local] Abbreviation decode :=
  (decodePage json_Unmarshal_apiResponse json_Unmarshal_directData).
#[local] Abbreviation loop :=
  (listLoop json_Unmarshal_apiResponse json_Unmarshal_directData
     newRequestError).

(** One iteration of the loop on a page that was fetched with status 200
    and read to the end. *)
Lemma loop_page (pages fuel : nat) (c : MerakiClient) (ctx : Context)
    (url : string) (allSites : list SiteRecord) (deferred : list Response)
    (w w1 : World) (resp : Response) (body : string) :
  newRequestError "GET" url = None →
  doRequestWithRetry fuel c ctx (get_request c url) w = Ok (Some resp, None) w1 →
  ReadAll resp w1 = inr body →
  StatusCode resp = 200 →
  loop (S pages) fuel c ctx url allSites deferred w
  = match decode body with
    | None => leave (resp :: deferred) ([], Some errFormat) w1
    | Some currentSites =>
        let linkHeader := Header_Get (Header resp) "Link" in
        if String.eqb linkHeader EmptyString
        then leave (resp :: deferred) (allSites ++ currentSites, None) w1
        else if String.eqb (nextURL_of linkHeader) EmptyString
        then leave (resp :: deferred) (allSites ++ currentSites, None) w1
        else if Z.of_nat (length currentSites) <? 1000
        then leave (resp :: deferred) (allSites ++ currentSites, None) w1
        else loop pages fuel c ctx (nextURL_of linkHeader)
               (allSites ++ currentSites) (resp :: deferred) w1
    end.
Proof.
  intros Hreq Hrun Hread H200.
  cbn [listLoop]. unfold NewRequestWithContext. rewrite Hreq.
  fold (get_request c url). rewrite Hrun, Hread, H200. reflexivity.
Qed.

Lemma carries_next_nonempty (h u : string) :
  carries_next h u → String.eqb h EmptyString = false.
Proof.
  intros (pre & n & rel & post & -> & _).
  apply String.eqb_neq. intros H.
  apply (f_equal String.length) in H.
  unfold directive in H. rewrite !length_append in H. cbn in H. lia.
Qed.

(** A page that is not short and carries a well-formed "next" directive:
    the loop goes round with the directive's target. *)
Lemma loop_page_next (pages fuel : nat) (c : MerakiClient) (ctx : Context)
    (url next : string) (allSites currentSites : list SiteRecord)
    (deferred : list Response) (w w1 : World) (resp : Response)
    (body : string) :
  newRequestError "GET" url = None →
  doRequestWithRetry fuel c ctx (get_request c url) w = Ok (Some resp, None) w1 →
  ReadAll resp w1 = inr body →
  StatusCode resp = 200 →
  decode body = Some currentSites →
  (1000 <= length currentSites)%nat →
  carries_next (Header_Get (Header resp) "Link") next →
  next ≠ EmptyString →
  loop (S pages) fuel c ctx url allSites deferred w
  = loop pages fuel c ctx next (allSites ++ currentSites) (resp :: deferred) w1.
Proof.
  intros Hreq Hrun Hread H200 Hdec Hlen Hnext Hne.
  rewrite (loop_page _ _ _ _ _ _ _ _ _ _ _ Hreq Hrun Hread H200), Hdec.
  cbv zeta.
  rewrite (carries_next_nonempty _ _ Hnext), (nextURL_of_directive _ _ Hnext).
  apply String.eqb_neq in Hne. rewrite Hne.
  replace (Z.of_nat (length currentSites) <? 1000) with false
    by (symmetry; apply Z.ltb_ge; lia).
  reflexivity.
Qed.

(** A page whose Link header does not mention the relation, or that has no
    Link header: the operation returns what it has accumulated. *)
Lemma loop_page_last (pages fuel : nat) (c : MerakiClient) (ctx : Context)
    (url : string) (allSites currentSites : list SiteRecord)
    (deferred : list Response) (w w1 : World) (resp : Response)
    (body : string) :
  newRequestError "GET" url = None →
  doRequestWithRetry fuel c ctx (get_request c url) w = Ok (Some resp, None) w1 →
  ReadAll resp w1 = inr body →
  StatusCode resp = 200 →
  decode body = Some currentSites →
  no_next_directive (Header_Get (Header resp) "Link") →
  loop (S pages) fuel c ctx url allSites deferred w
  = Ok (allSites ++ currentSites, None) (runDeferred (resp :: deferred) w1).
Proof.
  intros Hreq Hrun Hread H200 Hdec Hno.
  rewrite (loop_page _ _ _ _ _ _ _ _ _ _ _ Hreq Hrun Hread H200), Hdec.
  cbv zeta. rewrite (nextURL_of_no_directive _ Hno).
  now destruct (String.eqb _ _).
Qed.

(** C5. On a page of exactly 1000 records the short-page test does not
    fire and the Link header alone decides: with a well-formed "next"
    directive whose target is not empty the loop goes on to a GET of that
    target, with the page's records accumulated; with no such relation in
    the header (or no header) the operation returns the records accumulated
    so far, this page included. *)
Theorem full_page_follows_link (pages fuel : nat) (c : MerakiClient)
    (ctx : Context) (url : string) (allSites currentSites : list SiteRecord)
    (deferred : list Response) (w w1 : World) (resp : Response)
    (body : string) :
  newRequestError "GET" url = None →
  doRequestWithRetry fuel c ctx (get_request c url) w = Ok (Some resp, None) w1 →
  ReadAll resp w1 = inr body →
  StatusCode resp = 200 →
  decode body = Some currentSites →
  length currentSites = 1000%nat →
  (∀ next, carries_next (Header_Get (Header resp) "Link") next →
           next ≠ EmptyString →
           loop (S pages) fuel c ctx url allSites deferred w
           = loop pages fuel c ctx next (allSites ++ currentSites)
               (resp :: deferred) w1)
  ∧ (no_next_directive (Header_Get (Header resp) "Link") →
     loop (S pages) fuel c ctx url allSites deferred w
     = Ok (allSites ++ currentSites, None)
          (runDeferred (resp :: deferred) w1)).
Proof.
  intros Hreq Hrun Hread H200 Hdec Hlen. split.
  - intros next Hnext Hne.
    eapply loop_page_next; try eassumption. lia.
  - intros Hno. eapply loop_page_last; eassumption.
Qed.

(** C9. Whenever the list operation returns an error it returns no
    records: what earlier pages contributed is dropped. *)
Theorem error_means_no_records (pages fuel : nat) (c : MerakiClient)
    (ctx : Context) :
  ∀ (url : string) (allSites : list SiteRecord) (deferred : list Response)
    (w w' : World) (sites : list SiteRecord) (err : error),
    loop pages fuel c ctx url allSites deferred w = Ok (sites, Some err) w' →
    sites = [].
Proof.
  induction pages as [|pages IH];
    intros url allSites deferred w w' sites err H; [ discriminate | ].
  cbn [listLoop] in H. unfold leave in H.
  destruct (NewRequestWithContext _ _ _ _) as [e|req]; [ congruence | ].
  destruct (doRequestWithRetry _ _ _ _ _) as [[[r|] [e|]] w1|w1|];
    try congruence.
  destruct (ReadAll r w1) as [e|body]; [ congruence | ].
  destruct (negb _); [ congruence | ].
  destruct (decodePage _ _ body) as [cur|]; [ | congruence ].
  destruct (String.eqb _ _); [ congruence | ].
  destruct (String.eqb _ _); [ congruence | ].
  destruct (_ <? _); [ congruence | ].
  exact (IH _ _ _ _ _ _ _ H).
Qed.

End ListFacts.

(** ** The budget of the JSON parser *)

Section ParserBudget.

#[local] Close Scope Z_scope.

Lemma skipSpace_length (s : string) :
  String.length (json.skipSpace s) <= String.length s.
Proof.
  induction s as [|c s IH]; cbn; [ lia | ].
  destruct (json.isSpace c); cbn; lia.
Qed.

Lemma skipSpace_cons (s s1 : string) (c : ascii) :
  json.skipSpace s = String c s1 → String.length s1 < String.length s.
Proof.
  intros H. pose proof (skipSpace_length s) as Hle.
  rewrite H in Hle. cbn in Hle. lia.
Qed.

Lemma drop_bytes_length (n : nat) (s : string) :
  String.length (strings.drop_bytes n s) <= String.length s.
Proof.
  revert s. induction n as [|n IH]; intros [|c s]; cbn; try lia.
  specialize (IH s). lia.
Qed.

Lemma scanString_rest (n : nat) :
  ∀ s raw rest, String.length s <= n →
                json.scanString s = Some (raw, rest) →
                String.length rest < String.length s.
Proof.
  induction n as [|n IH]; intros [|c s1] raw rest Hn H; try discriminate;
    cbn in Hn; [ lia | ].
  cbn [json.scanString] in H.
  destruct (Ascii.eqb c json.dquote); [ injection H as _ <-; cbn; lia | ].
  destruct (Ascii.eqb c "\").
  - destruct s1 as [|e s2]; [ discriminate | ].
    destruct (existsb _ _).
    + destruct (json.scanString s2) as [[raw' rest']|] eqn:E; [ | discriminate ].
      injection H as _ <-. apply IH in E; cbn in *; lia.
    + destruct (Ascii.eqb e "u"); [ | discriminate ].
      destruct s2 as [|h1 [|h2 [|h3 [|h4 s3]]]]; try discriminate.
      destruct (forallb _ _); [ | discriminate ].
      destruct (json.scanString s3) as [[raw' rest']|] eqn:E; [ | discriminate ].
      injection H as _ <-. apply IH in E; cbn in *; lia.
  - destruct (json.code c <? 32)%Z; [ discriminate | ].
    destruct (json.scanString s1) as [[raw' rest']|] eqn:E; [ | discriminate ].
    injection H as _ <-. apply IH in E; cbn in *; lia.
Qed.

Lemma scanDigits_split (s : string) :
  String.length (json.scanDigits s).1 + String.length (json.scanDigits s).2
  = String.length s.
Proof.
  induction s as [|c s IH]; [ reflexivity | ]. cbn [json.scanDigits].
  destruct (json.isDigit c); [ | reflexivity ].
  destruct (json.scanDigits s) as [ds rest]. cbn in *. lia.
Qed.

Lemma scanOneOf_split (cs : list ascii) (s : string) :
  String.length (json.scanOneOf cs s).1 + String.length (json.scanOneOf cs s).2
  = String.length s.
Proof.
  destruct s as [|c s]; [ reflexivity | ]. cbn [json.scanOneOf].
  now destruct (existsb _ _).
Qed.

Lemma eqb_empty_length (s : string) :
  String.eqb s EmptyString = false → 0 < String.length s.
Proof. destruct s; [ discriminate | cbn; lia ]. Qed.

Lemma scanNumber_rest (s literal rest : string) :
  json.scanNumber s = Some (literal, rest) →
  String.length rest < String.length s.
Proof.
  unfold json.scanNumber.
  pose proof (scanOneOf_split ["-"%char] s) as H1.
  destruct (json.scanOneOf ["-"%char] s) as [sign s1].
  pose proof (scanOneOf_split ["0"%char] s1) as H2.
  destruct (json.scanOneOf ["0"%char] s1) as [zero s2].
  pose proof (scanDigits_split s2) as H3.
  destruct (json.scanDigits s2) as [ds s2'].
  assert (Hint : ∀ int s3,
             (if String.eqb zero EmptyString then (ds, s2') else (zero, s2))
             = (int, s3) →
             String.eqb int EmptyString = false →
             String.length s3 < String.length s).
  { intros int s3 E Hne. apply eqb_empty_length in Hne.
    destruct (String.eqb zero EmptyString); injection E as <- <-;
      cbn in *; lia. }
  destruct (if String.eqb zero EmptyString then (ds, s2') else (zero, s2))
    as [int s3].
  destruct (String.eqb int EmptyString) eqn:Hne; [ discriminate | ].
  specialize (Hint int s3 eq_refl Hne).
  pose proof (scanOneOf_split ["."%char] s3) as H4.
  destruct (json.scanOneOf ["."%char] s3) as [point s4].
  pose proof (scanDigits_split s4) as H5.
  destruct (json.scanDigits s4) as [fs s4'].
  assert (Hfrac : ∀ frac s5,
             (if String.eqb point EmptyString then (EmptyString, s4)
              else (fs, s4')) = (frac, s5) →
             String.length s5 <= String.length s3).
  { intros frac s5 E.
    destruct (String.eqb point EmptyString); injection E as <- <-;
      cbn in *; lia. }
  destruct (if String.eqb point EmptyString then (EmptyString, s4)
            else (fs, s4')) as [frac s5].
  specialize (Hfrac frac s5 eq_refl).
  destruct (negb _ && _); [ discriminate | ].
  pose proof (scanOneOf_split ["e"; "E"]%char s5) as H6.
  destruct (json.scanOneOf ["e"; "E"]%char s5) as [e s6].
  destruct (String.eqb e EmptyString).
  { intros [= _ <-]. lia. }
  pose proof (scanOneOf_split ["+"; "-"]%char s6) as H7.
  destruct (json.scanOneOf ["+"; "-"]%char s6) as [esign s7].
  pose proof (scanDigits_split s7) as H8.
  destruct (json.scanDigits s7) as [exp s8].
  destruct (String.eqb exp EmptyString); [ discriminate | ].
  intros [= _ <-]. cbn in *. lia.
Qed.

(** What the parser returns as the rest is shorter than what it was
    given. *)
Lemma value_rest (fuel : nat) :
  (∀ d s v rest, json.value fuel d s = Some (v, rest) →
                 String.length rest < String.length s)
  ∧ (∀ d s vs rest, json.elements fuel d s = Some (vs, rest) →
                    String.length rest < String.length s)
  ∧ (∀ d s ms rest, json.members fuel d s = Some (ms, rest) →
                    String.length rest < String.length s).
Proof.
  induction fuel as [|fuel (IHv & IHe & IHm)];
    [ repeat split; intros; discriminate | ].
  split; [ | split ].
  - intros d s v rest H. cbn [json.value] in H.
    destruct (json.skipSpace s) as [|c s1] eqn:Hs; [ discriminate | ].
    apply skipSpace_cons in Hs.
    pose proof (skipSpace_length s1) as Hs1.
    repeat match type of H with
           | (if ?b then _ else _) = _ => destruct b
           end; try discriminate.
    + injection H as _ <-.
      pose proof (drop_bytes_length 1 (json.skipSpace s1)) as Hd.
      cbn [strings.drop_bytes] in Hd. lia.
    + destruct (json.members fuel (d + 1)%Z s1) as [[ms r]|] eqn:E;
        [ | discriminate ].
      injection H as _ <-. apply IHm in E. lia.
    + injection H as _ <-.
      pose proof (drop_bytes_length 1 (json.skipSpace s1)) as Hd.
      cbn [strings.drop_bytes] in Hd. lia.
    + destruct (json.elements fuel (d + 1)%Z s1) as [[vs r]|] eqn:E;
        [ | discriminate ].
      injection H as _ <-. apply IHe in E. lia.
    + destruct (json.scanString s1) as [[raw r]|] eqn:E; [ | discriminate ].
      injection H as _ <-. apply (scanString_rest _ _ _ _ (le_n _)) in E. lia.
    + injection H as _ <-. pose proof (drop_bytes_length 3 s1) as Hd.
      cbn [strings.drop_bytes] in Hd. lia.
    + injection H as _ <-. pose proof (drop_bytes_length 4 s1) as Hd.
      cbn [strings.drop_bytes] in Hd. lia.
    + injection H as _ <-. pose proof (drop_bytes_length 3 s1) as Hd.
      cbn [strings.drop_bytes] in Hd. lia.
    + destruct (json.scanNumber (String c s1)) as [[lit r]|] eqn:E;
        [ | discriminate ].
      injection H as _ <-. apply scanNumber_rest in E. cbn in E. lia.
  - intros d s vs rest H. cbn [json.elements] in H.
    destruct (json.value fuel d s) as [[v s1]|] eqn:E; [ | discriminate ].
    apply IHv in E.
    destruct (json.skipSpace s1) as [|c s2] eqn:Hs1; [ discriminate | ].
    apply skipSpace_cons in Hs1.
    destruct (Ascii.eqb c ",").
    + destruct (json.elements fuel d s2) as [[vs' r]|] eqn:E2;
        [ | discriminate ].
      injection H as _ <-. apply IHe in E2. lia.
    + destruct (Ascii.eqb c "]"); [ | discriminate ].
      injection H as _ <-. lia.
  - intros d s ms rest H. cbn [json.members] in H.
    destruct (json.skipSpace s) as [|c s1] eqn:Hs; [ discriminate | ].
    apply skipSpace_cons in Hs.
    destruct (Ascii.eqb c json.dquote); [ | discriminate ].
    destruct (json.scanString s1) as [[raw s2]|] eqn:E; [ | discriminate ].
    apply (scanString_rest _ _ _ _ (le_n _)) in E.
    destruct (json.skipSpace s2) as [|c3 s3] eqn:Hs2; [ discriminate | ].
    apply skipSpace_cons in Hs2.
    destruct (Ascii.eqb c3 ":"); [ | discriminate ].
    destruct (json.value fuel d s3) as [[v s4]|] eqn:E3; [ | discriminate ].
    apply IHv in E3.
    destruct (json.skipSpace s4) as [|c5 s5] eqn:Hs4; [ discriminate | ].
    apply skipSpace_cons in Hs4.
    destruct (Ascii.eqb c5 ",").
    + destruct (json.members fuel d s5) as [[ms' r]|] eqn:E5;
        [ | discriminate ].
      injection H as _ <-. apply IHm in E5. lia.
    + destruct (Ascii.eqb c5 "}"); [ | discriminate ].
      injection H as _ <-. lia.
Qed.

(** Twice the length of the text, and one or two more, is budget enough:
    a larger budget gives the same result. *)
Lemma value_budget (fuel : nat) :
  (∀ fuel' d s, 2 * String.length s + 1 <= fuel →
                2 * String.length s + 1 <= fuel' →
                json.value fuel d s = json.value fuel' d s)
  ∧ (∀ fuel' d s, 2 * String.length s + 2 <= fuel →
                  2 * String.length s + 2 <= fuel' →
                  json.elements fuel d s = json.elements fuel' d s)
  ∧ (∀ fuel' d s, 2 * String.length s + 2 <= fuel →
                  2 * String.length s + 2 <= fuel' →
                  json.members fuel d s = json.members fuel' d s).
Proof.
  induction fuel as [|fuel (IHv & IHe & IHm)];
    [ repeat split; intros; lia | ].
  split; [ | split ].
  - intros [|fuel'] d s Hf Hf'; [ lia | ]. cbn [json.value].
    destruct (json.skipSpace s) as [|c s1] eqn:Hs; [ reflexivity | ].
    apply skipSpace_cons in Hs.
    rewrite (IHm fuel' (d + 1)%Z s1) by lia.
    rewrite (IHe fuel' (d + 1)%Z s1) by lia.
    reflexivity.
  - intros [|fuel'] d s Hf Hf'; [ lia | ]. cbn [json.elements].
    rewrite (IHv fuel' d s) by lia.
    destruct (json.value fuel' d s) as [[v s1]|] eqn:E; [ | reflexivity ].
    apply (proj1 (value_rest fuel')) in E.
    destruct (json.skipSpace s1) as [|c s2] eqn:Hs1; [ reflexivity | ].
    apply skipSpace_cons in Hs1.
    rewrite (IHe fuel' d s2) by lia. reflexivity.
  - intros [|fuel'] d s Hf Hf'; [ lia | ]. cbn [json.members].
    destruct (json.skipSpace s) as [|c s1] eqn:Hs; [ reflexivity | ].
    apply skipSpace_cons in Hs.
    destruct (Ascii.eqb c json.dquote); [ | reflexivity ].
    destruct (json.scanString s1) as [[raw s2]|] eqn:E; [ | reflexivity ].
    apply (scanString_rest _ _ _ _ (le_n _)) in E.
    destruct (json.skipSpace s2) as [|c3 s3] eqn:Hs2; [ reflexivity | ].
    apply skipSpace_cons in Hs2.
    destruct (Ascii.eqb c3 ":"); [ | reflexivity ].
    rewrite (IHv fuel' d s3) by lia.
    destruct (json.value fuel' d s3) as [[v s4]|] eqn:E3; [ | reflexivity ].
    apply (proj1 (value_rest fuel')) in E3.
    destruct (json.skipSpace s4) as [|c5 s5] eqn:Hs4; [ reflexivity | ].
    apply skipSpace_cons in Hs4.
    rewrite (IHm fuel' d s5) by lia. reflexivity.
Qed.

(** The parser never fails for want of budget: with any larger one the
    result is the same. *)
Lemma parse_budget (data : string) (fuel : nat) :
  2 * String.length data + 2 <= fuel →
  json.value fuel 0 data = json.value (2 * String.length data + 2) 0 data.
Proof.
  intros H. apply (proj1 (value_budget fuel)); lia.
Qed.

End ParserBudget.

(** ** The shapes of a page body *)

Section PageFormats.

Variable newRequestError : string -> string -> option error.

#[local] Abbreviation decode :=
  (decodePage json.Unmarshal_apiResponse json.Unmarshal_directData).
#[local] Abbreviation loop :=
  (listLoop json.Unmarshal_apiResponse json.Unmarshal_directData
     newRequestError).








End PageFormats.



(** ** Walking the pages *)

Section Pagination.

Context {SiteRecord : Type}.
Variable json_Unmarshal_apiResponse : string -> option (list SiteRecord).
Variable json_Unmarshal_directData : string -> option (list SiteRecord).
Variable newRequestError : string -> string -> option error.

#[local] Abbreviation decode :=
  (decodePage json_Unmarshal_apiResponse json_Unmarshal_directData).
#[local] Abbreviation loop :=
  (listLoop json_Unmarshal_apiResponse json_Unmarshal_directData
     newRequestError).
#[local] Abbreviation List :=
  (GetSecureConnectSites json_Unmarshal_apiResponse json_Unmarshal_directData
     newRequestError).

(** A page served at the first attempt: the executor returns it at once,
    and its body is open and reads as served. *)
Lemma fetch_served (fuel : nat) (c : MerakiClient) (ctx : Context)
    (url body link : string) (w : World) :
  0 <= maxRetries c → streams_fresh w →
  serves c (length (sent w)) url body link →
  ∃ resp,
    doRequestWithRetry (S fuel) c ctx (get_request c url) w
    = Ok (Some resp, None) (after_call (get_request c url) w)
    ∧ ReadAll resp (after_call (get_request c url) w) = inr body
    ∧ StatusCode resp = 200
    ∧ Header_Get (Header resp) "Link" = link
    ∧ stream (Body resp) = length (sent w).
Proof.
  intros Hmax Hfresh (r & Hr & H200 & Hbody & Hlink).
  exists (received (length (sent w)) r).
  split; [ | split; [ | split; [ | split ] ] ]; try done.
  - unfold doRequestWithRetry.
    rewrite (retryLoop_success c ctx _ fuel 0 None w r); [ done | lia | done | lia ].
  - unfold ReadAll. cbn [received Body stream payload after_call closed].
    rewrite bool_decide_eq_false_2; [ exact Hbody | ].
    intros Hin. apply Hfresh in Hin. lia.
Qed.

Lemma after_call_fresh (req : Request) (w : World) :
  streams_fresh w → streams_fresh (after_call req w).
Proof.
  intros H k Hk. cbn [after_call closed sent] in *.
  rewrite length_app. cbn. apply H in Hk. lia.
Qed.

(** C3. A server that answers the first GET with 1000 records and a Link
    header whose "next" directive points to [u2], the GET of [u2] with 1000
    records and a "next" directive pointing to [u3], and the GET of [u3]
    with 400 records and no Link header: the list operation returns the
    2400 records, page after page in that order, with a nil error, after
    exactly these three GET requests. *)
Theorem three_pages_concatenated (pages fuel : nat) (c : MerakiClient)
    (ctx : Context) (orgID u2 u3 b1 b2 b3 l1 l2 : string)
    (p1 p2 p3 : list SiteRecord) (w : World) :
  let k := length (sent w) in
  let u1 := sites_url c orgID +:+ "?perPage=1000" in
  0 <= maxRetries c → (0 < fuel)%nat → (3 <= pages)%nat →
  streams_fresh w →
  newRequestError "GET" u1 = None →
  newRequestError "GET" u2 = None →
  newRequestError "GET" u3 = None →
  serves c k u1 b1 l1 →
  serves c (k + 1) u2 b2 l2 →
  serves c (k + 2) u3 b3 EmptyString →
  carries_next l1 u2 → u2 ≠ EmptyString →
  carries_next l2 u3 → u3 ≠ EmptyString →
  decode b1 = Some p1 → decode b2 = Some p2 → decode b3 = Some p3 →
  length p1 = 1000%nat → length p2 = 1000%nat → length p3 = 400%nat →
  List pages fuel c ctx orgID w
  = Ok (p1 ++ p2 ++ p3, None)
       (mkWorld
          (sent w ++ [get_request c u1; get_request c u2; get_request c u3])
          (closed w ++ [k + 2; k + 1; k])%nat
          (waits w))
  ∧ length (p1 ++ p2 ++ p3) = 2400%nat.
Proof.
  intros k u1 Hmax Hfuel Hpages Hfresh Hu1 Hu2 Hu3 S1 S2 S3
    N1 Ne2 N2 Ne3 D1 D2 D3 L1 L2 L3.
  split; [ | rewrite !length_app; lia ].
  destruct fuel as [|fuel]; [ lia | ].
  destruct pages as [|[|[|pages]]]; try lia.
  unfold GetSecureConnectSites. fold u1.
  (* page 1 *)
  destruct (fetch_served fuel c ctx u1 b1 l1 w Hmax Hfresh S1)
    as (r1 & Run1 & Read1 & C1 & Link1 & Id1).
  set (w1 := after_call (get_request c u1) w) in *.
  assert (F1 : streams_fresh w1) by now apply after_call_fresh.
  assert (K1 : length (sent w1) = (k + 1)%nat)
    by (subst w1 k; cbn; rewrite length_app; reflexivity).
  rewrite <- Link1 in N1.
  rewrite (loop_page_next _ _ _ _ _ _ _ u1 u2 [] p1 [] w w1 r1 b1
             Hu1 Run1 Read1 C1 D1 ltac:(lia) N1 Ne2).
  (* page 2 *)
  rewrite <- K1 in S2.
  destruct (fetch_served fuel c ctx u2 b2 l2 w1 Hmax F1 S2)
    as (r2 & Run2 & Read2 & C2 & Link2 & Id2).
  set (w2 := after_call (get_request c u2) w1) in *.
  assert (F2 : streams_fresh w2) by now apply after_call_fresh.
  assert (K2 : length (sent w2) = (k + 2)%nat)
    by (subst w2; cbn [after_call sent]; rewrite length_app, K1;
        cbn [length]; lia).
  rewrite <- Link2 in N2.
  rewrite (loop_page_next _ _ _ _ _ _ _ u2 u3 ([] ++ p1) p2 [r1]
             w1 w2 r2 b2 Hu2 Run2 Read2 C2 D2 ltac:(lia) N2 Ne3).
  (* page 3 *)
  rewrite <- K2 in S3.
  destruct (fetch_served fuel c ctx u3 b3 EmptyString w2 Hmax F2 S3)
    as (r3 & Run3 & Read3 & C3 & Link3 & Id3).
  rewrite (loop_page _ _ _ _ _ _ _ u3 _ _ w2 _ r3 b3 Hu3 Run3 Read3 C3), D3.
  cbv zeta. rewrite Link3. cbn [String.eqb].
  unfold leave, runDeferred, Close. cbn [fold_left sent closed waits after_call].
  rewrite Id1, Id2, Id3, K1, K2.
  subst w2 w1. cbn [after_call sent closed waits app].
  rewrite <- !app_assoc. reflexivity.
Qed.

End Pagination.

(** ** A negative retry count *)

Section NegativeRetries.

Context {SiteRecord : Type}.
Variable json_Marshal : GoValue -> string.
Variable json_Unmarshal_apiResponse : string -> option (list SiteRecord).
Variable json_Unmarshal_directData : string -> option (list SiteRecord).
Variable newRequestError : string -> string -> option error.

(** C8. [SetMaxRetries] stores any value. With a negative one the loop of
    [doRequestWithRetry] is not entered: no request goes out and the result
    is a nil response with a nil error. The three operations then panic
    when they touch the response they were handed. *)
Theorem negative_retries_nil_response (c : MerakiClient) (n : Z) :
  n < 0 →
  maxRetries (SetMaxRetries c n) = n
  ∧ (∀ fuel ctx req w,
        doRequestWithRetry (S fuel) (SetMaxRetries c n) ctx req w
        = Ok (None, None) w)
  ∧ (∀ fuel ctx orgID siteID regionType regionID regionName w,
        newRequestError "POST" (sites_url c orgID) = None →
        CreateSecureConnectSite json_Marshal newRequestError (S fuel)
          (SetMaxRetries c n) ctx orgID siteID regionType regionID regionName w
        = Panic w)
  ∧ (∀ fuel ctx orgID siteID w,
        newRequestError "DELETE" (sites_url c orgID) = None →
        DeleteSecureConnectSites json_Marshal newRequestError (S fuel)
          (SetMaxRetries c n) ctx orgID siteID w
        = Panic w)
  ∧ (∀ pages fuel ctx orgID w,
        newRequestError "GET" (sites_url c orgID +:+ "?perPage=1000") = None →
        GetSecureConnectSites json_Unmarshal_apiResponse
          json_Unmarshal_directData newRequestError (S pages) (S fuel)
          (SetMaxRetries c n) ctx orgID w
        = Panic w).
Proof.
  intros Hn.
  assert (Hrun : ∀ fuel ctx req w,
             doRequestWithRetry (S fuel) (SetMaxRetries c n) ctx req w
             = Ok (None, None) w).
  { intros fuel ctx req w. unfold doRequestWithRetry. cbn [retryLoop].
    cbn [SetMaxRetries maxRetries].
    replace (0 <=? n) with false by (symmetry; apply Z.leb_gt; lia).
    reflexivity. }
  split; [ reflexivity | ]. split; [ exact Hrun | ].
  split; [ | split ].
  - intros fuel ctx orgID siteID regionType regionID regionName w Hreq.
    unfold CreateSecureConnectSite, NewRequestWithContext.
    change (sites_url (SetMaxRetries c n) orgID) with (sites_url c orgID).
    rewrite Hreq. now rewrite Hrun.
  - intros fuel ctx orgID siteID w Hreq.
    unfold DeleteSecureConnectSites, NewRequestWithContext.
    change (sites_url (SetMaxRetries c n) orgID) with (sites_url c orgID).
    rewrite Hreq. now rewrite Hrun.
  - intros pages fuel ctx orgID w Hreq.
    unfold GetSecureConnectSites. cbn [listLoop].
    unfold NewRequestWithContext.
    change (sites_url (SetMaxRetries c n) orgID) with (sites_url c orgID).
    rewrite Hreq. now rewrite Hrun.
Qed.

End NegativeRetries.

(** With the retry count set to -1 nothing is sent and a create panics. *)
Lemma negative_retries_nil_response_witness :
  doRequestWithRetry 1 (Scenario.client (Scenario.always Scenario.fine) (-1))
    Scenario.background Scenario.probe world0
  = Ok (None, None) world0
  ∧ CreateSecureConnectSite Scenario.encode Scenario.anyURL 1
      (Scenario.client (Scenario.always Scenario.fine) (-1))
      Scenario.background "org1" "N_1" "CNHE" EmptyString EmptyString world0
    = Panic world0.
Proof.
  pose proof (negative_retries_nil_response (SiteRecord := nat)
                Scenario.encode Scenario.wrapped Scenario.direct
                Scenario.anyURL
                (Scenario.client (Scenario.always Scenario.fine) 3) (-1)
                ltac:(lia)) as (_ & Hrun & Hcreate & _).
  split.
  - exact (Hrun 0%nat Scenario.background Scenario.probe world0).
  - exact (Hcreate 0%nat Scenario.background "org1" "N_1" "CNHE"
             EmptyString EmptyString world0 eq_refl).
Defined.

#[local] Ltac next_link_carries :=
  exists EmptyString, 0%nat, rel_next_quoted, EmptyString;
  repeat split; try reflexivity; now left.

#[local] Ltac page_served r :=
  exists r; repeat split; reflexivity.

(** Three pages of 1000, 1000 and 400 sites: 2400 sites, three requests. *)
Lemma three_pages_concatenated_witness :
  GetSecureConnectSites Scenario.wrapped Scenario.direct Scenario.anyURL 3 1
    (Scenario.client Scenario.pager 3) Scenario.background "org1" world0
  = Ok (Scenario.page1 ++ Scenario.page2 ++ Scenario.page3, None)
       (mkWorld
          [get_request (Scenario.client Scenario.pager 3) Scenario.firstURL;
           get_request (Scenario.client Scenario.pager 3) Scenario.secondURL;
           get_request (Scenario.client Scenario.pager 3) Scenario.thirdURL]
          [2; 1; 0]%nat [])
  ∧ length (Scenario.page1 ++ Scenario.page2 ++ Scenario.page3) = 2400%nat.
Proof.
  refine (three_pages_concatenated Scenario.wrapped Scenario.direct
            Scenario.anyURL 3 1 (Scenario.client Scenario.pager 3)
            Scenario.background "org1" Scenario.secondURL Scenario.thirdURL
            "{data: sites 0..999}" "{data: sites 1000..1999}"
            "{data: sites 2000..2399}"
            (Scenario.next_link Scenario.secondURL)
            (Scenario.next_link Scenario.thirdURL)
            Scenario.page1 Scenario.page2 Scenario.page3 world0
            _ _ _ _ _ _ _ _ _ _ _ _ _ _ _ _ _ _ _ _).
  - cbn. lia.
  - lia.
  - lia.
  - intros k Hk. cbn in Hk. apply elem_of_nil in Hk. destruct Hk.
  - reflexivity.
  - reflexivity.
  - reflexivity.
  - page_served (Scenario.page (Scenario.next_link Scenario.secondURL)
                   "{data: sites 0..999}").
  - page_served (Scenario.page (Scenario.next_link Scenario.thirdURL)
                   "{data: sites 1000..1999}").
  - page_served (Scenario.page EmptyString "{data: sites 2000..2399}").
  - next_link_carries.
  - discriminate.
  - next_link_carries.
  - discriminate.
  - reflexivity.
  - reflexivity.
  - reflexivity.
  - reflexivity.
  - reflexivity.
  - reflexivity.
Defined.

(** A first page of exactly 1000 sites: with the "next" link the loop goes
    on to the second URL; without a Link header the operation returns the
    1000 sites. *)
Lemma full_page_follows_link_witness :
  listLoop Scenario.wrapped Scenario.direct Scenario.anyURL 2 1
    (Scenario.client Scenario.pager 3) Scenario.background Scenario.firstURL
    [] [] world0
  = listLoop Scenario.wrapped Scenario.direct Scenario.anyURL 1 1
      (Scenario.client Scenario.pager 3) Scenario.background
      Scenario.secondURL Scenario.page1
      [received 0 (Scenario.page (Scenario.next_link Scenario.secondURL)
                     "{data: sites 0..999}")]
      (mkWorld
         [get_request (Scenario.client Scenario.pager 3) Scenario.firstURL]
         [] [])
  ∧ GetSecureConnectSites Scenario.wrapped Scenario.direct Scenario.anyURL 1 1
      (Scenario.client Scenario.singlePage 3) Scenario.background "org1"
      world0
    = Ok (Scenario.page1, None)
         (mkWorld
            [get_request (Scenario.client Scenario.singlePage 3)
               Scenario.firstURL]
            [0%nat] []).
Proof.
  split.
  - refine (proj1
              (full_page_follows_link Scenario.wrapped Scenario.direct
                 Scenario.anyURL 1 1 (Scenario.client Scenario.pager 3)
                 Scenario.background Scenario.firstURL [] Scenario.page1 []
                 world0
                 (mkWorld
                    [get_request (Scenario.client Scenario.pager 3)
                       Scenario.firstURL] [] [])
                 (received 0
                    (Scenario.page (Scenario.next_link Scenario.secondURL)
                       "{data: sites 0..999}"))
                 "{data: sites 0..999}" _ _ _ _ _ _)
              Scenario.secondURL _ _); try reflexivity.
    + next_link_carries.
    + discriminate.
  - refine (proj2
              (full_page_follows_link Scenario.wrapped Scenario.direct
                 Scenario.anyURL 0 1 (Scenario.client Scenario.singlePage 3)
                 Scenario.background Scenario.firstURL [] Scenario.page1 []
                 world0
                 (mkWorld
                    [get_request (Scenario.client Scenario.singlePage 3)
                       Scenario.firstURL] [] [])
                 (received 0
                    (Scenario.page EmptyString "{data: sites 0..999}"))
                 "{data: sites 0..999}" _ _ _ _ _ _)
              _); try reflexivity.
    split; reflexivity.
Defined.

(** The second page answers 404 after a first page of 1000 sites: the
    operation returns the error and none of the 1000 sites. *)
Lemma error_means_no_records_witness :
  ∃ sites : list nat,
    GetSecureConnectSites Scenario.wrapped Scenario.direct Scenario.anyURL 2 1
      (Scenario.client Scenario.brokenPager 3) Scenario.background "org1"
      world0
    = Ok (sites, Some "bad response (404): no such organization")
         (mkWorld
            [get_request (Scenario.client Scenario.brokenPager 3)
               Scenario.firstURL;
             get_request (Scenario.client Scenario.brokenPager 3)
               Scenario.secondURL]
            [1; 0]%nat [])
    ∧ sites = [].
Proof.
  assert (H : GetSecureConnectSites Scenario.wrapped Scenario.direct
                Scenario.anyURL 2 1 (Scenario.client Scenario.brokenPager 3)
                Scenario.background "org1" world0
              = Ok ([], Some "bad response (404): no such organization")
                   (mkWorld
                      [get_request (Scenario.client Scenario.brokenPager 3)
                         Scenario.firstURL;
                       get_request (Scenario.client Scenario.brokenPager 3)
                         Scenario.secondURL]
                      [1; 0]%nat []))
    by (vm_compute; reflexivity).
  exists []. split; [ exact H | ].
  unfold GetSecureConnectSites in H.
  exact (error_means_no_records _ _ _ _ _ _ _ _ _ _ _ _ _ _ H).
Defined.

(** * Further properties of the client and of its callers *)

Section ExecutorRuns.

Variables (c : MerakiClient) (ctx : Context) (req : Request).

Lemma retryLoop_quiet_step (fuel : nat) (a : Z) (resp : option Response)
    (w : World) (r : Response) :
  a < maxRetries c → maxRetries c <= max_int →
  Done ctx (S (length (sent w))) = false →
  httpClient c (length (sent w)) req = inr r →
  retriable (StatusCode r) = true →
  retryLoop (S fuel) c ctx req a resp w
  = retryLoop fuel c ctx req (a + 1)
      (Some (received (length (sent w)) r)) (after_retries req a 1 w).
Proof.
  intros Ha Hmax Hctx Hr Hs.
  destruct (retriable_branches _ Hs) as [H1 H2].
  cbn [retryLoop].
  replace (a <=? maxRetries c) with true by (symmetry; apply Z.leb_le; lia).
  rewrite (Do_answer _ _ _ _ Hr).
  cbn [StatusCode received]. rewrite H1, H2.
  replace (a <? maxRetries c) with true by (symmetry; apply Z.ltb_lt; lia).
  cbn [begin_wait sent]. rewrite length_app. cbn [length].
  replace (length (sent w) + 1)%nat with (S (length (sent w))) by lia.
  rewrite Hctx, int_succ_small by lia.
  unfold after_retries, Close, begin_wait. cbn.
  rewrite Z.add_0_r. reflexivity.
Qed.

Lemma retryLoop_quiet_retries (m : nat) :
  ∀ (fuel : nat) (a : Z) (resp : option Response) (w : World),
    a + Z.of_nat m <= maxRetries c → maxRetries c <= max_int →
    quiet_until ctx (length (sent w)) m →
    retried_answers c req (length (sent w)) m →
    ∃ resp',
      retryLoop (m + fuel) c ctx req a resp w
      = retryLoop fuel c ctx req (a + Z.of_nat m) resp'
          (after_retries req a m w).
Proof.
  induction m as [|m IH]; intros fuel a resp w Hm Hmax Hq Hans.
  - exists resp. rewrite Z.add_0_r. unfold after_retries.
    cbn. rewrite !app_nil_r. now destruct w.
  - destruct (Hans 0%nat ltac:(lia)) as (r & Hr & Hs).
    rewrite Nat.add_0_r in Hr.
    change (S m + fuel)%nat with (S (m + fuel)).
    rewrite (retryLoop_quiet_step (m + fuel) a resp w r); try done; try lia.
    2:{ apply Hq. lia. }
    assert (Hlen : length (sent (after_retries req a 1 w))
                   = S (length (sent w))).
    { unfold after_retries. cbn [sent]. rewrite length_app. cbn. lia. }
    destruct (IH fuel (a + 1) (Some (received (length (sent w)) r))
                (after_retries req a 1 w)) as [resp' E]; try lia.
    + rewrite Hlen. intros j Hj. apply Hq. lia.
    + rewrite Hlen. intros k Hk.
      destruct (Hans (S k) ltac:(lia)) as (r' & Hr' & Hs').
      exists r'. split; [ | done ]. rewrite <- Hr'. f_equal. lia.
    + exists resp'. rewrite E, after_retries_S. f_equal. lia.
Qed.

Lemma after_retries_length (a : Z) (m : nat) (w : World) :
  length (sent (after_retries req a m w)) = (length (sent w) + m)%nat.
Proof.
  unfold after_retries. cbn [sent]. now rewrite length_app, length_replicate.
Qed.

Lemma after_retries_then_call (m : nat) (w : World) :
  mkWorld (sent (after_retries req 0 m w) ++ [req])
    (closed (after_retries req 0 m w)) (waits (after_retries req 0 m w))
  = mkWorld (sent w ++ replicate (S m) req)
      (closed w ++ seq (length (sent w)) m)
      (waits w ++ map Z.of_nat (seq 0 m)).
Proof.
  unfold after_retries. cbn [sent closed waits]. f_equal.
  rewrite <- app_assoc. f_equal.
  change [req] with (replicate 1 req).
  rewrite <- replicate_add. f_equal. lia.
Qed.

Lemma not_retriable_branches (s : Z) :
  retriable s = false →
  (s <? 300) = true
  ∨ ((s <? 300) = false
     ∧ ((s >=? 400) && (s <? 500) && negb (s =? 429)) = true).
Proof.
  unfold retriable. destruct (s <? 300); [ now left | ].
  destruct ((s >=? 400) && (s <? 500) && negb (s =? 429));
    [ now right | discriminate ].
Qed.

(** X2. A transport error ends the run at once, at the first attempt or after
    retried ones: it is returned as it is with a nil response, no further
    call is made, and the bodies of the retried answers are closed. *)
Theorem transport_error_not_retried (m fuel : nat) (w : World) (err : error) :
  Z.of_nat m <= maxRetries c <= max_int →
  quiet_until ctx (length (sent w)) m →
  retried_answers c req (length (sent w)) m →
  httpClient c (length (sent w) + m) req = inl err →
  (m < fuel)%nat →
  doRequestWithRetry fuel c ctx req w
  = Ok (None, Some err)
       (mkWorld (sent w ++ replicate (S m) req)
          (closed w ++ seq (length (sent w)) m)
          (waits w ++ map Z.of_nat (seq 0 m))).
Proof.
  intros HN Hq Hans Herr Hfuel.
  unfold doRequestWithRetry.
  replace fuel with (m + S (fuel - m - 1))%nat by lia.
  destruct (retryLoop_quiet_retries m (S (fuel - m - 1)) 0 None w)
    as [resp' E]; try lia; try done.
  rewrite E. cbn [retryLoop].
  replace (0 + Z.of_nat m <=? maxRetries c) with true
    by (symmetry; apply Z.leb_le; lia).
  unfold Do. rewrite after_retries_length, Herr.
  now rewrite after_retries_then_call.
Qed.

(** X1. After any number of retried attempts, an answer whose status is final
    (below 300, or a client error other than 429) is handed back at once,
    whatever is left of the budget: no further call, no wait, and its body
    is still open and reads as sent. *)
Theorem final_status_returned_at_once (m fuel : nat) (w : World)
    (r : Response) :
  Z.of_nat m <= maxRetries c <= max_int →
  quiet_until ctx (length (sent w)) m →
  retried_answers c req (length (sent w)) m →
  httpClient c (length (sent w) + m) req = inr r →
  retriable (StatusCode r) = false →
  (m < fuel)%nat →
  streams_fresh w →
  let w' := mkWorld (sent w ++ replicate (S m) req)
              (closed w ++ seq (length (sent w)) m)
              (waits w ++ map Z.of_nat (seq 0 m)) in
  doRequestWithRetry fuel c ctx req w
  = Ok (Some (received (length (sent w) + m) r), None) w'
  ∧ ReadAll (received (length (sent w) + m) r) w' = payload (Body r).
Proof.
  intros HN Hq Hans Hr Hs Hfuel Hfresh w'. split.
  - unfold doRequestWithRetry.
    replace fuel with (m + S (fuel - m - 1))%nat by lia.
    destruct (retryLoop_quiet_retries m (S (fuel - m - 1)) 0 None w)
      as [resp' E]; try lia; try done.
    rewrite E. cbn [retryLoop].
    replace (0 + Z.of_nat m <=? maxRetries c) with true
      by (symmetry; apply Z.leb_le; lia).
    unfold Do. rewrite after_retries_length, Hr.
    cbn [StatusCode received]. rewrite after_retries_then_call.
    destruct (not_retriable_branches _ Hs) as [-> | [-> ->]]; reflexivity.
  - unfold ReadAll. cbn [received Body stream payload].
    rewrite bool_decide_eq_false_2; [ reflexivity | ].
    subst w'. cbn [closed]. intros [Hin | Hin]%elem_of_app.
    + apply Hfresh in Hin. lia.
    + apply elem_of_seq in Hin. lia.
Qed.

(** X3. When the caller's signal fires during a back-off wait the run ends
    with the context's error and a nil response: the body of the answer in
    hand is closed and no further call is made. *)
Theorem cancelled_during_backoff (m fuel : nat) (w : World) :
  Z.of_nat m < maxRetries c <= max_int →
  quiet_until ctx (length (sent w)) m →
  retried_answers c req (length (sent w)) (S m) →
  Done ctx (length (sent w) + m + 1) = true →
  (m < fuel)%nat →
  doRequestWithRetry fuel c ctx req w
  = Ok (None, Some (Err ctx))
       (mkWorld (sent w ++ replicate (S m) req)
          (closed w ++ seq (length (sent w)) (S m))
          (waits w ++ map Z.of_nat (seq 0 (S m)))).
Proof.
  intros HN Hq Hans Hdone Hfuel.
  unfold doRequestWithRetry.
  replace fuel with (m + S (fuel - m - 1))%nat by lia.
  destruct (retryLoop_quiet_retries m (S (fuel - m - 1)) 0 None w)
    as [resp' E]; try lia; try done.
  { intros k Hk. apply Hans. lia. }
  rewrite E. cbn [retryLoop].
  destruct (Hans m ltac:(lia)) as (r & Hr & Hs).
  destruct (retriable_branches _ Hs) as [H1 H2].
  replace (0 + Z.of_nat m <=? maxRetries c) with true
    by (symmetry; apply Z.leb_le; lia).
  replace (0 + Z.of_nat m <? maxRetries c) with true
    by (symmetry; apply Z.ltb_lt; lia).
  unfold Do. rewrite after_retries_length, Hr.
  cbn [StatusCode received]. rewrite H1, H2.
  cbn [begin_wait sent]. rewrite length_app, after_retries_length.
  cbn [length]. rewrite Hdone.
  unfold Close, after_retries, begin_wait.
  cbn [sent closed waits received Body stream].
  f_equal. f_equal.
  - rewrite <- app_assoc. f_equal.
    change [req] with (replicate 1 req).
    rewrite <- replicate_add. f_equal. lia.
  - rewrite <- app_assoc. f_equal. now rewrite seq_S.
  - rewrite <- app_assoc. f_equal. rewrite seq_S, map_app. reflexivity.
Qed.

Lemma retryLoop_terminates (m : nat) :
  ∀ (fuel : nat) (a : Z) (resp : option Response) (w : World),
    maxRetries c < max_int →
    Z.to_nat (maxRetries c + 1 - a) = m →
    (m < fuel)%nat →
    ∃ res e w' n,
      retryLoop fuel c ctx req a resp w = Ok (res, e) w'
      ∧ sent w' = sent w ++ replicate n req
      ∧ (n <= m)%nat.
Proof.
  induction m as [|m IH]; intros fuel a resp w Hmax Hm Hfuel;
    (destruct fuel as [|fuel]; [ lia | ]); cbn [retryLoop].
  - replace (a <=? maxRetries c) with false
      by (symmetry; apply Z.leb_gt; lia).
    exists resp, None, w, 0%nat. cbn. now rewrite app_nil_r.
  - replace (a <=? maxRetries c) with true
      by (symmetry; apply Z.leb_le; lia).
    assert (Hrec : ∀ r w1,
               sent w1 = sent w ++ [req] →
               ∃ res e w' n,
                 retryLoop fuel c ctx req (int_succ a) (Some r) w1
                 = Ok (res, e) w'
                 ∧ sent w' = sent w ++ replicate n req ∧ (n <= S m)%nat).
    { intros r w1 Hw1.
      destruct (IH fuel (int_succ a) (Some r) w1) as (res & e & w' & n & E & Hn & Hle);
        try lia.
      { rewrite int_succ_small by lia. lia. }
      exists res, e, w', (S n). split; [ exact E | ].
      split; [ | lia ]. rewrite Hn, Hw1, <- app_assoc. reflexivity. }
    unfold Do. destruct (httpClient c (length (sent w)) req) as [err|r].
    { eexists None, (Some err), _, 1%nat. repeat split; lia. }
    cbn [StatusCode received].
    destruct (StatusCode r <? 300).
    { eexists _, None, _, 1%nat. repeat split; lia. }
    destruct ((StatusCode r >=? 400) && (StatusCode r <? 500)
              && negb (StatusCode r =? 429)).
    { eexists _, None, _, 1%nat. repeat split; lia. }
    destruct (a <? maxRetries c).
    + destruct (Done ctx _).
      { eexists None, _, _, 1%nat. repeat split; lia. }
      apply Hrec. reflexivity.
    + apply Hrec. reflexivity.
Qed.

(** The part of a run's outcome that concerns the bodies: what was closed
    stays closed, nothing but the run's own responses is closed, every
    response received is closed unless it is the one returned, and a
    returned response is the one the loop started with or was received in
    the run. *)
Lemma retryLoop_bodies (fuel : nat) :
  ∀ (a : Z) (resp0 : option Response) (w w' : World)
    (res : option Response) (e : option error),
    retryLoop fuel c ctx req a resp0 w = Ok (res, e) w' →
    (∀ j, j ∈ closed w → j ∈ closed w')
    ∧ (∀ j, j ∈ closed w' →
            j ∈ closed w ∨ (length (sent w) <= j < length (sent w'))%nat)
    ∧ (∀ j r, (length (sent w) <= j < length (sent w'))%nat →
              httpClient c j req = inr r →
              j ∈ closed w' ∨ res = Some (received j r))
    ∧ (∀ r, res = Some r →
            resp0 = Some r
            ∨ ∃ j r0, (length (sent w) <= j < length (sent w'))%nat
                      ∧ httpClient c j req = inr r0 ∧ r = received j r0).
Proof.
  induction fuel as [|fuel IH]; intros a resp0 w w' res e Hrun;
    [ discriminate | ].
  cbn [retryLoop] in Hrun.
  destruct (a <=? maxRetries c).
  2:{ injection Hrun as E1 E2 E3; subst. repeat split; auto; intros; lia. }
  unfold Do in Hrun.
  destruct (httpClient c (length (sent w)) req) as [err|r] eqn:Hr.
  { injection Hrun as E1 E2 E3; subst. cbn [sent closed].
    rewrite length_app. cbn [length].
    repeat split; auto.
    - intros j r Hj Hjr. assert (j = length (sent w)) as -> by lia. congruence.
    - intros r [=]. }
  cbn [StatusCode received] in Hrun.
  assert (Hnow : ∀ w1, sent w1 = sent w ++ [req] → closed w1 = closed w →
                 Ok (Some (received (length (sent w)) r), @None error) w1
                 = Ok (res, e) w' →
                 (∀ j, j ∈ closed w → j ∈ closed w')
                 ∧ (∀ j, j ∈ closed w' →
                         j ∈ closed w
                         ∨ (length (sent w) <= j < length (sent w'))%nat)
                 ∧ (∀ j r, (length (sent w) <= j < length (sent w'))%nat →
                           httpClient c j req = inr r →
                           j ∈ closed w' ∨ res = Some (received j r))
                 ∧ (∀ r, res = Some r →
                         resp0 = Some r
                         ∨ ∃ j r0,
                             (length (sent w) <= j < length (sent w'))%nat
                             ∧ httpClient c j req = inr r0
                             ∧ r = received j r0)).
  { intros w1 Hs Hc [= E1 E2 E3]; subst. rewrite Hs, Hc, length_app.
    cbn [length].
    repeat split; auto.
    - intros j r' Hj Hjr. assert (j = length (sent w)) as -> by lia.
      right. congruence.
    - intros r' [= <-]. right. exists (length (sent w)), r.
      repeat split; auto; lia. }
  assert (Hrec : ∀ w2, sent w2 = sent w ++ [req] →
                 closed w2 = closed w ++ [length (sent w)] →
                 retryLoop fuel c ctx req (int_succ a)
                   (Some (received (length (sent w)) r)) w2
                 = Ok (res, e) w' →
                 (∀ j, j ∈ closed w → j ∈ closed w')
                 ∧ (∀ j, j ∈ closed w' →
                         j ∈ closed w
                         ∨ (length (sent w) <= j < length (sent w'))%nat)
                 ∧ (∀ j r, (length (sent w) <= j < length (sent w'))%nat →
                           httpClient c j req = inr r →
                           j ∈ closed w' ∨ res = Some (received j r))
                 ∧ (∀ r, res = Some r →
                         resp0 = Some r
                         ∨ ∃ j r0,
                             (length (sent w) <= j < length (sent w'))%nat
                             ∧ httpClient c j req = inr r0
                             ∧ r = received j r0)).
  { intros w2 Hs Hc Hrun2.
    pose proof (retryLoop_sends_only c ctx req fuel (int_succ a)
                  (Some (received (length (sent w)) r)) w2) as Hsend.
    rewrite Hrun2 in Hsend. destruct Hsend as [n Hn].
    destruct (IH _ _ _ _ _ _ Hrun2) as (M & O & R & P).
    assert (Hlen2 : length (sent w2) = S (length (sent w)))
      by (rewrite Hs, length_app; cbn; lia).
    assert (Hlen' : (length (sent w2) <= length (sent w'))%nat)
      by (rewrite Hn, length_app; lia).
    repeat split.
    - intros j Hj. apply M. rewrite Hc. apply elem_of_app. now left.
    - intros j Hj. destruct (O j Hj) as [Hin | Hin].
      + rewrite Hc in Hin. apply elem_of_app in Hin as [Hin | Hin];
          [ now left | ].
        apply list_elem_of_singleton in Hin as ->. right. lia.
      + right. lia.
    - intros j r' Hj Hjr.
      destruct (decide (j = length (sent w))) as [-> | Hne].
      + left. apply M. rewrite Hc. apply elem_of_app. right. now left.
      + apply R; [ lia | done ].
    - intros r' Hr'. destruct (P r' Hr') as [[= <-] | (j & r0 & Hj & Hj0 & ->)].
      + right. exists (length (sent w)), r. repeat split; auto; lia.
      + right. exists j, r0. repeat split; auto; lia. }
  destruct (StatusCode r <? 300); [ eapply Hnow; [ | | exact Hrun ]; reflexivity | ].
  destruct ((StatusCode r >=? 400) && (StatusCode r <? 500)
            && negb (StatusCode r =? 429));
    [ eapply Hnow; [ | | exact Hrun ]; reflexivity | ].
  destruct (a <? maxRetries c).
  - destruct (Done ctx _).
    + injection Hrun as E1 E2 E3; subst. cbn [Close begin_wait sent closed].
      rewrite length_app. cbn [length received Body stream].
      repeat split.
      * intros j Hj. apply elem_of_app. now left.
      * intros j [Hj | Hj]%elem_of_app; [ now left | ].
        apply list_elem_of_singleton in Hj as ->. right. lia.
      * intros j r' Hj Hjr. assert (j = length (sent w)) as -> by lia.
        left. apply elem_of_app. right. now left.
      * intros r' [=].
    + eapply Hrec; [ | | exact Hrun ]; reflexivity.
  - eapply Hrec; [ | | exact Hrun ]; reflexivity.
Qed.

(** A response is never returned together with an error. *)
Lemma retryLoop_response_no_error (fuel : nat) :
  ∀ (a : Z) (resp0 : option Response) (w w' : World) (r : Response)
    (e : option error),
    retryLoop fuel c ctx req a resp0 w = Ok (Some r, e) w' → e = None.
Proof.
  induction fuel as [|f IH]; intros a resp0 w w' r e Hrun; [ discriminate | ].
  cbn [retryLoop] in Hrun.
  destruct (a <=? maxRetries c); [ | congruence ].
  destruct (Do c req w) as [[err|r0] w1]; [ congruence | ].
  destruct (StatusCode r0 <? 300); [ congruence | ].
  destruct (_ && _); [ congruence | ].
  destruct (a <? maxRetries c); [ destruct (Done ctx _); [ congruence | ] | ];
    eapply IH; exact Hrun.
Qed.

(** X5. For every transport and every context the executor returns, after at
    most [maxRetries + 1] calls (none when the count is negative), all of
    them with the request it was given. *)
Theorem attempts_bounded (fuel : nat) (w : World) :
  maxRetries c < max_int →
  (Z.to_nat (maxRetries c + 1) < fuel)%nat →
  ∃ res e w' n,
    doRequestWithRetry fuel c ctx req w = Ok (res, e) w'
    ∧ sent w' = sent w ++ replicate n req
    ∧ (n <= Z.to_nat (maxRetries c + 1))%nat.
Proof.
  intros Hmax Hfuel. unfold doRequestWithRetry.
  apply retryLoop_terminates; [ done | f_equal; lia | done ].
Qed.

(** X6. When the executor returns, the body of every answer it received is
    closed, except that of an answer with a final status that it hands
    back; and it closes no body but those of its own calls. *)
Theorem discarded_bodies_released (fuel : nat) (w w' : World)
    (res : option Response) (e : option error) :
  doRequestWithRetry fuel c ctx req w = Ok (res, e) w' →
  (∀ j r, (length (sent w) <= j < length (sent w'))%nat →
          httpClient c j req = inr r →
          j ∈ closed w'
          ∨ (res = Some (received j r) ∧ e = None
             ∧ retriable (StatusCode r) = false))
  ∧ (∀ j, j ∈ closed w' →
          j ∈ closed w ∨ (length (sent w) <= j < length (sent w'))%nat).
Proof.
  intros Hrun. unfold doRequestWithRetry in Hrun.
  destruct (retryLoop_bodies _ _ _ _ _ _ _ Hrun) as (_ & O & R & _).
  split; [ | exact O ].
  intros j r Hj Hjr. destruct (R j r Hj Hjr) as [Hin | ->]; [ now left | ].
  assert (e = None) as -> by (eapply retryLoop_response_no_error; exact Hrun).
  destruct (retriable (StatusCode r)) eqn:Hs; [ left | now right ].
  change j with (stream (Body (received j r))).
  eapply (retryLoop_retriable_closed c ctx req);
    [ | exact Hrun | exact Hs ].
  intros r0 [=].
Qed.

(** An error returned by the loop is the context's or the transport's. *)
Lemma retryLoop_error_origin (fuel : nat) :
  ∀ (a : Z) (resp0 : option Response) (w w' : World)
    (res : option Response) (err : error),
    retryLoop fuel c ctx req a resp0 w = Ok (res, Some err) w' →
    err = Err ctx
    ∨ ∃ j, (length (sent w) <= j < length (sent w'))%nat
           ∧ httpClient c j req = inl err.
Proof.
  induction fuel as [|fuel IH]; intros a resp0 w w' res err Hrun;
    [ discriminate | ].
  cbn [retryLoop] in Hrun.
  destruct (a <=? maxRetries c); [ | discriminate ].
  unfold Do in Hrun.
  destruct (httpClient c (length (sent w)) req) as [e0|r] eqn:Hr.
  { injection Hrun as E1 E2 E3; subst. right. exists (length (sent w)).
    cbn [sent]. rewrite length_app. cbn. split; [ lia | done ]. }
  cbn [StatusCode received] in Hrun.
  assert (Hrec : ∀ w2, sent w2 = sent w ++ [req] →
                 retryLoop fuel c ctx req (int_succ a)
                   (Some (received (length (sent w)) r)) w2
                 = Ok (res, Some err) w' →
                 err = Err ctx
                 ∨ ∃ j, (length (sent w) <= j < length (sent w'))%nat
                        ∧ httpClient c j req = inl err).
  { intros w2 Hs Hrun2. destruct (IH _ _ _ _ _ _ Hrun2) as [-> | (j & Hj & Hje)];
      [ now left | right ].
    exists j. split; [ | done ]. rewrite Hs, length_app in Hj. cbn in Hj. lia. }
  destruct (StatusCode r <? 300); [ discriminate | ].
  destruct (_ && _); [ discriminate | ].
  destruct (a <? maxRetries c).
  - destruct (Done ctx _); [ injection Hrun as E1 E2 E3; subst; now left | ].
    eapply Hrec; [ | exact Hrun ]. reflexivity.
  - eapply Hrec; [ | exact Hrun ]. reflexivity.
Qed.

(** A first answer with a final status is handed back at once. *)
Lemma first_answer_final (fuel : nat) (w : World) (r : Response) :
  0 <= maxRetries c →
  httpClient c (length (sent w)) req = inr r →
  retriable (StatusCode r) = false →
  doRequestWithRetry (S fuel) c ctx req w
  = Ok (Some (received (length (sent w)) r), None) (after_call req w).
Proof.
  intros Hmax Hr Hs. unfold doRequestWithRetry. cbn [retryLoop].
  replace (0 <=? maxRetries c) with true by (symmetry; apply Z.leb_le; lia).
  rewrite (Do_answer _ _ _ _ Hr). cbn [StatusCode received].
  destruct (not_retriable_branches _ Hs) as [-> | [-> ->]]; reflexivity.
Qed.

(** An iteration of the loop that is entered makes at least one call. *)
Lemma retryLoop_calls (fuel : nat) (a : Z) (resp0 : option Response)
    (w w' : World) (x : option Response * option error) :
  a <= maxRetries c →
  retryLoop fuel c ctx req a resp0 w = Ok x w' →
  ∃ n, sent w' = sent w ++ replicate (S n) req.
Proof.
  intros Ha Hrun. destruct fuel as [|fuel]; [ discriminate | ].
  cbn [retryLoop] in Hrun.
  replace (a <=? maxRetries c) with true in Hrun
    by (symmetry; apply Z.leb_le; lia).
  assert (Hrec : ∀ r w2, sent w2 = sent w ++ [req] →
                 retryLoop fuel c ctx req (int_succ a) (Some r) w2 = Ok x w' →
                 ∃ n, sent w' = sent w ++ replicate (S n) req).
  { intros r w2 Hs Hrun2.
    pose proof (retryLoop_sends_only c ctx req fuel (int_succ a) (Some r) w2)
      as Hsend.
    rewrite Hrun2 in Hsend. destruct Hsend as [n Hn].
    exists n. rewrite Hn, Hs, <- app_assoc. reflexivity. }
  unfold Do in Hrun.
  destruct (httpClient c (length (sent w)) req) as [err|r].
  { injection Hrun as _ <-. now exists 0%nat. }
  cbn [StatusCode received] in Hrun.
  destruct (StatusCode r <? 300); [ injection Hrun as _ <-; now exists 0%nat | ].
  destruct (_ && _); [ injection Hrun as _ <-; now exists 0%nat | ].
  destruct (a <? maxRetries c).
  - destruct (Done ctx _); [ injection Hrun as _ <-; now exists 0%nat | ].
    eapply Hrec; [ | exact Hrun ]. reflexivity.
  - eapply Hrec; [ | exact Hrun ]. reflexivity.
Qed.

(** X4. With a budget of at least one retry and no cancellation in the first
    wait, a second call is made exactly when the first answer's status is in
    300..399, is 429, or is 500 or above. *)
Theorem retried_statuses (fuel : nat) (w : World) (r : Response) :
  1 <= maxRetries c < max_int →
  Done ctx (S (length (sent w))) = false →
  httpClient c (length (sent w)) req = inr r →
  (Z.to_nat (maxRetries c) + 1 < fuel)%nat →
  ∃ res e w' n,
    doRequestWithRetry fuel c ctx req w = Ok (res, e) w'
    ∧ sent w' = sent w ++ replicate (S n) req
    ∧ ((0 < n)%nat
       ↔ 300 <= StatusCode r < 400 ∨ StatusCode r = 429
         ∨ 500 <= StatusCode r).
Proof.
  intros HN Hq Hr Hfuel.
  assert (Hcond : retriable (StatusCode r) = true
                  ↔ 300 <= StatusCode r < 400 ∨ StatusCode r = 429
                    ∨ 500 <= StatusCode r).
  { unfold retriable.
    destruct (Z.ltb_spec (StatusCode r) 300), (Z.geb_spec (StatusCode r) 400),
      (Z.ltb_spec (StatusCode r) 500), (Z.eqb_spec (StatusCode r) 429);
      cbn; split; intros Hx; try reflexivity; try discriminate; lia. }
  destruct fuel as [|fuel]; [ lia | ].
  destruct (retriable (StatusCode r)) eqn:Hs.
  - unfold doRequestWithRetry.
    rewrite (retryLoop_quiet_step fuel 0 None w r) by (done || lia).
    destruct (retryLoop_terminates (Z.to_nat (maxRetries c)) fuel (0 + 1)
                (Some (received (length (sent w)) r))
                (after_retries req 0 1 w))
      as (res & e & w' & n & E & Hn & Hle); try lia.
    assert (Hle1 : 0 + 1 <= maxRetries c) by lia.
    destruct (retryLoop_calls _ _ _ _ _ _ Hle1 E) as [n' Hn'].
    exists res, e, w', (S n'). split; [ exact E | ].
    split; [ | split; [ intros _; now apply Hcond | lia ] ].
    rewrite Hn'. unfold after_retries. cbn [sent replicate].
    now rewrite <- app_assoc.
  - rewrite (first_answer_final fuel w r) by (done || lia).
    eexists _, _, _, 0%nat. split; [ reflexivity | ].
    split; [ reflexivity | ].
    split; [ lia | ]. intros H. apply Hcond in H. congruence.
Qed.

End ExecutorRuns.

Section ClientOutcomes.

Context {SiteRecord : Type}.
Variable json_Marshal : GoValue -> string.
Variable json_Unmarshal_apiResponse : string -> option (list SiteRecord).
Variable json_Unmarshal_directData : string -> option (list SiteRecord).
Variable newRequestError : string -> string -> option error.

#[local] Abbreviation Create :=
  (CreateSecureConnectSite json_Marshal newRequestError).
#[local] Abbreviation Delete :=
  (DeleteSecureConnectSites json_Marshal newRequestError).
#[local] Abbreviation decode :=
  (decodePage json_Unmarshal_apiResponse json_Unmarshal_directData).
#[local] Abbreviation loop :=
  (listLoop json_Unmarshal_apiResponse json_Unmarshal_directData
     newRequestError).
#[local] Abbreviation List :=
  (GetSecureConnectSites json_Unmarshal_apiResponse json_Unmarshal_directData
     newRequestError).

Lemma executor_outcome (fuel : nat) (c : MerakiClient) (ctx : Context)
    (rq : Request) (what : string) (w w1 : World) (res : option Response)
    (e : option error) :
  doRequestWithRetry fuel c ctx rq w = Ok (res, e) w1 →
  match res, e with
  | _, Some err => request_outcome c ctx rq what w w1 (Some err)
  | None, None => True
  | Some resp, None =>
      request_outcome c ctx rq what w (Close resp w1)
        (if StatusCode resp >=? 300 then Some (what +:+ Status resp)
         else None)
  end.
Proof.
  intros Hrun. unfold doRequestWithRetry in Hrun.
  destruct e as [err|].
  - assert (request_outcome c ctx rq what w w1 (Some err)) as H.
    { destruct (retryLoop_error_origin _ _ _ _ _ _ _ _ _ _ Hrun)
        as [-> | (j & Hj & Hje)]; cbn; [ now left | right; left ].
      now exists j. }
    now destruct res.
  - destruct res as [resp|]; [ | exact I ].
    destruct (retryLoop_bodies _ _ _ _ _ _ _ _ _ _ Hrun) as (_ & _ & _ & P).
    destruct (P resp eq_refl) as [Hbad | (j & r0 & Hj & Hj0 & ->)];
      [ discriminate Hbad | ].
    cbn [received StatusCode Status].
    destruct (Z.geb_spec (StatusCode r0) 300).
    + right; right. exists j, r0. repeat split; try done; cbn; lia.
    + exists j, r0. repeat split; try done; cbn; lia.
Qed.

Lemma create_outcome (fuel : nat) (c : MerakiClient) (ctx : Context)
    (orgID siteID regionType regionID regionName : string) (w w' : World)
    (res : option error) :
  Create fuel c ctx orgID siteID regionType regionID regionName w
  = Ok res w' →
  match newRequestError "POST" (sites_url c orgID) with
  | Some e => res = Some e ∧ w' = w
  | None =>
      request_outcome c ctx
        (create_request json_Marshal c orgID siteID regionType regionID
           regionName)
        "create failed: " w w' res
  end.
Proof.
  unfold CreateSecureConnectSite, NewRequestWithContext.
  destruct (newRequestError _ _) as [e0|]; [ now intros [= <- <-] | ].
  fold (create_request json_Marshal c orgID siteID regionType regionID
          regionName).
  destruct (doRequestWithRetry _ _ _ _ _) as [[r e] w1|w1|] eqn:Hrun;
    try (destruct r; discriminate); try discriminate.
  pose proof (executor_outcome _ _ _ _ "create failed: " _ _ _ _ Hrun) as H.
  destruct r as [resp|], e as [err|]; try discriminate.
  - now intros [= <- <-].
  - destruct (StatusCode resp >=? 300); now intros [= <- <-].
  - now intros [= <- <-].
Qed.

Lemma delete_outcome (fuel : nat) (c : MerakiClient) (ctx : Context)
    (orgID siteID : string) (w w' : World) (res : option error) :
  Delete fuel c ctx orgID siteID w = Ok res w' →
  match newRequestError "DELETE" (sites_url c orgID) with
  | Some e => res = Some e ∧ w' = w
  | None =>
      request_outcome c ctx (delete_request json_Marshal c orgID siteID)
        "delete failed: " w w' res
  end.
Proof.
  unfold DeleteSecureConnectSites, NewRequestWithContext.
  destruct (newRequestError _ _) as [e0|]; [ now intros [= <- <-] | ].
  fold (delete_request json_Marshal c orgID siteID).
  destruct (doRequestWithRetry _ _ _ _ _) as [[r e] w1|w1|] eqn:Hrun;
    try (destruct r; discriminate); try discriminate.
  pose proof (executor_outcome _ _ _ _ "delete failed: " _ _ _ _ Hrun) as H.
  destruct r as [resp|], e as [err|]; try discriminate.
  - now intros [= <- <-].
  - destruct (StatusCode resp >=? 300); now intros [= <- <-].
  - now intros [= <- <-].
Qed.

(** X7. What create and delete can report. Nil only after an answer below
    300. An error is the request constructor's (nothing is sent then), the
    context's, a transport error, or the fixed prefix followed by the status
    text of an answer at 300 or above. *)
Theorem create_delete_outcomes (fuel : nat) (c : MerakiClient)
    (ctx : Context) (orgID siteID : string) (w w' : World)
    (res : option error) :
  (∀ regionType regionID regionName,
      Create fuel c ctx orgID siteID regionType regionID regionName w
      = Ok res w' →
      match newRequestError "POST" (sites_url c orgID) with
      | Some e => res = Some e ∧ w' = w
      | None =>
          request_outcome c ctx
            (create_request json_Marshal c orgID siteID regionType regionID
               regionName)
            "create failed: " w w' res
      end)
  ∧ (Delete fuel c ctx orgID siteID w = Ok res w' →
     match newRequestError "DELETE" (sites_url c orgID) with
     | Some e => res = Some e ∧ w' = w
     | None =>
         request_outcome c ctx (delete_request json_Marshal c orgID siteID)
           "delete failed: " w w' res
     end).
Proof.
  split.
  - intros regionType regionID regionName. apply create_outcome.
  - apply delete_outcome.
Qed.

End ClientOutcomes.

Section ListOutcomes.

Context {SiteRecord : Type}.
Variable json_Unmarshal_apiResponse : string -> option (list SiteRecord).
Variable json_Unmarshal_directData : string -> option (list SiteRecord).
Variable newRequestError : string -> string -> option error.

#[local] Abbreviation decode :=
  (decodePage json_Unmarshal_apiResponse json_Unmarshal_directData).
#[local] Abbreviation loop :=
  (listLoop json_Unmarshal_apiResponse json_Unmarshal_directData
     newRequestError).
#[local] Abbreviation List :=
  (GetSecureConnectSites json_Unmarshal_apiResponse json_Unmarshal_directData
     newRequestError).

(** X10. The errors of the list operation: the request constructor's, the
    context's or a transport error, each behind its prefix; a failed read of
    the body; a status other than 200, with code and body; or the
    format-mismatch error. *)
Theorem list_error_forms (pages fuel : nat) (c : MerakiClient) (ctx : Context) :
  ∀ (url : string) (allSites : list SiteRecord) (deferred : list Response)
    (w w' : World) (sites : list SiteRecord) (err : error),
    loop pages fuel c ctx url allSites deferred w = Ok (sites, Some err) w' →
    (∃ u e, newRequestError "GET" u = Some e
            ∧ err = "creating request: " +:+ e)
    ∨ err = "sending request: " +:+ Err ctx
    ∨ (∃ j rq e, httpClient c j rq = inl e
                 ∧ err = "sending request: " +:+ e)
    ∨ (∃ e, err = "reading response: " +:+ e)
    ∨ (∃ code body, code ≠ 200
                    ∧ err = "bad response (" +:+ pretty code +:+ "): "
                            +:+ body)
    ∨ err = errFormat.
Proof.
  induction pages as [|pages IH];
    intros url allSites deferred w w' sites err H; [ discriminate | ].
  cbn [listLoop] in H. unfold leave, NewRequestWithContext in H.
  destruct (newRequestError "GET" url) as [e|] eqn:Hreq.
  { injection H as _ <- _. left. now exists url, e. }
  destruct (doRequestWithRetry _ _ _ _ _) as [[[r|] [e|]] w1|w1|] eqn:Hrun;
    try discriminate.
  - injection H as _ <- _.
    destruct (retryLoop_error_origin _ _ _ _ _ _ _ _ _ _ Hrun)
      as [-> | (j & _ & Hj)]; [ now right; left | right; right; left ].
    now exists j, (set_headers c (mkRequest "GET" url ∅ None)), e.
  - destruct (ReadAll r w1) as [e|body].
    { injection H as _ <- _. right; right; right; left. now exists e. }
    destruct (Z.eqb_spec (StatusCode r) 200) as [H200|H200]; cbn [negb] in H.
    2:{ injection H as _ <- _. right; right; right; right; left.
        now exists (StatusCode r), body. }
    destruct (decodePage _ _ body) as [cur|].
    2:{ injection H as _ <- _. now repeat right. }
    destruct (String.eqb _ _); [ discriminate | ].
    destruct (String.eqb _ _); [ discriminate | ].
    destruct (_ <? _); [ discriminate | ].
    exact (IH _ _ _ _ _ _ _ H).
  - injection H as _ <- _.
    destruct (retryLoop_error_origin _ _ _ _ _ _ _ _ _ _ Hrun)
      as [-> | (j & _ & Hj)]; [ now right; left | right; right; left ].
    now exists j, (set_headers c (mkRequest "GET" url ∅ None)), e.
Qed.

(** X11. A final status other than 200 is an error for the list operation,
    also when it is below 300 and a success for the executor: the error
    names the code and carries the raw body, and nothing accumulated is
    returned. *)
Theorem list_needs_status_200 (pages fuel : nat) (c : MerakiClient)
    (ctx : Context) (url body : string) (allSites : list SiteRecord)
    (deferred : list Response) (w : World) (r : Response) :
  0 <= maxRetries c →
  streams_fresh w →
  newRequestError "GET" url = None →
  httpClient c (length (sent w)) (get_request c url) = inr r →
  retriable (StatusCode r) = false →
  StatusCode r ≠ 200 →
  payload (Body r) = inr body →
  loop (S pages) (S fuel) c ctx url allSites deferred w
  = Ok ([], Some ("bad response (" +:+ pretty (StatusCode r) +:+ "): "
                  +:+ body))
       (runDeferred (received (length (sent w)) r :: deferred)
          (after_call (get_request c url) w)).
Proof.
  intros Hmax Hfresh Hreq Hr Hs Hne Hbody.
  cbn [listLoop]. unfold NewRequestWithContext. rewrite Hreq.
  fold (get_request c url).
  rewrite (first_answer_final c ctx _ fuel w r Hmax Hr Hs).
  unfold ReadAll. cbn [received Body stream payload after_call closed].
  rewrite bool_decide_eq_false_2
    by (intros Hin; apply Hfresh in Hin; lia).
  rewrite Hbody. cbn [StatusCode received].
  replace (StatusCode r =? 200) with false
    by (symmetry; now apply Z.eqb_neq).
  reflexivity.
Qed.

(** X12. After the retry budget is spent on retriable statuses the executor
    hands back a body it has closed, and the list operation reads that
    closed body. It fails either way and returns no records: with the read
    error when the read of the closed body fails, as it does for a body
    that reads from the connection; with the "bad response" error, naming
    the code, when the closed body still yields something, as the body of
    an answer without content yields the empty string. *)
Theorem list_after_exhaustion_reads_closed_body (pages fuel : nat)
    (c : MerakiClient) (ctx : Context) (url : string)
    (allSites : list SiteRecord) (deferred : list Response) (w : World) :
  0 <= maxRetries c < max_int →
  never_cancelled ctx →
  newRequestError "GET" url = None →
  (∀ k, (k <= Z.to_nat (maxRetries c))%nat →
        ∃ r, httpClient c (length (sent w) + k) (get_request c url) = inr r
             ∧ retriable (StatusCode r) = true) →
  (Z.to_nat (maxRetries c) + 1 < fuel)%nat →
  ∃ r w',
    httpClient c (length (sent w) + Z.to_nat (maxRetries c))
      (get_request c url) = inr r
    ∧ loop (S pages) fuel c ctx url allSites deferred w
      = Ok ([], Some (match closedRead (Body r) with
                      | inl e => "reading response: " +:+ e
                      | inr data =>
                          "bad response (" +:+ pretty (StatusCode r) +:+ "): "
                          +:+ data
                      end)) w'
    ∧ sent w'
      = sent w ++ replicate (S (Z.to_nat (maxRetries c))) (get_request c url).
Proof.
  intros HN Hctx Hreq Hans Hfuel.
  destruct (retry_exhausted c ctx (get_request c url) fuel w HN Hctx Hans Hfuel)
    as (r & Hr & Hs & Hrun).
  exists r. cbn [listLoop]. unfold NewRequestWithContext. rewrite Hreq.
  fold (get_request c url). rewrite Hrun.
  unfold ReadAll. cbn [received Body stream closed closedRead].
  rewrite bool_decide_eq_true_2
    by (apply elem_of_app; right; apply elem_of_seq; lia).
  assert (Hsent : ∀ d w0, sent (fold_left (λ w r, Close r w) d w0) = sent w0).
  { induction d as [|x d IHd]; intros w0; [ reflexivity | ].
    cbn [fold_left]. now rewrite IHd. }
  assert (H200 : (StatusCode r =? 200) = false).
  { apply Z.eqb_neq. intros E. rewrite E in Hs. discriminate Hs. }
  destruct (closedRead (Body r)) as [e|data].
  - eexists. split; [ exact Hr | ]. split; [ reflexivity | ].
    unfold runDeferred. now rewrite Hsent.
  - cbn [StatusCode received]. rewrite H200. cbn [negb].
    eexists. split; [ exact Hr | ]. split; [ reflexivity | ].
    unfold runDeferred. now rewrite Hsent.
Qed.

(** X13. A page of fewer than 1000 records is the last one, whatever its Link
    header says: the operation returns what it has accumulated. *)
Theorem short_page_is_last (pages fuel : nat) (c : MerakiClient)
    (ctx : Context) (url : string) (allSites currentSites : list SiteRecord)
    (deferred : list Response) (w w1 : World) (resp : Response)
    (body : string) :
  newRequestError "GET" url = None →
  doRequestWithRetry fuel c ctx (get_request c url) w = Ok (Some resp, None) w1 →
  ReadAll resp w1 = inr body →
  StatusCode resp = 200 →
  decode body = Some currentSites →
  (length currentSites < 1000)%nat →
  loop (S pages) fuel c ctx url allSites deferred w
  = Ok (allSites ++ currentSites, None) (runDeferred (resp :: deferred) w1).
Proof.
  intros Hreq Hrun Hread H200 Hdec Hlen.
  rewrite (loop_page _ _ _ _ _ _ _ _ _ _ _ _ _ _ Hreq Hrun Hread H200), Hdec.
  cbv zeta.
  replace (Z.of_nat (length currentSites) <? 1000) with true
    by (symmetry; apply Z.ltb_lt; lia).
  now repeat destruct (String.eqb _ _).
Qed.

(** X14. A first page without a "next" relation: its records are the result,
    be there none or many, after one GET whose body is closed. *)
Theorem single_page_listed (pages fuel : nat) (c : MerakiClient)
    (ctx : Context) (orgID body link : string) (sites : list SiteRecord)
    (w : World) :
  let u1 := sites_url c orgID +:+ "?perPage=1000" in
  0 <= maxRetries c → (0 < fuel)%nat → (0 < pages)%nat →
  streams_fresh w →
  newRequestError "GET" u1 = None →
  serves c (length (sent w)) u1 body link →
  no_next_directive link →
  decode body = Some sites →
  List pages fuel c ctx orgID w
  = Ok (sites, None)
       (mkWorld (sent w ++ [get_request c u1])
          (closed w ++ [length (sent w)]) (waits w)).
Proof.
  intros u1 Hmax Hfuel Hpages Hfresh Hreq Hserves Hno Hdec.
  destruct fuel as [|fuel]; [ lia | ]. destruct pages as [|pages]; [ lia | ].
  destruct (fetch_served fuel c ctx u1 body link w Hmax Hfresh Hserves)
    as (r & Run & Read & C200 & Link & Id).
  unfold GetSecureConnectSites. fold u1.
  rewrite <- Link in Hno.
  rewrite (loop_page_last _ _ _ _ _ _ _ u1 [] sites [] w _ r body
             Hreq Run Read C200 Hdec Hno).
  unfold runDeferred, Close. cbn [fold_left after_call sent closed waits app].
  now rewrite Id.
Qed.

(** X15. Nothing bounds the number of pages. Let every GET that the loop can
    come to be answered with status 200, a page of 1000 records or more and
    a Link header in which the scan finds a target, whatever the targets
    are: ever new URLs, or URLs met before. Then the list operation does
    not return, however many iterations it is given. *)
Theorem endless_pages_never_return (c : MerakiClient) (ctx : Context)
    (reach : string → Prop) :
  0 <= maxRetries c →
  (∀ url, reach url →
      newRequestError "GET" url = None
      ∧ ∀ k, ∃ body link page,
          serves c k url body link
          ∧ decode body = Some page
          ∧ (1000 <= length page)%nat
          ∧ nextURL_of link ≠ EmptyString
          ∧ reach (nextURL_of link)) →
  ∀ orgID, reach (sites_url c orgID +:+ "?perPage=1000") →
  ∀ (pages fuel : nat) (w : World),
    streams_fresh w →
    List pages fuel c ctx orgID w = OutOfFuel.
Proof.
  intros Hmax Hserver orgID Hfirst pages fuel w Hfresh.
  unfold GetSecureConnectSites.
  generalize (@nil SiteRecord) at 1. generalize (@nil Response).
  revert Hfirst Hfresh. generalize (sites_url c orgID +:+ "?perPage=1000").
  revert w.
  induction pages as [|pages IH]; intros w url Hreach Hfresh deferred allSites;
    [ reflexivity | ].
  destruct (Hserver url Hreach) as [Hreq Hpage].
  destruct fuel as [|fuel].
  { cbn [listLoop]. unfold NewRequestWithContext. now rewrite Hreq. }
  destruct (Hpage (length (sent w)))
    as (body & link & page & Hserves & Hdec & Hlen & Hne & Hnext).
  destruct (fetch_served fuel c ctx url body link w Hmax Hfresh Hserves)
    as (r & Run & Read & C200 & Link & Id).
  rewrite (loop_page _ _ _ _ _ _ _ _ _ _ _ _ _ _ Hreq Run Read C200), Hdec.
  cbv zeta. rewrite Link.
  assert (Hlink : String.eqb link EmptyString = false).
  { apply String.eqb_neq. intros ->. now apply Hne. }
  rewrite Hlink.
  apply String.eqb_neq in Hne. rewrite Hne.
  replace (Z.of_nat (length page) <? 1000) with false
    by (symmetry; apply Z.ltb_ge; lia).
  apply IH; [ exact Hnext | now apply after_call_fresh ].
Qed.

End ListOutcomes.

Section Released.

Context {SiteRecord : Type}.
Variable json_Marshal : GoValue -> string.
Variable json_Unmarshal_apiResponse : string -> option (list SiteRecord).
Variable json_Unmarshal_directData : string -> option (list SiteRecord).
Variable newRequestError : string -> string -> option error.

Lemma retryLoop_no_panic (c : MerakiClient) (ctx : Context) (req : Request)
    (fuel : nat) :
  ∀ (a : Z) (resp0 : option Response) (w w' : World),
    retryLoop fuel c ctx req a resp0 w ≠ Panic w'.
Proof.
  induction fuel as [|fuel IH]; intros a resp0 w w'; [ discriminate | ].
  cbn [retryLoop].
  destruct (a <=? maxRetries c); [ | discriminate ].
  destruct (Do c req w) as [[err|r] w1]; [ discriminate | ].
  destruct (StatusCode r <? 300); [ discriminate | ].
  destruct (_ && _); [ discriminate | ].
  destruct (a <? maxRetries c); [ destruct (Done ctx _); [ discriminate | ] | ];
    apply IH.
Qed.

Lemma runDeferred_sent (deferred : list Response) (w : World) :
  sent (runDeferred deferred w) = sent w.
Proof.
  unfold runDeferred. revert w.
  induction deferred as [|r d IH]; intros w; [ reflexivity | ].
  cbn [fold_left]. now rewrite IH.
Qed.

Lemma runDeferred_closed (deferred : list Response) (w : World) (j : nat) :
  j ∈ closed (runDeferred deferred w)
  ↔ j ∈ closed w ∨ ∃ r, r ∈ deferred ∧ stream (Body r) = j.
Proof.
  unfold runDeferred. revert w.
  induction deferred as [|r d IH]; intros w; cbn [fold_left].
  - split; [ now left | ]. intros [H | (r & Hr & _)]; [ done | ].
    now apply elem_of_nil in Hr.
  - rewrite IH. cbn [Close closed]. rewrite elem_of_app, list_elem_of_singleton.
    split.
    + intros [[H | ->] | (r' & Hr' & Hj)].
      * now left.
      * right. exists r. split; [ now left | done ].
      * right. exists r'. split; [ now right | done ].
    + intros [H | (r' & [-> | Hr']%elem_of_cons & Hj)].
      * left. now left.
      * left. now right.
      * right. now exists r'.
Qed.

(** The executor's run, seen through the log of sent requests. *)
Lemma executor_released (fuel : nat) (c : MerakiClient) (ctx : Context)
    (req : Request) (w w1 : World) (res : option Response)
    (e : option error) :
  doRequestWithRetry fuel c ctx req w = Ok (res, e) w1 →
  (∃ l, sent w1 = sent w ++ l)
  ∧ (∀ j, j ∈ closed w → j ∈ closed w1)
  ∧ (∀ j rq r, (length (sent w) <= j)%nat →
               sent w1 !! j = Some rq →
               httpClient c j rq = inr r →
               j ∈ closed w1 ∨ ∃ resp, res = Some resp ∧ stream (Body resp) = j).
Proof.
  intros Hrun. unfold doRequestWithRetry in Hrun.
  pose proof (retryLoop_sends_only c ctx req fuel 0 None w) as Hsend.
  rewrite Hrun in Hsend. destruct Hsend as [n Hn].
  destruct (retryLoop_bodies _ _ _ _ _ _ _ _ _ _ Hrun) as (M & _ & R & _).
  split; [ now exists (replicate n req) | ]. split; [ exact M | ].
  intros j rq r Hj Hlook Hans.
  assert (Hlt : (j < length (sent w1))%nat)
    by (apply lookup_lt_is_Some; eauto).
  assert (rq = req) as ->.
  { rewrite Hn, lookup_app_r in Hlook by lia.
    apply lookup_replicate in Hlook. tauto. }
  destruct (R j r ltac:(lia) Hans) as [H | ->]; [ now left | right ].
  now exists (received j r).
Qed.

Lemma listLoop_released (pages fuel : nat) (c : MerakiClient) (ctx : Context) :
  ∀ (url : string) (allSites : list SiteRecord) (deferred : list Response)
    (w : World),
    match listLoop json_Unmarshal_apiResponse json_Unmarshal_directData
            newRequestError pages fuel c ctx url allSites deferred w with
    | Ok _ w' | Panic w' =>
        (∃ l, sent w' = sent w ++ l)
        ∧ (∀ j, j ∈ closed w → j ∈ closed w')
        ∧ (∀ r, r ∈ deferred → stream (Body r) ∈ closed w')
        ∧ answered_closed c w w'
    | OutOfFuel => True
    end.
Proof.
  assert (Hleave : ∀ deferred w w1,
             (∃ l, sent w1 = sent w ++ l) →
             (∀ j, j ∈ closed w → j ∈ closed w1) →
             (∀ j rq r, (length (sent w) <= j)%nat →
                        sent w1 !! j = Some rq →
                        httpClient c j rq = inr r →
                        j ∈ closed w1
                        ∨ ∃ resp, resp ∈ deferred ∧ stream (Body resp) = j) →
             (∃ l, sent (runDeferred deferred w1) = sent w ++ l)
             ∧ (∀ j, j ∈ closed w → j ∈ closed (runDeferred deferred w1))
             ∧ (∀ r, r ∈ deferred →
                     stream (Body r) ∈ closed (runDeferred deferred w1))
             ∧ answered_closed c w (runDeferred deferred w1)).
  { intros deferred w w1 Hpre Hmono Hans. rewrite runDeferred_sent.
    split; [ exact Hpre | ]. split; [ | split ].
    - intros j Hj. apply runDeferred_closed. left. now apply Hmono.
    - intros r Hr. apply runDeferred_closed. right. now exists r.
    - intros j rq r Hj Hlook Hjr. rewrite runDeferred_sent in Hlook.
      apply runDeferred_closed.
      destruct (Hans j rq r Hj Hlook Hjr) as [H | H]; [ now left | now right ]. }
  induction pages as [|pages IH]; intros url allSites deferred w;
    [ exact I | ].
  cbn [listLoop]. unfold leave.
  destruct (NewRequestWithContext _ _ _ _) as [e|rq0].
  { apply Hleave; [ now exists [] ; rewrite app_nil_r | auto | ].
    intros j rq r Hj Hlook _. apply lookup_lt_Some in Hlook. lia. }
  destruct (doRequestWithRetry _ _ _ _ _) as [[res e] w1|w1|] eqn:Hrun;
    [ | now apply retryLoop_no_panic in Hrun | exact I ].
  destruct (executor_released _ _ _ _ _ _ _ _ Hrun) as (Hpre & Hmono & Hans).
  assert (Hclosed_or : ∀ d : list Response,
             (∀ resp, res = Some resp → resp ∈ d) →
             ∀ j rq r, (length (sent w) <= j)%nat →
                       sent w1 !! j = Some rq →
                       httpClient c j rq = inr r →
                       j ∈ closed w1
                       ∨ ∃ resp, resp ∈ d ∧ stream (Body resp) = j).
  { intros d Hd j rq r Hj Hlook Hjr.
    destruct (Hans j rq r Hj Hlook Hjr) as [H | (resp & Hres & Hid)];
      [ now left | right ].
    exists resp. split; [ now apply Hd | done ]. }
  destruct res as [resp|], e as [err|].
  - apply Hleave; auto. apply Hclosed_or.
    intros resp' [= <-].
    (* a response never comes with an error *)
    unfold doRequestWithRetry in Hrun.
    now apply retryLoop_response_no_error in Hrun.
  - assert (Hl : (∃ l, sent (runDeferred (resp :: deferred) w1) = sent w ++ l)
                 ∧ (∀ j, j ∈ closed w →
                         j ∈ closed (runDeferred (resp :: deferred) w1))
                 ∧ (∀ r, r ∈ resp :: deferred →
                         stream (Body r)
                         ∈ closed (runDeferred (resp :: deferred) w1))
                 ∧ answered_closed c w (runDeferred (resp :: deferred) w1)).
    { apply Hleave; auto. apply Hclosed_or.
      intros resp' [= <-]. now left. }
    assert (Hl' : (∃ l, sent (runDeferred (resp :: deferred) w1) = sent w ++ l)
                  ∧ (∀ j, j ∈ closed w →
                          j ∈ closed (runDeferred (resp :: deferred) w1))
                  ∧ (∀ r, r ∈ deferred →
                          stream (Body r)
                          ∈ closed (runDeferred (resp :: deferred) w1))
                  ∧ answered_closed c w (runDeferred (resp :: deferred) w1)).
    { destruct Hl as (A & B & C & D). repeat split; auto.
      intros r Hr. apply C. now right. }
    destruct (ReadAll resp w1); [ exact Hl' | ].
    destruct (negb _); [ exact Hl' | ].
    destruct (decodePage _ _ _) as [cur|]; [ | exact Hl' ].
    destruct (String.eqb _ _); [ exact Hl' | ].
    destruct (String.eqb _ _); [ exact Hl' | ].
    destruct (_ <? _); [ exact Hl' | ].
    specialize (IH (nextURL_of (Header_Get (Header resp) "Link"))
                  (allSites ++ cur) (resp :: deferred) w1).
    destruct (listLoop _ _ _ _ _ _ _ _ _ _ w1) as [x w'|w'|]; [ | | exact I ].
    all: destruct IH as ((l' & Hl1) & Hm1 & Hd1 & Ha1);
      destruct Hpre as (l & Hl0);
      (split; [ exists (l ++ l'); now rewrite Hl1, Hl0, app_assoc | ]);
      (split; [ auto | ]);
      (split; [ intros r Hr; apply Hd1; now right | ]);
      intros j rq r Hj Hlook Hjr;
      destruct (decide (length (sent w1) <= j)%nat) as [Hge | Hlt];
      [ now apply (Ha1 j rq r)
      | assert (Hlook1 : sent w1 !! j = Some rq)
          by (rewrite Hl1, lookup_app_l in Hlook by lia; exact Hlook);
        destruct (Hans j rq r Hj Hlook1 Hjr) as [H | (resp' & [= <-] & Hid)];
        [ now apply Hm1 | rewrite <- Hid; apply Hd1; now left ] ].
  - apply Hleave; auto. apply Hclosed_or. intros resp' [=].
  - (* nil response, nil error: the deferred calls run while panicking *)
    apply Hleave; auto. apply Hclosed_or. intros resp' [=].
Qed.

Lemma request_released (fuel : nat) (c : MerakiClient) (ctx : Context)
    (req : Request) (what : string) (w : World) :
  ends_released c w
    (match doRequestWithRetry fuel c ctx req w with
     | OutOfFuel => OutOfFuel
     | Panic w1 => Panic w1
     | Ok (_, Some err) w1 => Ok (Some err) w1
     | Ok (None, None) w1 => Panic w1
     | Ok (Some resp, None) w1 =>
         if StatusCode resp >=? 300
         then Ok (Some (what +:+ Status resp)) (Close resp w1)
         else Ok None (Close resp w1)
     end).
Proof.
  destruct (doRequestWithRetry _ _ _ _ _) as [[res e] w1|w1|] eqn:Hrun;
    [ | now apply retryLoop_no_panic in Hrun | exact I ].
  destruct (executor_released _ _ _ _ _ _ _ _ Hrun) as (_ & _ & Hans).
  assert (Hnone : res = None → answered_closed c w w1).
  { intros -> j rq r Hj Hlook Hjr.
    destruct (Hans j rq r Hj Hlook Hjr) as [H | (resp & [=] & _)]; exact H. }
  destruct res as [resp|], e as [err|]; cbn [ends_released].
  - unfold doRequestWithRetry in Hrun.
    now apply retryLoop_response_no_error in Hrun.
  - assert (answered_closed c w (Close resp w1)).
    { intros j rq r Hj Hlook Hjr. cbn [Close sent closed] in *.
      apply elem_of_app.
      destruct (Hans j rq r Hj Hlook Hjr) as [H | (resp' & [= <-] & <-)];
        [ now left | right; now left ]. }
    now destruct (StatusCode resp >=? 300).
  - now apply Hnone.
  - now apply Hnone.
Qed.

(** X9. Response bodies are released on every way out: when create, delete
    or the list returns or panics, the body of every answer received during
    the run is closed. *)
Theorem bodies_released_on_return (pages fuel : nat) (c : MerakiClient)
    (ctx : Context) (orgID siteID regionType regionID regionName : string)
    (w : World) :
  ends_released c w
    (CreateSecureConnectSite json_Marshal newRequestError fuel c ctx orgID
       siteID regionType regionID regionName w)
  ∧ ends_released c w
      (DeleteSecureConnectSites json_Marshal newRequestError fuel c ctx orgID
         siteID w)
  ∧ ends_released c w
      (GetSecureConnectSites json_Unmarshal_apiResponse
         json_Unmarshal_directData newRequestError pages fuel c ctx orgID w).
Proof.
  assert (Hsame : answered_closed c w w).
  { intros j rq r Hj Hlook _. apply lookup_lt_Some in Hlook. lia. }
  split; [ | split ].
  - unfold CreateSecureConnectSite.
    destruct (NewRequestWithContext _ _ _ _); [ exact Hsame | ].
    apply request_released.
  - unfold DeleteSecureConnectSites.
    destruct (NewRequestWithContext _ _ _ _); [ exact Hsame | ].
    apply request_released.
  - unfold GetSecureConnectSites.
    pose proof (listLoop_released pages fuel c ctx
                  (sites_url c orgID +:+ "?perPage=1000") [] [] w) as H.
    destruct (listLoop _ _ _ _ _ _ _ _ _ _ w) as [x w'|w'|]; [ | | exact I ];
      now destruct H as (_ & _ & _ & H).
Qed.

End Released.

(** ** The first request of create and delete *)

Section FirstRequest.

Variable json_Marshal : GoValue -> string.
Variable newRequestError : string -> string -> option error.

(** The loop hands back neither a response nor an error only when it is
    not entered. *)
Lemma retryLoop_nil (c : MerakiClient) (ctx : Context) (req : Request)
    (fuel : nat) :
  ∀ (a : Z) (resp0 : option Response) (w w' : World),
    retryLoop fuel c ctx req a resp0 w = Ok (None, None) w' →
    resp0 = None ∧ maxRetries c < a.
Proof.
  induction fuel as [|fuel IH]; intros a resp0 w w' Hrun; [ discriminate | ].
  cbn [retryLoop] in Hrun.
  destruct (Z.leb_spec a (maxRetries c)) as [Ha|Ha];
    [ | injection Hrun as -> _; split; [ reflexivity | lia ] ].
  destruct (Do c req w) as [[err|r] w1]; [ discriminate | ].
  destruct (StatusCode r <? 300); [ discriminate | ].
  destruct (_ && _); [ discriminate | ].
  destruct (a <? maxRetries c);
    [ destruct (Done ctx _); [ discriminate | ] | ];
    apply IH in Hrun as [[=] _].
Qed.

(** An operation that sends [req] through the executor, with a retry count
    that is not negative: it returns, the request is the first thing it
    hands to the transport, and the model's step budget runs out only when
    it is no larger than the number of attempts allowed. *)
Lemma first_request_sent (fuel : nat) (c : MerakiClient) (ctx : Context)
    (req : Request) (what : string) (w : World) :
  0 <= maxRetries c →
  match
    match doRequestWithRetry fuel c ctx req w with
    | OutOfFuel => OutOfFuel
    | Panic w1 => Panic w1
    | Ok (_, Some err) w1 => Ok (Some err) w1
    | Ok (None, None) w1 => Panic w1
    | Ok (Some resp, None) w1 =>
        if StatusCode resp >=? 300
        then Ok (Some (what +:+ Status resp)) (Close resp w1)
        else Ok None (Close resp w1)
    end
  with
  | Ok _ w' => ∃ rest, sent w' = sent w ++ req :: rest
  | Panic _ => False
  | OutOfFuel =>
      (fuel <= Z.to_nat (maxRetries c) + 1)%nat ∨ max_int <= maxRetries c
  end.
Proof.
  intros Hmax. unfold doRequestWithRetry.
  destruct (retryLoop fuel c ctx req 0 None w) as [[res e] w1|w1|] eqn:Hrun.
  - assert (Hfirst : ∃ rest, sent w1 = sent w ++ req :: rest).
    { destruct (retryLoop_calls c ctx req fuel 0 None w w1 (res, e) Hmax Hrun)
        as [n Hn].
      exists (replicate n req). exact Hn. }
    destruct res as [resp|], e as [err|]; try exact Hfirst.
    + now destruct (StatusCode resp >=? 300).
    + apply retryLoop_nil in Hrun as [_ Hlt]. lia.
  - now apply retryLoop_no_panic in Hrun.
  - destruct (Z.le_gt_cases max_int (maxRetries c)) as [|Hne];
      [ now right | left ].
    destruct (le_lt_dec fuel (Z.to_nat (maxRetries c) + 1)) as [|Hlt];
      [ assumption | exfalso ].
    destruct (retryLoop_terminates c ctx req (Z.to_nat (maxRetries c + 1))
                fuel 0 None w) as (res & e & w' & n & E & _).
    + lia.
    + f_equal. lia.
    + lia.
    + congruence.
Qed.

#[local] Abbreviation Create :=
  (CreateSecureConnectSite json_Marshal newRequestError).

(** C7. For all inputs the enrollment object of a create has [siteId] and
    [regionType] with the given values, [regionId] exactly when the region
    identifier is not empty and [regionName] exactly when the region name
    is not empty, each with the given value, and no other entry. The body
    of the request is the encoding of an object whose [enrollments] entry
    is the list of that one object. With a request constructor that accepts
    the URL and a retry count that is not negative the operation returns,
    and the first request it hands to the transport is the POST to the
    collection URL that carries this body. *)
Theorem create_request_body (fuel : nat) (c : MerakiClient) (ctx : Context)
    (orgID siteID regionType regionID regionName : string) (w : World) :
  let e := create_enrollment siteID regionType regionID regionName in
  let body := json_Marshal (VMap {[ "enrollments" := VList [VStringMap e] ]}) in
  e !! "siteId" = Some siteID
  ∧ e !! "regionType" = Some regionType
  ∧ (regionID = EmptyString → e !! "regionId" = None)
  ∧ (regionID ≠ EmptyString → e !! "regionId" = Some regionID)
  ∧ (regionName = EmptyString → e !! "regionName" = None)
  ∧ (regionName ≠ EmptyString → e !! "regionName" = Some regionName)
  ∧ (∀ k, is_Some (e !! k) →
          k ∈ ["siteId"; "regionType"; "regionId"; "regionName"])
  ∧ (newRequestError "POST" (sites_url c orgID) = None →
     0 <= maxRetries c →
     match Create fuel c ctx orgID siteID regionType regionID regionName w with
     | Ok _ w' =>
         ∃ rq rest, sent w' = sent w ++ rq :: rest
                    ∧ Method rq = "POST"
                    ∧ URL rq = sites_url c orgID
                    ∧ ReqBody rq = Some body
     | Panic _ => False
     | OutOfFuel =>
         (fuel <= Z.to_nat (maxRetries c) + 1)%nat ∨ max_int <= maxRetries c
     end).
Proof.
  intros e body. subst e body.
  repeat split.
  - apply create_enrollment_lookup.
  - apply create_enrollment_lookup.
  - intros ->. now rewrite create_enrollment_lookup.
  - intros Hne. rewrite create_enrollment_lookup. cbn.
    now destruct (String.eqb_spec regionID EmptyString).
  - intros ->. now rewrite create_enrollment_lookup.
  - intros Hne. rewrite create_enrollment_lookup. cbn.
    now destruct (String.eqb_spec regionName EmptyString).
  - intros k [v Hk]. rewrite create_enrollment_lookup in Hk.
    (destruct (String.eqb_spec k "siteId") as [->|]; [ set_solver | ]);
    (destruct (String.eqb_spec k "regionType") as [->|]; [ set_solver | ]);
    (destruct (String.eqb_spec k "regionId") as [->|]; [ set_solver | ]);
    (destruct (String.eqb_spec k "regionName") as [->|]; [ set_solver | ]);
    discriminate.
  - intros Hreq Hmax.
    unfold CreateSecureConnectSite, NewRequestWithContext. rewrite Hreq.
    pose proof (first_request_sent fuel c ctx
                  (set_headers c
                     (mkRequest "POST" (sites_url c orgID) ∅
                        (Some (json_Marshal
                                 (create_body siteID regionType regionID
                                    regionName)))))
                  "create failed: " w Hmax) as H.
    assert (Hfirst : ∀ (x : option error) w',
               (∃ rest, sent w'
                        = sent w
                          ++ set_headers c
                               (mkRequest "POST" (sites_url c orgID) ∅
                                  (Some (json_Marshal
                                           (create_body siteID regionType
                                              regionID regionName))))
                             :: rest) →
               ∃ rq rest, sent w' = sent w ++ rq :: rest
                          ∧ Method rq = "POST"
                          ∧ URL rq = sites_url c orgID
                          ∧ ReqBody rq
                            = Some (json_Marshal
                                      (VMap {[ "enrollments" :=
                                                 VList [VStringMap
                                                          (create_enrollment
                                                             siteID regionType
                                                             regionID
                                                             regionName)] ]}))).
    { intros _ w' [rest Hrest]. eexists _, rest.
      split; [ exact Hrest | ]. repeat split. }
    destruct (doRequestWithRetry _ _ _ _ _) as [[[resp|] [err|]] w1|w1|];
      try exact H; try (now apply (Hfirst None)).
    destruct (StatusCode resp >=? 300); now apply (Hfirst None).
Qed.

End FirstRequest.

(** A create with a region name and no region identifier, answered 200: the
    enrollment has [regionName] and no [regionId], and the request carries
    its encoding. *)
Lemma create_request_body_witness :
  create_enrollment "N_1" "CNHE" EmptyString "eu-west" !! "regionId" = None
  ∧ create_enrollment "N_1" "CNHE" EmptyString "eu-west" !! "regionName"
    = Some "eu-west"
  ∧ ∃ rq,
      CreateSecureConnectSite Scenario.encode Scenario.anyURL 1
        (Scenario.client (Scenario.always Scenario.fine) 3)
        Scenario.background "org1" "N_1" "CNHE" EmptyString "eu-west" world0
      = Ok None (mkWorld [rq] [0%nat] [])
      ∧ Method rq = "POST"
      ∧ URL rq = "https://api.example.test/api/v1/organizations/org1/secureConnect/sites"
      ∧ ReqBody rq
        = Some (Scenario.text
                  "{'enrollments':[{'regionName':'eu-west','regionType':'CNHE','siteId':'N_1'}]}").
Proof.
  pose proof (create_request_body Scenario.encode Scenario.anyURL 1
                (Scenario.client (Scenario.always Scenario.fine) 3)
                Scenario.background
                "org1" "N_1" "CNHE" EmptyString "eu-west" world0) as H.
  cbv zeta in H.
  destruct H as (_ & _ & Hid & _ & _ & Hname & _ & Hrun).
  split; [ apply Hid; reflexivity | ].
  split; [ apply Hname; discriminate | ].
  specialize (Hrun eq_refl ltac:(cbn; lia)).
  assert (E : CreateSecureConnectSite Scenario.encode Scenario.anyURL 1
                (Scenario.client (Scenario.always Scenario.fine) 3)
                Scenario.background
                "org1" "N_1" "CNHE" EmptyString "eu-west" world0
              = Ok None
                  (mkWorld
                     [create_request Scenario.encode
                        (Scenario.client (Scenario.always Scenario.fine) 3)
                        "org1" "N_1" "CNHE" EmptyString "eu-west"]
                     [0%nat] []))
    by (vm_compute; reflexivity).
  rewrite E in Hrun.
  destruct Hrun as (rq & rest & Hsent & Hm & Hu & Hb).
  cbn [sent world0 app] in Hsent. injection Hsent as <- <-.
  eexists. split; [ exact E | ]. split; [ exact Hm | ]. split; [ exact Hu | ].
  rewrite Hb. vm_compute. reflexivity.
Defined.

Section RequestShapes.

Context {SiteRecord : Type}.
Variable json_Marshal : GoValue -> string.
Variable json_Unmarshal_apiResponse : string -> option (list SiteRecord).
Variable json_Unmarshal_directData : string -> option (list SiteRecord).
Variable newRequestError : string -> string -> option error.

Lemma set_headers_api (c : MerakiClient) (rq : Request) :
  api_headers c (set_headers c rq).
Proof.
  unfold api_headers, set_headers, Header_Set. cbn [ReqHeader].
  repeat split.
  - rewrite !lookup_insert_ne by done. apply lookup_insert_eq.
  - rewrite lookup_insert_ne by done. apply lookup_insert_eq.
  - apply lookup_insert_eq.
Qed.

Lemma sends_only_during {A : Type} (req : Request) (w : World) (res : Res A) :
  sends_only req w res → Forall (λ rq, rq = req) (sent_during w res).
Proof.
  destruct res as [x w'|w'|]; cbn; [ | | constructor ].
  all: intros [n Hn]; rewrite Hn, drop_app_length;
    apply Forall_forall; intros rq Hrq;
    now apply elem_of_replicate in Hrq.
Qed.

Lemma request_sends_only (fuel : nat) (c : MerakiClient) (ctx : Context)
    (req : Request) (what : string) (w : World) :
  sends_only req w
    (match doRequestWithRetry fuel c ctx req w with
     | OutOfFuel => OutOfFuel
     | Panic w1 => Panic w1
     | Ok (_, Some err) w1 => Ok (Some err) w1
     | Ok (None, None) w1 => Panic w1
     | Ok (Some resp, None) w1 =>
         if StatusCode resp >=? 300
         then Ok (Some (what +:+ Status resp)) (Close resp w1)
         else Ok None (Close resp w1)
     end).
Proof.
  unfold doRequestWithRetry.
  pose proof (retryLoop_sends_only c ctx req fuel 0 None w) as H.
  destruct (retryLoop _ _ _ _ _ _ _) as [[[r|] [e|]] w'|w'|]; try exact H.
  destruct (StatusCode r >=? 300); exact H.
Qed.

Lemma listLoop_requests (pages fuel : nat) (c : MerakiClient) (ctx : Context) :
  ∀ (url : string) (allSites : list SiteRecord) (deferred : list Response)
    (w : World),
    match listLoop json_Unmarshal_apiResponse json_Unmarshal_directData
            newRequestError pages fuel c ctx url allSites deferred w with
    | Ok _ w' | Panic w' =>
        ∃ l, sent w' = sent w ++ l
             ∧ Forall (λ rq, ∃ u, rq = get_request c u) l
             ∧ (∀ rq, head l = Some rq → rq = get_request c url)
    | OutOfFuel => True
    end.
Proof.
  induction pages as [|pages IH]; intros url allSites deferred w;
    [ exact I | ].
  cbn [listLoop]. unfold leave, NewRequestWithContext.
  destruct (newRequestError "GET" url).
  { exists []. rewrite runDeferred_sent, app_nil_r.
    repeat split; [ constructor | discriminate ]. }
  fold (get_request c url).
  destruct (doRequestWithRetry _ _ _ _ _) as [[res e] w1|w1|] eqn:Hrun;
    [ | now apply retryLoop_no_panic in Hrun | exact I ].
  pose proof (retryLoop_sends_only c ctx (get_request c url) fuel 0 None w)
    as Hsend.
  unfold doRequestWithRetry in Hrun. rewrite Hrun in Hsend.
  destruct Hsend as [n Hn].
  assert (Hl0 : Forall (λ rq, ∃ u, rq = get_request c u)
                  (replicate n (get_request c url))).
  { apply Forall_forall. intros rq Hrq. apply elem_of_replicate in Hrq as [-> _].
    now exists url. }
  assert (Hh0 : ∀ l' rq, head (replicate n (get_request c url) ++ l') = Some rq →
                (0 < n)%nat → rq = get_request c url).
  { intros l' rq. destruct n; [ lia | ]. cbn. now intros [= <-]. }
  assert (Hstop : ∀ d, ∃ l, sent (runDeferred d w1) = sent w ++ l
                        ∧ Forall (λ rq, ∃ u, rq = get_request c u) l
                        ∧ (∀ rq, head l = Some rq → rq = get_request c url)).
  { intros d. exists (replicate n (get_request c url)).
    rewrite runDeferred_sent. repeat split; [ done | done | ].
    intros rq. destruct n; cbn; [ discriminate | now intros [= <-] ]. }
  destruct res as [resp|], e as [err|]; try apply Hstop.
  destruct (ReadAll resp w1); [ apply Hstop | ].
  destruct (negb _); [ apply Hstop | ].
  destruct (decodePage _ _ _) as [cur|]; [ | apply Hstop ].
  destruct (String.eqb _ _); [ apply Hstop | ].
  destruct (String.eqb _ _); [ apply Hstop | ].
  destruct (_ <? _); [ apply Hstop | ].
  assert (Hpos : (0 < n)%nat).
  { destruct (retryLoop_bodies _ _ _ _ _ _ _ _ _ _ Hrun) as (_ & _ & _ & P).
    destruct (P resp eq_refl) as [Hbad | (j & _ & Hj & _)];
      [ discriminate Hbad | ].
    rewrite Hn, length_app, length_replicate in Hj. lia. }
  specialize (IH (nextURL_of (Header_Get (Header resp) "Link"))
                (allSites ++ cur) (resp :: deferred) w1).
  destruct (listLoop _ _ _ _ _ _ _ _ _ _ w1) as [x w'|w'|]; [ | | exact I ].
  all: destruct IH as (l' & Hl' & Hall & _);
    exists (replicate n (get_request c url) ++ l');
    (split; [ now rewrite Hl', Hn, app_assoc | ]);
    (split; [ now apply Forall_app | ]);
    intros rq Hrq; now apply (Hh0 l' rq).
Qed.

(** X8. What the three operations hand to the transport. Every request
    carries the two JSON headers and the API key header. Create posts to,
    and delete sends DELETE to, the organization's collection URL. With a
    request constructor that accepts the URL and a retry count that is not
    negative a delete returns, and the first request it hands over carries
    the encoding of a one-element list with the site identifier. The list
    sends GET requests without a body, the first one to the collection URL
    with [?perPage=1000]. *)
Theorem requests_of_the_operations (pages fuel : nat) (c : MerakiClient)
    (ctx : Context) (orgID siteID regionType regionID regionName : string)
    (w : World) :
  let collection :=
    baseURL c +:+ "/organizations/" +:+ orgID +:+ "/secureConnect/sites" in
  Forall (λ rq, Method rq = "POST" ∧ URL rq = collection ∧ api_headers c rq)
    (sent_during w
       (CreateSecureConnectSite json_Marshal newRequestError fuel c ctx orgID
          siteID regionType regionID regionName w))
  ∧ Forall (λ rq, Method rq = "DELETE" ∧ URL rq = collection
                  ∧ api_headers c rq)
      (sent_during w
         (DeleteSecureConnectSites json_Marshal newRequestError fuel c ctx
            orgID siteID w))
  ∧ (newRequestError "DELETE" collection = None →
     0 <= maxRetries c →
     match DeleteSecureConnectSites json_Marshal newRequestError fuel c ctx
             orgID siteID w with
     | Ok _ w' =>
         ∃ rq rest, sent w' = sent w ++ rq :: rest
                    ∧ ReqBody rq
                      = Some (json_Marshal
                                (VMap {[ "sites" := VStrings [siteID] ]}))
     | Panic _ => False
     | OutOfFuel =>
         (fuel <= Z.to_nat (maxRetries c) + 1)%nat ∨ max_int <= maxRetries c
     end)
  ∧ Forall (λ rq, Method rq = "GET" ∧ ReqBody rq = None ∧ api_headers c rq)
      (sent_during w
         (GetSecureConnectSites json_Unmarshal_apiResponse
            json_Unmarshal_directData newRequestError pages fuel c ctx orgID
            w))
  ∧ (∀ rq, head (sent_during w
                   (GetSecureConnectSites json_Unmarshal_apiResponse
                      json_Unmarshal_directData newRequestError pages fuel c
                      ctx orgID w)) = Some rq →
           URL rq = collection +:+ "?perPage=1000").
Proof.
  intros collection.
  assert (Hsame : ∀ (A : Type) (x : A), @sent_during A w (Ok x w) = []).
  { intros A x. cbn. apply drop_all. }
  split; [ | split; [ | split; [ | split ] ] ].
  - unfold CreateSecureConnectSite, NewRequestWithContext.
    destruct (newRequestError _ _); [ rewrite Hsame; constructor | ].
    eapply Forall_impl;
      [ apply sends_only_during, request_sends_only | ].
    intros rq ->. repeat split; try apply set_headers_api.
  - unfold DeleteSecureConnectSites, NewRequestWithContext.
    destruct (newRequestError _ _); [ rewrite Hsame; constructor | ].
    eapply Forall_impl;
      [ apply sends_only_during, request_sends_only | ].
    intros rq ->. repeat split; try apply set_headers_api.
  - intros Hreq Hmax.
    unfold DeleteSecureConnectSites, NewRequestWithContext.
    fold collection. unfold sites_url. fold collection. rewrite Hreq.
    pose proof (first_request_sent fuel c ctx
                  (set_headers c
                     (mkRequest "DELETE" collection ∅
                        (Some (json_Marshal (delete_body siteID)))))
                  "delete failed: " w Hmax) as H.
    assert (Hfirst : ∀ w',
               (∃ rest, sent w'
                        = sent w
                          ++ set_headers c
                               (mkRequest "DELETE" collection ∅
                                  (Some (json_Marshal (delete_body siteID))))
                             :: rest) →
               ∃ rq rest, sent w' = sent w ++ rq :: rest
                          ∧ ReqBody rq
                            = Some (json_Marshal
                                      (VMap {[ "sites" := VStrings [siteID] ]}))).
    { intros w' [rest Hrest]. eexists _, rest.
      split; [ exact Hrest | reflexivity ]. }
    destruct (doRequestWithRetry _ _ _ _ _) as [[[resp|] [err|]] w1|w1|];
      try exact H; try (now apply Hfirst).
    destruct (StatusCode resp >=? 300); now apply Hfirst.
  - unfold GetSecureConnectSites.
    pose proof (listLoop_requests pages fuel c ctx
                  (sites_url c orgID +:+ "?perPage=1000") [] [] w) as H.
    destruct (listLoop _ _ _ _ _ _ _ _ _ _ w) as [x w'|w'|];
      [ | | constructor ].
    all: destruct H as (l & Hl & Hall & _); cbn [sent_during];
      rewrite Hl, drop_app_length;
      eapply Forall_impl; [ exact Hall | ];
      intros rq [u ->]; repeat split; apply set_headers_api.
  - unfold GetSecureConnectSites. intros rq.
    pose proof (listLoop_requests pages fuel c ctx
                  (sites_url c orgID +:+ "?perPage=1000") [] [] w) as H.
    destruct (listLoop _ _ _ _ _ _ _ _ _ _ w) as [x w'|w'|];
      [ | | discriminate ].
    all: destruct H as (l & Hl & _ & Hhead); cbn [sent_during];
      rewrite Hl, drop_app_length;
      intros Hrq; now rewrite (Hhead rq Hrq).
Qed.

End RequestShapes.

Section LinkRoundTrip.

#[local] Arguments String.append : simpl nomatch.

Lemma format_links_cons (e : string * string) (l : list (string * string)) :
  l ≠ [] →
  format_links (e :: l) = link_value e +:+ String comma (" " +:+ format_links l).
Proof. destruct l; [ done | ]. reflexivity. Qed.

Lemma Contains_after_space (s p : string) (c : ascii) :
  strings.HasPrefix (String c s) p = false →
  strings.Contains (String c s) p = strings.Contains s p.
Proof.
  intros H. unfold strings.Contains. cbn [strings.Index]. rewrite H.
  destruct (Index_range s p) as [-> | Hge]; [ reflexivity | ].
  destruct (Z.eqb_spec (strings.Index s p) (-1)); [ lia | ].
  apply eq_true_iff_eq. rewrite !Z.geb_le. lia.
Qed.

Lemma no_next_directive_space (s : string) :
  no_next_directive s → no_next_directive (" " +:+ s).
Proof.
  intros [H1 H2]. split.
  - change (" " +:+ s) with (String " " s).
    now rewrite Contains_after_space.
  - change (" " +:+ s) with (String " " s).
    now rewrite Contains_after_space.
Qed.

Lemma link_value_directive (u : string) (quoted : bool) :
  ∃ rel, is_rel_next rel ∧ link_value (u, next_rel quoted) = directive 0 u rel
         ∧ " " +:+ link_value (u, next_rel quoted) = directive 1 u rel.
Proof.
  destruct quoted.
  - exists rel_next_quoted. split; [ now left | ].
    unfold link_value, directive, next_rel, rel_next_quoted. cbn [fst snd].
    assert (E : "<" +:+ u +:+ ">; rel=" +:+ strings.dquote +:+ "next"
                +:+ strings.dquote
                = "<" +:+ u +:+ ">; "
                  +:+ "rel=" +:+ strings.dquote +:+ "next" +:+ strings.dquote).
    { cbn [append]. reflexivity. }
    split; [ exact E | cbn [spaces append]; now f_equal ].
  - exists rel_next_bare. split; [ now right | ].
    unfold link_value, directive, next_rel, rel_next_bare. cbn [fst snd].
    assert (E : "<" +:+ u +:+ ">; rel=" +:+ "next"
                = "<" +:+ u +:+ ">; " +:+ "rel=next").
    { cbn [append]. reflexivity. }
    split; [ exact E | cbn [spaces append]; now f_equal ].
Qed.

(** The pieces of a formatted header up to the first "next" directive. *)
Lemma Split_format_links (u : string) (quoted : bool)
    (after : list (string * string)) :
  has_byte comma u = false →
  ∀ (before : list (string * string)) (lead : bool),
    Forall (λ e, has_byte comma (link_value e) = false
                 ∧ no_next_directive (link_value e)) before →
    ∃ pieces n rel rest,
      strings.Split
        ((if lead then " " else EmptyString)
         +:+ format_links (before ++ (u, next_rel quoted) :: after)) comma
      = pieces ++ directive n u rel :: rest
      ∧ is_rel_next rel
      ∧ Forall no_next_directive pieces.
Proof.
  intros Hu before.
  destruct (link_value_directive u quoted) as (rel & Hrel & E0 & E1).
  induction before as [|b before IH]; intros lead Hgood.
  - cbn [app].
    assert (Hpost : ∃ post, format_links ((u, next_rel quoted) :: after)
                            = link_value (u, next_rel quoted) +:+ post
                            ∧ (post = EmptyString
                               ∨ ∃ post', post = "," +:+ post')).
    { destruct after as [|a after].
      - exists EmptyString. split; [ | now left ].
        unfold format_links. cbn. now rewrite append_nil_r.
      - exists (", " +:+ format_links (a :: after)). split; [ reflexivity | ].
        right. now exists (" " +:+ format_links (a :: after)). }
    destruct Hpost as (post & -> & Hpost).
    exists [], (if lead then 1%nat else 0%nat), rel.
    destruct lead.
    + rewrite <- append_assoc, E1.
      destruct (Split_directive 1 u rel post Hrel Hu Hpost) as [rest ->].
      exists rest. repeat split; [ done | constructor ].
    + cbn [append]. rewrite E0.
      destruct (Split_directive 0 u rel post Hrel Hu Hpost) as [rest ->].
      exists rest. repeat split; [ done | constructor ].
  - apply Forall_cons in Hgood as [[Hcomma Hno] Hgood].
    destruct (IH true Hgood) as (pieces & n & rel' & rest & Hsplit & Hrel' & Hp).
    cbv iota in Hsplit.
    cbn [app]. rewrite format_links_cons by (now destruct before).
    rewrite <- append_assoc, Split_append_sep, Hsplit.
    exists (((if lead then " " else EmptyString) +:+ link_value b) :: pieces),
      n, rel', rest.
    split; [ | split; [ done | ] ].
    + rewrite Split_no_sep; [ reflexivity | ].
      destruct lead; cbn [append has_byte]; [ | exact Hcomma ].
      now rewrite Hcomma.
    + constructor; [ | exact Hp ].
      destruct lead; [ now apply no_next_directive_space | exact Hno ].
Qed.

(** X16. Formatting a Link header from its directives and scanning it gives
    back the target of the first "next" directive, quoted or not, when the
    directives before it have no comma and do not mention the relation and
    the target has no comma and no closing angle bracket. *)
Theorem link_header_round_trip (before after : list (string * string))
    (u : string) (quoted : bool) :
  has_byte comma u = false →
  has_byte ">" u = false →
  Forall (λ e, has_byte comma (link_value e) = false
               ∧ no_next_directive (link_value e)) before →
  nextURL_of (format_links (before ++ (u, next_rel quoted) :: after)) = u.
Proof.
  intros Hc Hgt Hgood.
  destruct (Split_format_links u quoted after Hc before false Hgood)
    as (pieces & n & rel & rest & Hsplit & Hrel & Hp).
  cbn [append] in Hsplit.
  unfold nextURL_of. rewrite Hsplit, scanLinks_skip.
  - now apply scanLinks_hit.
  - intros l Hl. eapply Forall_forall in Hp; eassumption.
Qed.

End LinkRoundTrip.

Section TerraformFacts.

Variable json_Marshal : GoValue -> string.
Variable json_Unmarshal_apiResponse : string -> option (list (gmap string Any)).
Variable json_Unmarshal_directData : string -> option (list (gmap string Any)).
Variable newRequestError : string -> string -> option error.
Variable strconv_Quote : string -> string.
Variable schema_convert : string -> Any -> error + string.

#[local] Abbreviation find := (findSite strconv_Quote).
#[local] Abbreviation dataRead :=
  (dataSourceSecureConnectSiteRead json_Unmarshal_apiResponse
     json_Unmarshal_directData newRequestError strconv_Quote schema_convert).
#[local] Abbreviation List :=
  (GetSecureConnectSites json_Unmarshal_apiResponse json_Unmarshal_directData
     newRequestError).

Lemma findSite_found (siteName : string) (sites : list (gmap string Any))
    (found : gmap string Any) :
  find siteName sites (Some found)
  = match List.filter (named siteName) sites with
    | [] => inr (Some found)
    | _ :: _ => inl (errMultiple strconv_Quote siteName)
    end.
Proof.
  induction sites as [|site sites IH]; [ reflexivity | ].
  cbn [findSite List.filter]. unfold named at 1.
  destruct (index site "name") as [| | |name| |]; try exact IH.
  destruct (String.eqb name siteName); [ reflexivity | exact IH ].
Qed.

Lemma findSite_filter (siteName : string) (sites : list (gmap string Any)) :
  find siteName sites None
  = match List.filter (named siteName) sites with
    | [] => inr None
    | [site] => inr (Some site)
    | _ :: _ :: _ => inl (errMultiple strconv_Quote siteName)
    end.
Proof.
  induction sites as [|site sites IH]; [ reflexivity | ].
  cbn [findSite List.filter]. unfold named at 1.
  destruct (index site "name") as [| | |name| |]; try exact IH.
  destruct (String.eqb name siteName); [ | exact IH ].
  rewrite findSite_found. now destruct (List.filter _ sites).
Qed.

(** X17. The search of the data source, by the sites that carry the name as a
    string: none, not found; one, that site; two or more, the "multiple
    sites" error. Sites without a string name never count. *)
Theorem findSite_unique_match (siteName : string)
    (sites : list (gmap string Any)) :
  (find siteName sites None = inr None
   ↔ List.filter (named siteName) sites = [])
  ∧ (∀ site, find siteName sites None = inr (Some site)
             ↔ List.filter (named siteName) sites = [site])
  ∧ (find siteName sites None = inl (errMultiple strconv_Quote siteName)
     ↔ (2 <= length (List.filter (named siteName) sites))%nat)
  ∧ (∀ msg, find siteName sites None = inl msg →
            msg = errMultiple strconv_Quote siteName).
Proof.
  rewrite findSite_filter.
  destruct (List.filter (named siteName) sites) as [|s1 [|s2 l]];
    cbn [length].
  all: repeat split; try done; try lia; try congruence.
Qed.

(** X18. The data source read succeeds exactly when the listing succeeds,
    one site carries the name, its [id] is a string and the two attribute
    writes are accepted; the resource ID is then that [id]. *)
Theorem data_source_read_succeeds_iff (pages fuel : nat)
    (client : MerakiClient) (ctx : Context) (d d' : ResourceData)
    (w w' : World) :
  dataRead pages fuel client ctx d w = Ok ([], d') w'
  ↔ ∃ sites site id s1 s2,
      List pages fuel client ctx (Get d "organization_id") w
      = Ok (sites, None) w'
      ∧ List.filter (named (Get d "site_name")) sites = [site]
      ∧ index site "id" = AnyString id
      ∧ schema_convert "id" (AnyString id) = inr s1
      ∧ schema_convert "region" (index site "region") = inr s2
      ∧ d' = mkData (attributes d)
               (<["region" := s2]> (<["id" := s1]> (written d))) id.
Proof.
  unfold dataSourceSecureConnectSiteRead. split.
  - destruct (GetSecureConnectSites _ _ _ _ _ _ _ _ _)
      as [[sites [err|]] w1|w1|]; try discriminate.
    rewrite findSite_filter.
    destruct (List.filter _ sites) as [|site [|s2 l]] eqn:Hf; try discriminate.
    unfold Set_.
    destruct (schema_convert "id" _) as [e|s1] eqn:H1; [ discriminate | ].
    destruct (schema_convert "region" _) as [e|s2] eqn:H2; [ discriminate | ].
    cbn [attributes written dataId].
    destruct (index site "id") as [| | |id| |] eqn:Hid; try discriminate.
    intros [= <- <-]. exists sites, site, id, s1, s2. repeat split; done.
  - intros (sites & site & id & s1 & s2 & -> & Hf & Hid & H1 & H2 & ->).
    rewrite findSite_filter, Hf. unfold Set_. rewrite Hid, H1, H2.
    reflexivity.
Qed.

(** X19. The resource ID follows the outcome of the API call: create sets it
    to [orgID:siteID] and delete clears it only after an answer below 300;
    when the call fails its error is the one diagnostic and the data is
    left as it was. *)
Theorem resource_id_follows_outcome (fuel : nat) (client : MerakiClient)
    (ctx : Context) (d d' : ResourceData) (w w' : World)
    (diags : Diagnostics) :
  let orgID := Get d "organization_id" in
  let siteID := Get d "site_id" in
  (resourceSecureConnectSiteCreate json_Marshal newRequestError fuel client
     ctx d w = Ok (diags, d') w' →
   (diags = []
    ∧ d' = SetId d (orgID +:+ ":" +:+ siteID)
    ∧ request_outcome client ctx
        (create_request json_Marshal client orgID siteID
           (Get d "region_type") (Get d "region_id") (Get d "region_name"))
        "create failed: " w w' None)
   ∨ (∃ err, diags = [err] ∧ d' = d))
  ∧ (resourceSecureConnectSiteDelete json_Marshal newRequestError fuel client
       ctx d w = Ok (diags, d') w' →
     (diags = []
      ∧ d' = SetId d EmptyString
      ∧ request_outcome client ctx
          (delete_request json_Marshal client orgID siteID)
          "delete failed: " w w' None)
     ∨ (∃ err, diags = [err] ∧ d' = d)).
Proof.
  intros orgID siteID. split.
  - unfold resourceSecureConnectSiteCreate. fold orgID siteID.
    destruct (CreateSecureConnectSite _ _ _ _ _ _ _ _ _ _ _)
      as [[err|] w1|w1|] eqn:Hrun; try discriminate.
    + intros [= <- <- <-]. right. now exists err.
    + unfold resourceSecureConnectSiteRead. intros [= <- <- <-]. left.
      pose proof (create_outcome _ _ _ _ _ _ _ _ _ _ _ _ _ Hrun) as H.
      destruct (newRequestError _ _); [ now destruct H | ].
      repeat split; done.
  - unfold resourceSecureConnectSiteDelete. fold orgID siteID.
    destruct (DeleteSecureConnectSites _ _ _ _ _ _ _ _)
      as [[err|] w1|w1|] eqn:Hrun; try discriminate.
    + intros [= <- <- <-]. right. now exists err.
    + intros [= <- <- <-]. left.
      pose proof (delete_outcome _ _ _ _ _ _ _ _ _ _ Hrun) as H.
      destruct (newRequestError _ _); [ now destruct H | ].
      repeat split; done.
Qed.

(** X20. The client the provider configures has the key and base URL of the
    configuration and the default budget of three retries: no request is
    attempted more than four times. *)
Theorem provider_client_budget
    (transport : nat -> Request -> error + Response) (d : ResourceData) :
  let client := (providerConfigure transport d).1 in
  apiKey client = Get d "api_key"
  ∧ baseURL client = Get d "base_url"
  ∧ (providerConfigure transport d).2 = []
  ∧ ∀ (ctx : Context) (req : Request) (w : World) (fuel : nat),
      (4 < fuel)%nat →
      ∃ res e w' n,
        doRequestWithRetry fuel client ctx req w = Ok (res, e) w'
        ∧ sent w' = sent w ++ replicate n req
        ∧ (n <= 4)%nat.
Proof.
  intros client. repeat split.
  intros ctx req w fuel Hfuel. unfold doRequestWithRetry.
  apply (retryLoop_terminates client ctx req 4 fuel 0 None w);
    [ reflexivity | reflexivity | exact Hfuel ].
Qed.

End TerraformFacts.

(** ** The further properties on concrete runs *)

(** Two 503 answers, then the connection fails: three calls, the error. *)
Lemma transport_error_not_retried_witness :
  doRequestWithRetry 4 (Scenario.client (Scenario.failing 2) 3)
    Scenario.background Scenario.probe world0
  = Ok (None, Some "dial tcp: connection refused")
       (mkWorld (replicate 3 Scenario.probe) [0; 1]%nat [0; 1]).
Proof.
  refine (transport_error_not_retried (Scenario.client (Scenario.failing 2) 3)
            Scenario.background Scenario.probe 2 4 world0
            "dial tcp: connection refused" _ _ _ _ _).
  - cbn. unfold max_int. lia.
  - intros j _. reflexivity.
  - intros k Hk. exists Scenario.unavailable. split; [ | reflexivity ].
    cbn. unfold Scenario.flaky, Scenario.failing.
    destruct (Nat.ltb_spec k 2); [ reflexivity | lia ].
  - reflexivity.
  - lia.
Defined.

(** A 404 on the first attempt comes back at once, readable, whatever the
    budget. *)
Lemma final_status_returned_at_once_witness :
  doRequestWithRetry 1 (Scenario.client (Scenario.always Scenario.notFound) 3)
    Scenario.background Scenario.probe world0
  = Ok (Some (received 0 Scenario.notFound), None)
       (mkWorld [Scenario.probe] [] [])
  ∧ ReadAll (received 0 Scenario.notFound) (mkWorld [Scenario.probe] [] [])
    = inr "no such organization".
Proof.
  refine (final_status_returned_at_once
            (Scenario.client (Scenario.always Scenario.notFound) 3)
            Scenario.background Scenario.probe 0 1 world0 Scenario.notFound
            _ _ _ _ _ _ _).
  - cbn. unfold max_int. lia.
  - intros j Hj. lia.
  - intros k Hk. lia.
  - reflexivity.
  - reflexivity.
  - lia.
  - intros k Hk. cbn in Hk. apply elem_of_nil in Hk. destruct Hk.
Defined.

(** The caller cancels during the second wait: two calls, both bodies
    closed, the context's error. *)
Lemma cancelled_during_backoff_witness :
  doRequestWithRetry 4 (Scenario.client Scenario.throttled 3)
    (Scenario.cancelledFrom 2) Scenario.probe world0
  = Ok (None, Some "context canceled")
       (mkWorld (replicate 2 Scenario.probe) [0; 1]%nat [0; 1]).
Proof.
  refine (cancelled_during_backoff (Scenario.client Scenario.throttled 3)
            (Scenario.cancelledFrom 2) Scenario.probe 1 4 world0 _ _ _ _ _).
  - cbn. unfold max_int. lia.
  - intros j Hj. cbn in Hj. assert (j = 1%nat) as -> by lia. reflexivity.
  - intros k _. exists Scenario.throttledResponse. split; reflexivity.
  - reflexivity.
  - lia.
Defined.

(** Three retries configured: at most four calls, whatever is answered. *)
Lemma attempts_bounded_witness :
  ∃ res e w' n,
    doRequestWithRetry 5 (Scenario.client Scenario.throttled 3)
      Scenario.background Scenario.probe world0
    = Ok (res, e) w'
    ∧ sent w' = replicate n Scenario.probe
    ∧ (n <= 4)%nat.
Proof.
  refine (attempts_bounded (Scenario.client Scenario.throttled 3)
            Scenario.background Scenario.probe 5 world0 _ _).
  - cbn. unfold max_int. lia.
  - cbn. lia.
Defined.

(** 503 three times, then 200: the three 503 bodies are closed, the 200 is
    handed back open. *)
Lemma discarded_bodies_released_witness :
  (∀ j r, (0 <= j < 4)%nat →
          Scenario.flaky 3 j Scenario.probe = inr r →
          j ∈ [0; 1; 2]%nat
          ∨ (Some (received 3 Scenario.fine) = Some (received j r)
             ∧ @None error = None
             ∧ retriable (StatusCode r) = false))
  ∧ (∀ j, j ∈ [0; 1; 2]%nat → j ∈ @nil nat ∨ (0 <= j < 4)%nat).
Proof.
  assert (Hrun : doRequestWithRetry 4 (Scenario.client (Scenario.flaky 3) 3)
                   Scenario.background Scenario.probe world0
                 = Ok (Some (received 3 Scenario.fine), None)
                      (mkWorld (replicate 4 Scenario.probe) [0; 1; 2]%nat
                         [0; 1; 2]))
    by (vm_compute; reflexivity).
  exact (discarded_bodies_released (Scenario.client (Scenario.flaky 3) 3)
           Scenario.background Scenario.probe 4 world0
           (mkWorld (replicate 4 Scenario.probe) [0; 1; 2]%nat [0; 1; 2])
           (Some (received 3 Scenario.fine)) None Hrun).
Defined.

(** A 304 on the first attempt is retried; the 200 that follows ends the
    run. *)
Lemma retried_statuses_witness :
  ∃ res e w' n,
    doRequestWithRetry 5
      (Scenario.client
         (fun k _ => if (k <? 1)%nat
                     then inr (Scenario.response 304 "304 Not Modified"
                                 EmptyString)
                     else inr Scenario.fine) 3)
      Scenario.background Scenario.probe world0
    = Ok (res, e) w'
    ∧ sent w' = replicate (S n) Scenario.probe
    ∧ ((0 < n)%nat ↔ 300 <= 304 < 400 ∨ 304 = 429 ∨ 500 <= 304).
Proof.
  refine (retried_statuses
            (Scenario.client
               (fun k _ => if (k <? 1)%nat
                           then inr (Scenario.response 304 "304 Not Modified"
                                       EmptyString)
                           else inr Scenario.fine) 3)
            Scenario.background Scenario.probe 5 world0
            (Scenario.response 304 "304 Not Modified" EmptyString) _ _ _ _).
  - cbn. unfold max_int. lia.
  - reflexivity.
  - reflexivity.
  - cbn. lia.
Defined.

(** The second page is gone: the error is of the "bad response" form. *)
Lemma list_error_forms_witness :
  GetSecureConnectSites Scenario.wrapped Scenario.direct Scenario.anyURL 2 1
    (Scenario.client Scenario.brokenPager 3) Scenario.background "org1" world0
  = Ok ([], Some "bad response (404): no such organization")
       (mkWorld
          [get_request (Scenario.client Scenario.brokenPager 3)
             Scenario.firstURL;
           get_request (Scenario.client Scenario.brokenPager 3)
             Scenario.secondURL]
          [1; 0]%nat [])
  ∧ ((∃ u e, Scenario.anyURL "GET" u = Some e
             ∧ "bad response (404): no such organization"
               = "creating request: " +:+ e)
     ∨ "bad response (404): no such organization"
       = "sending request: " +:+ Err Scenario.background
     ∨ (∃ j rq e, Scenario.brokenPager j rq = inl e
                  ∧ "bad response (404): no such organization"
                    = "sending request: " +:+ e)
     ∨ (∃ e, "bad response (404): no such organization"
             = "reading response: " +:+ e)
     ∨ (∃ code body, code ≠ 200
                     ∧ "bad response (404): no such organization"
                       = "bad response (" +:+ pretty code +:+ "): " +:+ body)
     ∨ "bad response (404): no such organization" = errFormat).
Proof.
  assert (H : GetSecureConnectSites Scenario.wrapped Scenario.direct
                Scenario.anyURL 2 1 (Scenario.client Scenario.brokenPager 3)
                Scenario.background "org1" world0
              = Ok ([], Some "bad response (404): no such organization")
                   (mkWorld
                      [get_request (Scenario.client Scenario.brokenPager 3)
                         Scenario.firstURL;
                       get_request (Scenario.client Scenario.brokenPager 3)
                         Scenario.secondURL]
                      [1; 0]%nat []))
    by (vm_compute; reflexivity).
  split; [ exact H | ].
  unfold GetSecureConnectSites in H.
  exact (list_error_forms _ _ _ _ _ _ _ _ _ _ _ _ _ _ H).
Defined.

(** A 204 is a success for the executor and an error for the list. *)
Lemma list_needs_status_200_witness :
  GetSecureConnectSites Scenario.wrapped Scenario.direct Scenario.anyURL 1 1
    (Scenario.client (Scenario.always Scenario.noContent) 3)
    Scenario.background "org1" world0
  = Ok ([], Some "bad response (204): ")
       (mkWorld
          [get_request (Scenario.client (Scenario.always Scenario.noContent) 3)
             Scenario.firstURL]
          [0%nat] []).
Proof.
  refine (list_needs_status_200 Scenario.wrapped Scenario.direct
            Scenario.anyURL 0 0
            (Scenario.client (Scenario.always Scenario.noContent) 3)
            Scenario.background Scenario.firstURL EmptyString [] [] world0
            Scenario.noContent _ _ _ _ _ _ _).
  - cbn. lia.
  - intros k Hk. cbn in Hk. apply elem_of_nil in Hk. destruct Hk.
  - reflexivity.
  - reflexivity.
  - reflexivity.
  - cbn. lia.
  - reflexivity.
Defined.

(** One retry configured, 503 throughout: two calls, then the closed body
    is read. With answers that have a body on the connection the read
    fails; with answers without content the status is reported. *)
Lemma list_after_exhaustion_reads_closed_body_witness :
  (∃ r w',
     httpClient (Scenario.client (Scenario.always Scenario.unavailable) 1) 1
       (get_request (Scenario.client (Scenario.always Scenario.unavailable) 1)
          Scenario.firstURL) = inr r
     ∧ listLoop Scenario.wrapped Scenario.direct Scenario.anyURL 1 3
         (Scenario.client (Scenario.always Scenario.unavailable) 1)
         Scenario.background Scenario.firstURL [] [] world0
       = Ok ([], Some (match closedRead (Body r) with
                       | inl e => "reading response: " +:+ e
                       | inr data =>
                           "bad response (" +:+ pretty (StatusCode r) +:+ "): "
                           +:+ data
                       end)) w'
     ∧ sent w'
       = replicate 2
           (get_request
              (Scenario.client (Scenario.always Scenario.unavailable) 1)
              Scenario.firstURL))
  ∧ listLoop Scenario.wrapped Scenario.direct Scenario.anyURL 1 3
      (Scenario.client (Scenario.always Scenario.unavailable) 1)
      Scenario.background Scenario.firstURL [] [] world0
    = Ok ([], Some "reading response: http: read on closed response body")
         (mkWorld
            (replicate 2
               (get_request
                  (Scenario.client (Scenario.always Scenario.unavailable) 1)
                  Scenario.firstURL))
            [0; 1; 1]%nat [0])
  ∧ listLoop Scenario.wrapped Scenario.direct Scenario.anyURL 1 3
      (Scenario.client (Scenario.always Scenario.emptyUnavailable) 1)
      Scenario.background Scenario.firstURL [] [] world0
    = Ok ([], Some "bad response (503): ")
         (mkWorld
            (replicate 2
               (get_request
                  (Scenario.client (Scenario.always Scenario.emptyUnavailable) 1)
                  Scenario.firstURL))
            [0; 1; 1]%nat [0]).
Proof.
  split; [ | split; vm_compute; reflexivity ].
  refine (list_after_exhaustion_reads_closed_body Scenario.wrapped
            Scenario.direct Scenario.anyURL 0 3
            (Scenario.client (Scenario.always Scenario.unavailable) 1)
            Scenario.background Scenario.firstURL [] [] world0 _ _ _ _ _).
  - cbn. unfold max_int. lia.
  - intros k. reflexivity.
  - reflexivity.
  - intros k _. exists Scenario.unavailable. split; reflexivity.
  - cbn. lia.
Defined.

(** A delete answered 204: one request, a DELETE that carries the
    one-element list. *)
Lemma requests_of_the_operations_witness :
  ∃ rq,
    DeleteSecureConnectSites Scenario.encode Scenario.anyURL 1
      (Scenario.client (Scenario.always Scenario.noContent) 3)
      Scenario.background "org1" "N_1" world0
    = Ok None (mkWorld [rq] [0%nat] [])
    ∧ Method rq = "DELETE"
    ∧ ReqBody rq = Some (Scenario.text "{'sites':['N_1']}").
Proof.
  pose proof (requests_of_the_operations (SiteRecord := nat) Scenario.encode
                Scenario.wrapped Scenario.direct Scenario.anyURL 1 1
                (Scenario.client (Scenario.always Scenario.noContent) 3)
                Scenario.background
                "org1" "N_1" "CNHE" EmptyString EmptyString world0) as H.
  cbv zeta in H. destruct H as (_ & Hall & Hfirst & _).
  specialize (Hfirst eq_refl ltac:(cbn; lia)).
  assert (E : DeleteSecureConnectSites Scenario.encode Scenario.anyURL 1
                (Scenario.client (Scenario.always Scenario.noContent) 3)
                Scenario.background "org1" "N_1" world0
              = Ok None
                  (mkWorld
                     [delete_request Scenario.encode
                        (Scenario.client (Scenario.always Scenario.noContent) 3)
                        "org1" "N_1"]
                     [0%nat] []))
    by (vm_compute; reflexivity).
  rewrite E in Hall, Hfirst.
  destruct Hfirst as (rq & rest & Hsent & Hb).
  cbn [sent world0 app] in Hsent. injection Hsent as <- <-.
  eexists. split; [ exact E | ].
  apply Forall_cons in Hall as [(Hm & _) _].
  split; [ exact Hm | ].
  rewrite Hb. vm_compute. reflexivity.
Defined.

(** 400 sites and a "next" link: the link is not followed. *)
Lemma short_page_is_last_witness :
  GetSecureConnectSites Scenario.wrapped Scenario.direct Scenario.anyURL 2 1
    (Scenario.client Scenario.shortPage 3) Scenario.background "org1" world0
  = Ok (Scenario.page3, None)
       (mkWorld
          [get_request (Scenario.client Scenario.shortPage 3)
             Scenario.firstURL]
          [0%nat] []).
Proof.
  refine (short_page_is_last Scenario.wrapped Scenario.direct
            Scenario.anyURL 1 1 (Scenario.client Scenario.shortPage 3)
            Scenario.background Scenario.firstURL [] Scenario.page3 [] world0
            (mkWorld
               [get_request (Scenario.client Scenario.shortPage 3)
                  Scenario.firstURL] [] [])
            (received 0
               (Scenario.page (Scenario.next_link Scenario.secondURL)
                  "{data: sites 2000..2399}"))
            "{data: sites 2000..2399}" _ _ _ _ _ _); try reflexivity.
  cbn. lia.
Defined.

(** One page of 1000 sites and no Link header. *)
Lemma single_page_listed_witness :
  GetSecureConnectSites Scenario.wrapped Scenario.direct Scenario.anyURL 1 1
    (Scenario.client Scenario.singlePage 3) Scenario.background "org1" world0
  = Ok (Scenario.page1, None)
       (mkWorld
          [get_request (Scenario.client Scenario.singlePage 3)
             Scenario.firstURL]
          [0%nat] []).
Proof.
  refine (single_page_listed Scenario.wrapped Scenario.direct Scenario.anyURL
            1 1 (Scenario.client Scenario.singlePage 3) Scenario.background
            "org1" "{data: sites 0..999}" EmptyString Scenario.page1 world0
            _ _ _ _ _ _ _ _).
  - cbn. lia.
  - lia.
  - lia.
  - intros k Hk. cbn in Hk. apply elem_of_nil in Hk. destruct Hk.
  - reflexivity.
  - exists (Scenario.page EmptyString "{data: sites 0..999}").
    repeat split; reflexivity.
  - split; reflexivity.
  - reflexivity.
Defined.

(** Two full pages that name each other as next: the listing goes round
    and round. *)
Lemma endless_pages_never_return_witness :
  GetSecureConnectSites Scenario.wrapped Scenario.direct Scenario.anyURL 50 1
    (Scenario.client Scenario.pingPong 3) Scenario.background "org1" world0
  = OutOfFuel.
Proof.
  refine (endless_pages_never_return Scenario.wrapped Scenario.direct
            Scenario.anyURL (Scenario.client Scenario.pingPong 3)
            Scenario.background
            (λ u, u = Scenario.firstURL ∨ u = Scenario.secondURL)
            _ _ "org1" _ 50%nat 1%nat world0 _).
  - cbn. lia.
  - intros url [-> | ->].
    + split; [ reflexivity | ]. intros k.
      exists "{data: sites 0..999}", (Scenario.next_link Scenario.secondURL),
             Scenario.page1.
      split; [ | split; [ reflexivity | split; [ cbn; lia | ] ] ].
      * exists (Scenario.page (Scenario.next_link Scenario.secondURL)
                  "{data: sites 0..999}").
        repeat split; reflexivity.
      * split; [ intros H; vm_compute in H; discriminate H | ].
        right. vm_compute. reflexivity.
    + split; [ reflexivity | ]. intros k.
      exists "{data: sites 1000..1999}",
             (Scenario.next_link Scenario.firstURL), Scenario.page2.
      split; [ | split; [ reflexivity | split; [ cbn; lia | ] ] ].
      * exists (Scenario.page (Scenario.next_link Scenario.firstURL)
                  "{data: sites 1000..1999}").
        repeat split; reflexivity.
      * split; [ intros H; vm_compute in H; discriminate H | ].
        left. vm_compute. reflexivity.
  - left. reflexivity.
  - intros k Hk. cbn in Hk. apply elem_of_nil in Hk. destruct Hk.
Defined.

(** A header as the API sends it: first, next, last. *)
Lemma link_header_round_trip_witness :
  nextURL_of
    (format_links [("https://h/s?p=1", "first"); ("https://h/s?p=3", "next");
                   ("https://h/s?p=9", "last")])
  = "https://h/s?p=3".
Proof.
  refine (link_header_round_trip [("https://h/s?p=1", "first")]
            [("https://h/s?p=9", "last")] "https://h/s?p=3" false _ _ _).
  - reflexivity.
  - reflexivity.
  - repeat constructor.
Defined.

(** The inventory has one "lyon", two "paris", and a site whose name is a
    number. *)
Example findSite_inventory :
  findSite Scenario.quote "lyon" Scenario.inventory None
  = inr (Some (Scenario.site "N_2" "lyon" "eu-west"))
  ∧ findSite Scenario.quote "paris" Scenario.inventory None
    = inl (errMultiple Scenario.quote "paris")
  ∧ findSite Scenario.quote "nice" Scenario.inventory None = inr None
  ∧ findSite Scenario.quote EmptyString Scenario.inventory None = inr None.
Proof. repeat split; vm_compute; reflexivity. Qed.

(** Reading the data source for "lyon": the site's id becomes the ID. *)
Lemma data_source_read_succeeds_iff_witness :
  dataSourceSecureConnectSiteRead Scenario.sitesWrapped Scenario.sitesDirect
    Scenario.anyURL Scenario.quote Scenario.convert 1 1
    (Scenario.client Scenario.inventoryServer 3) Scenario.background
    (Scenario.config [("organization_id", "org1"); ("site_name", "lyon")])
    world0
  = Ok ([],
        mkData
          (list_to_map [("organization_id", "org1"); ("site_name", "lyon")])
          (<["region" := "eu-west"]> (<["id" := "N_2"]> ∅)) "N_2")
       (mkWorld
          [get_request (Scenario.client Scenario.inventoryServer 3)
             Scenario.firstURL]
          [0%nat] []).
Proof.
  apply (proj2
           (data_source_read_succeeds_iff Scenario.sitesWrapped
              Scenario.sitesDirect Scenario.anyURL Scenario.quote
              Scenario.convert 1 1
              (Scenario.client Scenario.inventoryServer 3) Scenario.background
              (Scenario.config
                 [("organization_id", "org1"); ("site_name", "lyon")])
              _ world0 _)).
  exists Scenario.inventory, (Scenario.site "N_2" "lyon" "eu-west"), "N_2",
    "N_2", "eu-west".
  repeat split; vm_compute; reflexivity.
Defined.

(** A create answered 404: one diagnostic, no ID. *)
Lemma resource_id_follows_outcome_witness :
  resourceSecureConnectSiteCreate Scenario.encode Scenario.anyURL 1
    (Scenario.client (Scenario.always Scenario.notFound) 3)
    Scenario.background
    (Scenario.config [("organization_id", "org1"); ("site_id", "N_1");
                      ("region_type", "CNHE")])
    world0
  = Ok (["create failed: 404 Not Found"],
        Scenario.config [("organization_id", "org1"); ("site_id", "N_1");
                         ("region_type", "CNHE")])
       (mkWorld
          [create_request Scenario.encode
             (Scenario.client (Scenario.always Scenario.notFound) 3)
             "org1" "N_1" "CNHE" EmptyString EmptyString]
          [0%nat] [])
  ∧ ∃ err, ["create failed: 404 Not Found"] = [err].
Proof.
  assert (H : resourceSecureConnectSiteCreate Scenario.encode Scenario.anyURL 1
                (Scenario.client (Scenario.always Scenario.notFound) 3)
                Scenario.background
                (Scenario.config
                   [("organization_id", "org1"); ("site_id", "N_1");
                    ("region_type", "CNHE")])
                world0
              = Ok (["create failed: 404 Not Found"],
                    Scenario.config
                      [("organization_id", "org1"); ("site_id", "N_1");
                       ("region_type", "CNHE")])
                   (mkWorld
                      [create_request Scenario.encode
                         (Scenario.client (Scenario.always Scenario.notFound) 3)
                         "org1" "N_1" "CNHE" EmptyString EmptyString]
                      [0%nat] []))
    by (vm_compute; reflexivity).
  split; [ exact H | ].
  destruct (proj1 (resource_id_follows_outcome Scenario.encode Scenario.anyURL
                     1 _ _ _ _ _ _ _) H) as [[Hbad _] | (err & Herr & _)].
  - discriminate Hbad.
  - now exists err.
Defined.

(** ** What a successful listing is made of *)

Section FinalAnswer.

Variables (c : MerakiClient) (ctx : Context) (req : Request).

(** A response with a final status that leaves the loop is the transport's
    answer to the last call; the calls before it were answered with
    retriable statuses and their bodies are the ones closed. *)
Lemma retryLoop_final (fuel : nat) :
  ∀ (a : Z) (resp0 : option Response) (w w' : World) (resp : Response),
    retryLoop fuel c ctx req a resp0 w = Ok (Some resp, None) w' →
    retriable (StatusCode resp) = false →
    (resp0 = Some resp ∧ w' = w)
    ∨ ∃ n r,
        sent w' = sent w ++ replicate (S n) req
        ∧ closed w' = closed w ++ seq (length (sent w)) n
        ∧ httpClient c (length (sent w) + n) req = inr r
        ∧ resp = received (length (sent w) + n) r
        ∧ ∀ k, (k < n)%nat →
               ∃ rk, httpClient c (length (sent w) + k) req = inr rk
                     ∧ retriable (StatusCode rk) = true.
Proof.
  induction fuel as [|fuel IH]; intros a resp0 w w' resp Hrun Hs;
    [ discriminate | ].
  cbn [retryLoop] in Hrun.
  destruct (a <=? maxRetries c);
    [ | injection Hrun as -> ->; now left ].
  unfold Do in Hrun.
  destruct (httpClient c (length (sent w)) req) as [e|r] eqn:Hr;
    [ discriminate | ].
  cbn [StatusCode received] in Hrun.
  assert (Hnow : Ok (Some (received (length (sent w)) r), @None error)
                   (mkWorld (sent w ++ [req]) (closed w) (waits w))
                 = Ok (Some resp, None) w' →
                 ∃ n r0,
                   sent w' = sent w ++ replicate (S n) req
                   ∧ closed w' = closed w ++ seq (length (sent w)) n
                   ∧ httpClient c (length (sent w) + n) req = inr r0
                   ∧ resp = received (length (sent w) + n) r0
                   ∧ ∀ k, (k < n)%nat →
                          ∃ rk, httpClient c (length (sent w) + k) req = inr rk
                                ∧ retriable (StatusCode rk) = true).
  { intros [= <- <-]. exists 0%nat, r. cbn. rewrite app_nil_r, Nat.add_0_r.
    repeat split; try done. intros k Hk. lia. }
  assert (Hrec : ∀ ws,
             retriable (StatusCode r) = true →
             retryLoop fuel c ctx req (int_succ a)
               (Some (received (length (sent w)) r))
               (mkWorld (sent w ++ [req]) (closed w ++ [length (sent w)]) ws)
             = Ok (Some resp, None) w' →
             ∃ n r0,
               sent w' = sent w ++ replicate (S n) req
               ∧ closed w' = closed w ++ seq (length (sent w)) n
               ∧ httpClient c (length (sent w) + n) req = inr r0
               ∧ resp = received (length (sent w) + n) r0
               ∧ ∀ k, (k < n)%nat →
                      ∃ rk, httpClient c (length (sent w) + k) req = inr rk
                            ∧ retriable (StatusCode rk) = true).
  { intros ws Hretr Hrun1.
    destruct (IH _ _ _ _ _ Hrun1 Hs) as [[[= <-] _] | (n & r0 & A & B & C & D & E)].
    { cbn [StatusCode received] in Hs. congruence. }
    cbn [sent closed] in A, B, C, D, E. rewrite length_app in C, D, E, B.
    cbn [length] in C, D, E, B.
    exists (S n), r0. split; [ | split; [ | split; [ | split ] ] ].
    - rewrite A, <- app_assoc. reflexivity.
    - rewrite B, <- app_assoc. cbn [seq app].
      replace (length (sent w) + 1)%nat with (S (length (sent w))) by lia.
      reflexivity.
    - rewrite <- C. f_equal. lia.
    - rewrite D. f_equal. lia.
    - intros k Hk. destruct k as [|k].
      + exists r. rewrite Nat.add_0_r. split; [ exact Hr | exact Hretr ].
      + destruct (E k ltac:(lia)) as (rk & Hrk & Hsk).
        exists rk. split; [ | exact Hsk ]. rewrite <- Hrk. f_equal. lia. }
  destruct (StatusCode r <? 300) eqn:E1; [ now right; apply Hnow | ].
  destruct ((StatusCode r >=? 400) && (StatusCode r <? 500)
            && negb (StatusCode r =? 429)) eqn:E2; [ now right; apply Hnow | ].
  assert (Hretr : retriable (StatusCode r) = true)
    by (unfold retriable; now rewrite E1, E2).
  destruct (a <? maxRetries c).
  - destruct (Done ctx _); [ discriminate | ].
    right. eapply Hrec; [ exact Hretr | exact Hrun ].
  - right. eapply Hrec; [ exact Hretr | exact Hrun ].
Qed.

End FinalAnswer.

Section ListResult.

Context {SiteRecord : Type}.
Variable json_Unmarshal_apiResponse : string -> option (list SiteRecord).
Variable json_Unmarshal_directData : string -> option (list SiteRecord).
Variable newRequestError : string -> string -> option error.

#[local] Abbreviation decode :=
  (decodePage json_Unmarshal_apiResponse json_Unmarshal_directData).
#[local] Abbreviation loop :=
  (listLoop json_Unmarshal_apiResponse json_Unmarshal_directData
     newRequestError).

Lemma pages_answered_add (c : MerakiClient) (log : list Request) (n m : nat) :
  ∀ k0, pages_answered c log k0 (n + m)
        = pages_answered c log k0 n ++ pages_answered c log (k0 + n) m.
Proof.
  induction n as [|n IH]; intros k0; cbn [pages_answered Nat.add app].
  - now rewrite Nat.add_0_r.
  - rewrite IH, <- app_assoc. do 3 f_equal. lia.
Qed.

Lemma pages_answered_prefix (c : MerakiClient) (log more : list Request)
    (n : nat) :
  ∀ k0, (k0 + n <= length log)%nat →
        pages_answered c (log ++ more) k0 n = pages_answered c log k0 n.
Proof.
  induction n as [|n IH]; intros k0 Hle; [ reflexivity | ].
  cbn [pages_answered]. rewrite IH by lia. f_equal.
  unfold page_answer. now rewrite lookup_app_l by lia.
Qed.

(** The calls of one run of the executor that ended with status 200: the
    only page among their answers is the last one. *)
Lemma pages_answered_executor (c : MerakiClient) (req : Request)
    (log : list Request) (r : Response) (n : nat) :
  ∀ k0,
    (∀ k, (k < S n)%nat → log !! (k0 + k)%nat = Some req) →
    (∀ k, (k < n)%nat →
          ∃ rk, httpClient c (k0 + k) req = inr rk
                ∧ retriable (StatusCode rk) = true) →
    httpClient c (k0 + n) req = inr r →
    StatusCode r = 200 →
    pages_answered c log k0 (S n) = [r].
Proof.
  induction n as [|n IH]; intros k0 Hlog Hretried Hr H200.
  - cbn [pages_answered]. unfold page_answer.
    specialize (Hlog 0%nat ltac:(lia)). rewrite Nat.add_0_r in Hlog, Hr.
    now rewrite Hlog, Hr, H200.
  - change (pages_answered c log k0 (S (S n)))
      with (page_answer c log k0 ++ pages_answered c log (S k0) (S n)).
    rewrite (IH (S k0)).
    + unfold page_answer.
      pose proof (Hlog 0%nat ltac:(lia)) as H0. rewrite Nat.add_0_r in H0.
      destruct (Hretried 0%nat ltac:(lia)) as (r0 & Hr0 & Hs0).
      rewrite Nat.add_0_r in Hr0. rewrite H0, Hr0.
      destruct (Z.eqb_spec (StatusCode r0) 200) as [E|_]; [ | reflexivity ].
      rewrite E in Hs0. discriminate Hs0.
    + intros k Hk. rewrite <- (Hlog (S k)) by lia. f_equal. lia.
    + intros k Hk. destruct (Hretried (S k) ltac:(lia)) as (rk & Hrk & Hsk).
      exists rk. split; [ | exact Hsk ]. rewrite <- Hrk. f_equal. lia.
    + rewrite <- Hr. f_equal. lia.
    + exact H200.
Qed.

(** X21. A listing that succeeds returns what it had accumulated followed
    by the decoded pages, one for each answer with status 200 that the
    transport gave during the run, in the order of the calls: each page is
    the decoding of the body of its answer, there is at least one page, and
    every page but the last has 1000 records or more. *)
Theorem list_result_is_concatenation (pages fuel : nat) (c : MerakiClient)
    (ctx : Context) :
  ∀ (url : string) (allSites : list SiteRecord) (deferred : list Response)
    (w w' : World) (sites : list SiteRecord),
    streams_fresh w →
    loop pages fuel c ctx url allSites deferred w = Ok (sites, None) w' →
    ∃ decoded : list (list SiteRecord),
      Forall2 (λ r p, ∃ body, payload (Body r) = inr body
                              ∧ decode body = Some p)
        (pages_between c w w') decoded
      ∧ sites = allSites ++ concat decoded
      ∧ decoded ≠ []
      ∧ Forall (λ p, (1000 <= length p)%nat) (removelast decoded).
Proof.
  assert (Hgen : ∀ (url : string) (allSites : list SiteRecord)
             (deferred : list Response) (w w' : World)
             (sites : list SiteRecord),
             streams_fresh w →
             loop pages fuel c ctx url allSites deferred w
             = Ok (sites, None) w' →
             (∃ l, sent w' = sent w ++ l)
             ∧ ∃ decoded : list (list SiteRecord),
                 Forall2 (λ r p, ∃ body, payload (Body r) = inr body
                                         ∧ decode body = Some p)
                   (pages_between c w w') decoded
                 ∧ sites = allSites ++ concat decoded
                 ∧ decoded ≠ []
                 ∧ Forall (λ p, (1000 <= length p)%nat) (removelast decoded)).
  2:{ intros url allSites deferred w w' sites Hfresh H.
      now destruct (Hgen url allSites deferred w w' sites Hfresh H). }
  induction pages as [|pages' IH];
    intros url allSites deferred w w' sites Hfresh H; [ discriminate | ].
  cbn [listLoop] in H. unfold leave, NewRequestWithContext in H.
  destruct (newRequestError "GET" url); [ discriminate | ].
  fold (get_request c url) in H.
  destruct (doRequestWithRetry _ _ _ _ _) as [[[resp|] [e|]] w1|w1|] eqn:Hrun;
    try discriminate.
  destruct (ReadAll resp w1) as [e|body] eqn:Hread; [ discriminate | ].
  destruct (Z.eqb_spec (StatusCode resp) 200) as [H200|]; [ | discriminate ].
  cbn [negb] in H.
  destruct (decodePage _ _ body) as [cur|] eqn:Hdec; [ | discriminate ].
  (* the run of the executor *)
  unfold doRequestWithRetry in Hrun.
  destruct (retryLoop_final c ctx (get_request c url) fuel 0 None w w1 resp Hrun)
    as [[[=] _] | (n & r & Hsent & Hclosed & Hr & -> & Hretried)].
  { rewrite H200. reflexivity. }
  cbn [StatusCode received] in H200.
  assert (Hbody : payload (Body r) = inr body).
  { unfold ReadAll in Hread. cbn [received Body stream payload] in Hread.
    rewrite bool_decide_eq_false_2 in Hread; [ exact Hread | ].
    rewrite Hclosed, elem_of_app, elem_of_seq.
    intros [Hin | Hin]; [ apply Hfresh in Hin | ]; lia. }
  assert (Hlen1 : length (sent w1) = (length (sent w) + S n)%nat)
    by now rewrite Hsent, length_app, length_replicate.
  assert (Hfresh1 : streams_fresh w1).
  { intros k. rewrite Hclosed, Hlen1, elem_of_app, elem_of_seq.
    intros [Hin | Hin]; [ apply Hfresh in Hin | ]; lia. }
  assert (Hpage : ∀ more,
             pages_answered c (sent w1 ++ more) (length (sent w)) (S n) = [r]).
  { intros more.
    apply (pages_answered_executor c (get_request c url)); try done.
    intros k Hk. rewrite lookup_app_l by lia.
    rewrite Hsent, lookup_app_r by lia.
    apply lookup_replicate. split; [ reflexivity | lia ]. }
  assert (Hlast : Ok (allSites ++ cur, @None error)
                    (runDeferred
                       (received (length (sent w) + n) r :: deferred) w1)
                  = Ok (sites, None) w' →
                  (∃ l, sent w' = sent w ++ l)
                  ∧ ∃ decoded : list (list SiteRecord),
                      Forall2 (λ r p, ∃ body, payload (Body r) = inr body
                                              ∧ decode body = Some p)
                        (pages_between c w w') decoded
                      ∧ sites = allSites ++ concat decoded
                      ∧ decoded ≠ []
                      ∧ Forall (λ p, (1000 <= length p)%nat)
                          (removelast decoded)).
  { intros [= <- <-]. unfold pages_between.
    rewrite !runDeferred_sent. cbn [Close sent].
    split; [ exists (replicate (S n) (get_request c url)); exact Hsent | ].
    exists [cur].
    replace (length (sent w1) - length (sent w))%nat with (S n) by lia.
    specialize (Hpage []). rewrite app_nil_r in Hpage. rewrite Hpage.
    split; [ | split; [ | split ] ].
    - constructor; [ now exists body | constructor ].
    - cbn. now rewrite app_nil_r.
    - discriminate.
    - constructor. }
  destruct (String.eqb _ _); [ now apply Hlast | ].
  destruct (String.eqb _ _); [ now apply Hlast | ].
  destruct (Z.ltb_spec (Z.of_nat (length cur)) 1000); [ now apply Hlast | ].
  destruct (IH _ _ _ _ _ _ Hfresh1 H)
    as ((l & Hl) & decoded & Hall & -> & Hne & Hfull).
  split; [ exists (replicate (S n) (get_request c url) ++ l);
           now rewrite Hl, Hsent, app_assoc | ].
  exists (cur :: decoded). split; [ | split; [ | split ] ].
  - unfold pages_between in *.
    assert (Hlen' : length (sent w') = (length (sent w1) + length l)%nat)
      by now rewrite Hl, length_app.
    replace (length (sent w') - length (sent w))%nat
      with (S n + (length (sent w') - length (sent w1)))%nat by lia.
    rewrite pages_answered_add.
    rewrite Hl at 1. rewrite Hpage.
    replace (length (sent w) + S n)%nat with (length (sent w1)) by lia.
    constructor; [ now exists body | exact Hall ].
  - cbn [concat]. now rewrite <- !app_assoc.
  - discriminate.
  - destruct decoded as [|p decoded]; [ done | ].
    change (removelast (cur :: p :: decoded))
      with (cur :: removelast (p :: decoded)).
    constructor; [ lia | exact Hfull ].
Qed.

End ListResult.

(** The three pages of 1000, 1000 and 400 sites, with the server out of
    service at the second call: four calls, three of them answered with a
    page, and the result is the three pages in the order of these calls. *)
Lemma list_result_is_concatenation_witness :
  ∃ decoded : list (list nat),
    Forall2 (λ r p, ∃ body, payload (Body r) = inr body
                            ∧ decodePage Scenario.wrapped Scenario.direct body
                              = Some p)
      [Scenario.page (Scenario.next_link Scenario.secondURL)
         "{data: sites 0..999}";
       Scenario.page (Scenario.next_link Scenario.thirdURL)
         "{data: sites 1000..1999}";
       Scenario.page EmptyString "{data: sites 2000..2399}"]
      decoded
    ∧ Scenario.page1 ++ Scenario.page2 ++ Scenario.page3
      = [] ++ concat decoded
    ∧ decoded ≠ []
    ∧ Forall (λ p, (1000 <= length p)%nat) (removelast decoded).
Proof.
  pose (c := Scenario.client Scenario.flakyPager 3).
  pose (w' := mkWorld
                [get_request c Scenario.firstURL;
                 get_request c Scenario.secondURL;
                 get_request c Scenario.secondURL;
                 get_request c Scenario.thirdURL]
                [1; 3; 2; 0]%nat [0]).
  assert (H : listLoop Scenario.wrapped Scenario.direct Scenario.anyURL 3 2 c
                Scenario.background Scenario.firstURL [] [] world0
              = Ok (Scenario.page1 ++ Scenario.page2 ++ Scenario.page3, None)
                   w')
    by (vm_compute; reflexivity).
  assert (Hfresh : streams_fresh world0).
  { intros k Hk. cbn in Hk. apply elem_of_nil in Hk. destruct Hk. }
  assert (Hpages : pages_between c world0 w'
                   = [Scenario.page (Scenario.next_link Scenario.secondURL)
                        "{data: sites 0..999}";
                      Scenario.page (Scenario.next_link Scenario.thirdURL)
                        "{data: sites 1000..1999}";
                      Scenario.page EmptyString "{data: sites 2000..2399}"])
    by (vm_compute; reflexivity).
  rewrite <- Hpages.
  exact (list_result_is_concatenation Scenario.wrapped Scenario.direct
           Scenario.anyURL 3 2 c Scenario.background Scenario.firstURL [] []
           world0 w' _ Hfresh H).
Defined.
